(** * booksearch: the catalog client, the response normalizer and the
      library-location pipeline

    A shallow embedding of [narou_api.py], [map_utils.py],
    [openai_utils.py] and the orchestration of [app.py] (the submit block,
    the library search block and the map section), with the properties of
    the specification stated over it, and further properties of the code
    after them.

    Conventions.
    - A Python [str] is the [string] of its UTF-8 encoding; [Py.chars]
      cuts it into its characters, on which the [str] methods work.
    - A Python [dict] with string keys is a [gmap string _].
    - A call that may raise returns an [outcome]; code with effects
      (printing, the network, pandas objects, Streamlit) runs in a state
      and exception monad over an explicit world.
    - The third-party libraries the program calls (ElementTree's parser,
      [requests], pandas' numeric parser, [st.map], [json.loads], the
      OpenAI client) are parameters of the development; reference
      instances and stand-ins are given for evaluating the program on
      concrete inputs. *)

From Stdlib Require Import Ascii String ZArith.
From stdpp Require Import base option list strings gmap fin_maps pretty.

Set Warnings "-register-all".

Local Open Scope string_scope.
Local Open Scope Z_scope.

(* ===================================================================== *)
(** * The Python runtime *)
(* ===================================================================== *)

Module Py.

(** Classes of [requests.exceptions.RequestException]. *)
Inductive request_error : Type :=
| ReqConnectionError
| ReqTimeout
| ReqTooManyRedirects
| ReqHTTPError
| ReqOther.

(** Instances of Python's [Exception]: what [except Exception] catches. *)
Inductive exn : Type :=
| ValueError (msg : string)
| KeyError (key : string)
| ParseError (msg : string)
| RequestException (kind : request_error) (msg : string)
| ConnectionError (msg : string) (cause : exn)
| OtherException (cls msg : string).

(** [str(e)] *)
Definition str (e : exn) : string :=
  match e with
  | ValueError msg => msg
  | KeyError key => "'" +:+ key +:+ "'"
  | ParseError msg => msg
  | RequestException _ msg => msg
  | ConnectionError msg _ => msg
  | OtherException _ msg => msg
  end.

(** [isinstance(e, requests.exceptions.RequestException)] *)
Definition is_RequestException (e : exn) : bool :=
  match e with
  | RequestException _ _ => true
  | _ => false
  end.

(** [isinstance(e, ET.ParseError)] *)
Definition is_ParseError (e : exn) : bool :=
  match e with
  | ParseError _ => true
  | _ => false
  end.

(** [e.__cause__], set by [raise ... from e] *)
Definition cause (e : exn) : option exn :=
  match e with
  | ConnectionError _ c => Some c
  | _ => None
  end.

Inductive outcome (A : Type) : Type :=
| Return (a : A)
| Raise (e : exn).
Arguments Return {A} a.
Arguments Raise {A} e.

(** Sequencing two calls that may raise. *)
Definition and_then {A B} (o : outcome A) (k : A -> outcome B) : outcome B :=
  match o with
  | Return a => k a
  | Raise e => Raise e
  end.

(** ** [str] methods

    A [string] holds the UTF-8 encoding of a Python [str]: its characters
    are the code points that [chars] cuts it into. *)

(** A byte that continues a character (10xxxxxx). *)
Definition is_continuation (c : ascii) : bool :=
  let n := nat_of_ascii c in
  Nat.leb 128 n && Nat.ltb n 192.

Definition starts_with_continuation (s : string) : bool :=
  match s with
  | EmptyString => false
  | String c _ => is_continuation c
  end.

(** The characters of [s], each with its bytes: a byte and the
    continuation bytes that follow it. *)
Fixpoint chars (s : string) : list string :=
  match s with
  | EmptyString => []
  | String c s' =>
      match chars s' with
      | ch :: rest =>
          if starts_with_continuation ch then String c ch :: rest
          else String c EmptyString :: ch :: rest
      | [] => [String c EmptyString]
      end
  end.

(** The string of a list of characters. *)
Definition unchars (l : list string) : string := foldr String.append EmptyString l.

(** [ord(ch)] for a character given by its bytes; [None] for bytes that
    encode no code point. *)
Definition ord (ch : string) : option Z :=
  match (fun c => Z.of_nat (nat_of_ascii c)) <$> list_ascii_of_string ch with
  | [a] => if a <? 128 then Some a else None
  | [a; b] =>
      let cp := (a - 192) * 64 + (b - 128) in
      if (192 <=? a) && (a <? 224) && (128 <=? cp) then Some cp else None
  | [a; b; c] =>
      let cp := (a - 224) * 4096 + (b - 128) * 64 + (c - 128) in
      if (224 <=? a) && (a <? 240) && (2048 <=? cp) then Some cp else None
  | [a; b; c; d] =>
      let cp := (a - 240) * 262144 + (b - 128) * 4096 + (c - 128) * 64 + (d - 128) in
      if (240 <=? a) && (a <? 248) && (65536 <=? cp) && (cp <=? 1114111) then Some cp
      else None
  | _ => None
  end.

(** [c.isspace()] for the code point [cp]: the characters Unicode
    classes as whitespace. *)
Definition isspace (cp : Z) : bool :=
  ((9 <=? cp) && (cp <=? 13)) || ((28 <=? cp) && (cp <=? 32))
  || (cp =? 133) || (cp =? 160) || (cp =? 5760)
  || ((8192 <=? cp) && (cp <=? 8202))
  || (cp =? 8232) || (cp =? 8233) || (cp =? 8239) || (cp =? 8287) || (cp =? 12288).

(** [ch.isspace()] for a character given by its bytes. *)
Definition is_space (ch : string) : bool :=
  match ord ch with
  | Some cp => isspace cp
  | None => false
  end.

(** A list of characters without the whitespace at its beginning. *)
Fixpoint lstrip_chars (l : list string) : list string :=
  match l with
  | [] => []
  | ch :: l' => if is_space ch then lstrip_chars l' else l
  end.

(** A list of characters without the whitespace at its end. *)
Fixpoint rstrip_chars (l : list string) : list string :=
  match l with
  | [] => []
  | ch :: l' =>
      match rstrip_chars l' with
      | [] => if is_space ch then [] else [ch]
      | t => ch :: t
      end
  end.

(** [s.lstrip()] *)
Definition lstrip (s : string) : string := unchars (lstrip_chars (chars s)).

(** [s.rstrip()] *)
Definition rstrip (s : string) : string := unchars (rstrip_chars (chars s)).

(** [s.strip()] *)
Definition strip (s : string) : string :=
  unchars (rstrip_chars (lstrip_chars (chars s))).

(** Predicates for stating what [strip] does. *)
Definition all_space (s : string) : bool := forallb is_space (chars s).

Definition starts_with_space (s : string) : bool :=
  match chars s with
  | [] => false
  | ch :: _ => is_space ch
  end.

Definition ends_with_space (s : string) : bool :=
  match last (chars s) with
  | None => false
  | Some ch => is_space ch
  end.

(** A character as [chars] cuts it: a byte and continuation bytes. *)
Definition is_char (ch : string) : bool :=
  match ch with
  | EmptyString => false
  | String _ rest => forallb is_continuation (list_ascii_of_string rest)
  end.

(** A list of characters as [chars] cuts it: only the first may begin
    with a continuation byte. *)
Fixpoint well_cut (first : bool) (l : list string) : bool :=
  match l with
  | [] => true
  | ch :: l' =>
      is_char ch && (first || negb (starts_with_continuation ch)) && well_cut false l'
  end.

(** Truth value of a [str]: false exactly for the empty string. *)
Definition truthy (s : string) : bool :=
  match s with
  | EmptyString => false
  | String _ _ => true
  end.

(** ** State and exception monad

    [M S A] is a computation over a world of type [S] that returns an [A]
    or raises; the world it leaves behind is kept in both cases. *)
Definition M (S A : Type) : Type := S -> outcome A * S.

Definition ret {S A} (a : A) : M S A := fun w => (Return a, w).

Definition raise {S A} (e : exn) : M S A := fun w => (Raise e, w).

Definition bind {S A B} (m : M S A) (k : A -> M S B) : M S B :=
  fun w =>
    match m w with
    | (Return a, w') => k a w'
    | (Raise e, w') => (Raise e, w')
    end.

(** [try: body / except Exception as e: handler e] *)
Definition try_except {S A} (body : M S A) (handler : exn -> M S A) : M S A :=
  fun w =>
    match body w with
    | (Return a, w') => (Return a, w')
    | (Raise e, w') => handler e w'
    end.

Definition lift {S A} (o : outcome A) : M S A := fun w => (o, w).

Definition get {S} : M S S := fun w => (Return w, w).

Definition modify {S} (f : S -> S) : M S unit := fun w => (Return tt, f w).

End Py.

Export Py.

Notation "x <- m ;; k" := (bind m (fun x => k))
  (at level 100, m at next level, right associativity).
Notation "m ;; k" := (bind m (fun _ => k))
  (at level 100, right associativity).

(* ===================================================================== *)
(** * [xml.etree.ElementTree] *)
(* ===================================================================== *)

Module ET.

Inductive Element : Type :=
  mkElement {
    tag : string;
    attrib : list (string * string);
    text : option string;
    tail : option string;
    children : list Element
  }.

(** [e.findall(name)] for a plain element name: the direct children of
    [e] tagged [name], in document order. *)
Definition findall (e : Element) (name : string) : list Element :=
  filter (fun c => tag c = name) (children e).

(** [e.find(name)] for a plain element name: the first direct child of
    [e] tagged [name], or [None]. *)
Definition find (e : Element) (name : string) : option Element :=
  head (findall e name).

(** ** A reference parser

    [fromstring] below accepts the documents made of start tags [<n>],
    end tags [</n>], empty-element tags [<n/>] and character data free of
    [&]; it builds the tree ElementTree builds for them and raises
    [ParseError] on everything else. *)

Inductive token : Type :=
| TStart (name : string)
| TEnd (name : string)
| TEmpty (name : string)
| TText (s : string).

Definition is_name_start (c : ascii) : bool :=
  let n := nat_of_ascii c in
  (Nat.leb 65 n && Nat.leb n 90) || (Nat.leb 97 n && Nat.leb n 122)
  || Nat.eqb n 95.

Definition is_name_char (c : ascii) : bool :=
  let n := nat_of_ascii c in
  is_name_start c || (Nat.leb 48 n && Nat.leb n 57)
  || Nat.eqb n 45 || Nat.eqb n 46.

Definition is_name (cs : list ascii) : bool :=
  match cs with
  | [] => false
  | c :: cs' => is_name_start c && forallb is_name_char cs'
  end.

Definition name_token (mk : string -> token) (cs : list ascii) : option token :=
  if is_name cs then Some (mk (string_of_list_ascii cs)) else None.

(** The token of the markup between [<] and [>]. *)
Definition markup (cs : list ascii) : option token :=
  match cs with
  | "/"%char :: cs' => name_token TEnd cs'
  | _ =>
      match rev cs with
      | "/"%char :: rcs => name_token TEmpty (rev rcs)
      | _ => name_token TStart cs
      end
  end.

Definition flush (acc : list ascii) : list token :=
  match acc with
  | [] => []
  | _ => [TText (string_of_list_ascii (rev acc))]
  end.

Inductive mode : Type :=
| InText (acc : list ascii)
| InTag (acc : list ascii).

Fixpoint lex (m : mode) (s : string) : option (list token) :=
  match s with
  | EmptyString =>
      match m with
      | InText acc => Some (flush acc)
      | InTag _ => None
      end
  | String c s' =>
      match m with
      | InText acc =>
          if Ascii.eqb c "<" then
            match lex (InTag []) s' with
            | Some ts => Some (flush acc ++ ts)%list
            | None => None
            end
          else if Ascii.eqb c "&" then None
          else lex (InText (c :: acc)) s'
      | InTag acc =>
          if Ascii.eqb c ">" then
            match markup (rev acc), lex (InText []) s' with
            | Some t, Some ts => Some (t :: ts)
            | _, _ => None
            end
          else if Ascii.eqb c "<" then None
          else lex (InTag (c :: acc)) s'
      end
  end.

(** An element under construction: its tag, its text, and its children
    so far, last child first. *)
Record frame : Type :=
  mkFrame {
    f_tag : string;
    f_text : option string;
    f_children : list Element
  }.

(** White space as XML has it: space, tab, line feed, carriage return. *)
Definition is_xml_space (c : ascii) : bool :=
  let n := nat_of_ascii c in
  Nat.eqb n 32 || Nat.eqb n 9 || Nat.eqb n 10 || Nat.eqb n 13.

Definition is_blank (s : string) : bool :=
  forallb is_xml_space (list_ascii_of_string s).

Definition set_tail (s : string) (e : Element) : Element :=
  mkElement (tag e) (attrib e) (text e) (Some s) (children e).

Definition add_text (s : string) (f : frame) : frame :=
  match f_children f with
  | [] => mkFrame (f_tag f) (Some s) []
  | last :: before => mkFrame (f_tag f) (f_text f) (set_tail s last :: before)
  end.

Definition add_child (e : Element) (f : frame) : frame :=
  mkFrame (f_tag f) (f_text f) (e :: f_children f).

Definition close (f : frame) : Element :=
  mkElement (f_tag f) [] (f_text f) None (rev (f_children f)).

(** [build stack root ts]: [stack] holds the open elements, innermost
    first; [root] is the document element once it has been closed. *)
Fixpoint build (stack : list frame) (root : option Element) (ts : list token)
  : option Element :=
  match ts with
  | [] =>
      match stack with
      | [] => root
      | _ :: _ => None
      end
  | TText s :: ts' =>
      match stack with
      | [] => if is_blank s then build [] root ts' else None
      | f :: outer => build (add_text s f :: outer) root ts'
      end
  | TStart n :: ts' =>
      match stack, root with
      | [], Some _ => None
      | _, _ => build (mkFrame n None [] :: stack) root ts'
      end
  | TEmpty n :: ts' =>
      let e := mkElement n [] None None [] in
      match stack, root with
      | [], Some _ => None
      | [], None => build [] (Some e) ts'
      | f :: outer, _ => build (add_child e f :: outer) root ts'
      end
  | TEnd n :: ts' =>
      match stack with
      | [] => None
      | f :: outer =>
          if String.eqb (f_tag f) n then
            match outer with
            | [] => build [] (Some (close f)) ts'
            | g :: outer' => build (add_child (close f) g :: outer') root ts'
            end
          else None
      end
  end.

Definition fromstring (s : string) : outcome Element :=
  match lex (InText []) s with
  | Some ts =>
      match build [] None ts with
      | Some root => Return root
      | None => Raise (ParseError "not well-formed (invalid token)")
      end
  | None => Raise (ParseError "not well-formed (invalid token)")
  end.

End ET.

(* ===================================================================== *)
(** * [requests] *)
(* ===================================================================== *)

Module requests.

Inductive param : Type :=
| PStr (s : string)
| PInt (n : Z).

(** One [requests.get(url, params=..., timeout=...)] call. *)
Record Request : Type :=
  mkRequest {
    endpoint : string;
    params : list (string * param);
    timeout : Z
  }.

Record Response : Type :=
  mkResponse {
    status_code : Z;
    reason : string;
    url : string;
    text : string
  }.

(** [response.raise_for_status()]: raises [HTTPError] for a 4xx or 5xx
    status and returns otherwise. *)
Definition raise_for_status (r : Response) : outcome unit :=
  if (400 <=? status_code r) && (status_code r <? 500) then
    Raise (RequestException ReqHTTPError
             (pretty (status_code r) +:+ " Client Error: " +:+ reason r
              +:+ " for url: " +:+ url r))
  else if (500 <=? status_code r) && (status_code r <? 600) then
    Raise (RequestException ReqHTTPError
             (pretty (status_code r) +:+ " Server Error: " +:+ reason r
              +:+ " for url: " +:+ url r))
  else Return tt.

End requests.

(* ===================================================================== *)
(** * The world of [narou_api.py] *)
(* ===================================================================== *)

(** What the catalog client can touch: standard output and the network.
    [net_log] lists the requests issued so far, oldest first. *)
Record World : Type :=
  mkWorld {
    stdout : list string;
    net_log : list requests.Request
  }.

(** [print(line)] *)
Definition print (line : string) : M World unit :=
  modify (fun w => mkWorld (stdout w ++ [line])%list (net_log w)).

(** A field mapping: one Book Record or Library Record. *)
Abbreviation record := (gmap string string).

Definition BASE_URL : string := "http://data4library.kr/api".

Section narou_api.

(** [ET.fromstring], the document parser. *)
Variable fromstring : string -> outcome ET.Element.

(** The remote service as [requests.get] sees it: given the requests
    issued before and the present one, a response or an exception. *)
Variable remote : list requests.Request -> requests.Request -> outcome requests.Response.

(** [requests.get(endpoint, params=params, timeout=timeout)] *)
Definition requests_get (endpoint : string) (params : list (string * requests.param))
    (timeout : Z) : M World requests.Response :=
  fun w =>
    let q := requests.mkRequest endpoint params timeout in
    (remote (net_log w) q, mkWorld (stdout w) (net_log w ++ [q])%list).

(** [child.text.strip() if child.text else ""] *)
Definition text_content (child : ET.Element) : string :=
  match ET.text child with
  | Some t => if truthy t then strip t else ""
  | None => ""
  end.

(** The inner loop of [_parse_xml_response]: [item_data] after the pass
    over the children of [item_elem]. *)
Definition item_data_of (item_elem : ET.Element) : record :=
  fold_left (fun item_data child => <[ET.tag child := text_content child]> item_data)
    (ET.children item_elem) (∅ : record).

(** The outer loop of [_parse_xml_response]: [items] after the pass over
    [item_elements]. *)
Definition collect (item_elements : list ET.Element) (items : list record)
  : list record :=
  fold_left
    (fun items item_elem =>
       let item_data := item_data_of item_elem in
       if decide (item_data = ∅) then items else (items ++ [item_data])%list)
    item_elements items.

(** The element scanned for items: [root.find(result_tag)], or [root]
    itself when that is [None]. *)
Definition results_element_of (root : ET.Element) (result_tag : string)
  : ET.Element :=
  match ET.find root result_tag with
  | None => root
  | Some e => e
  end.

Definition _parse_xml_response (xml_string result_tag item_tag : string)
  : M World (list record) :=
  let items : list record := [] in
  try_except
    (root <- lift (fromstring xml_string) ;;
     let results_element := results_element_of root result_tag in
     let item_elements := ET.findall results_element item_tag in
     ret (collect item_elements items))
    (fun e =>
       if is_ParseError e then
         print ("XML Parsing Error: " +:+ str e) ;; ret items
       else
         print ("Error parsing XML: " +:+ str e) ;; ret items).

(** [search_books(query, api_key, page_no=1, page_size=20)] *)
Definition search_books (query api_key : string) (page_no page_size : Z)
  : M World (list record) :=
  if negb (truthy api_key) then
    raise (ValueError "Narou API key is not configured.")
  else
    let endpoint := BASE_URL +:+ "/srchBooks" in
    let params :=
      [("authKey", requests.PStr api_key);
       ("keyword", requests.PStr query);
       ("pageNo", requests.PInt page_no);
       ("pageSize", requests.PInt page_size);
       ("format", requests.PStr "xml")] in
    try_except
      (response <- requests_get endpoint params 15 ;;
       lift (requests.raise_for_status response) ;;
       _parse_xml_response (requests.text response) "docs" "doc")
      (fun e =>
         if is_RequestException e then
           print ("Error during Narou API book search request: " +:+ str e) ;;
           raise (ConnectionError ("Failed to connect to Narou API: " +:+ str e) e)
         else
           print ("An unexpected error occurred during book search: " +:+ str e) ;;
           ret []).

(** [find_libraries_for_book(isbn13, api_key, region_code="11", page_no=1,
    page_size=50)] *)
Definition find_libraries_for_book (isbn13 api_key region_code : string)
    (page_no page_size : Z) : M World (list record) :=
  if negb (truthy api_key) then
    raise (ValueError "Narou API key is not configured.")
  else if negb (truthy isbn13) then
    raise (ValueError "ISBN13 must be provided to find libraries.")
  else if negb (truthy region_code) then
    raise (ValueError "Region code must be provided for library search.")
  else
    let endpoint := BASE_URL +:+ "/libSrchByBook" in
    let params :=
      [("authKey", requests.PStr api_key);
       ("isbn", requests.PStr isbn13);
       ("region", requests.PStr region_code);
       ("pageNo", requests.PInt page_no);
       ("pageSize", requests.PInt page_size);
       ("format", requests.PStr "xml")] in
    try_except
      (response <- requests_get endpoint params 20 ;;
       lift (requests.raise_for_status response) ;;
       _parse_xml_response (requests.text response) "libs" "lib")
      (fun e =>
         if is_RequestException e then
           print ("Error during Narou API library search request: " +:+ str e) ;;
           raise (ConnectionError ("Failed to connect to Narou API: " +:+ str e) e)
         else
           print ("An unexpected error occurred during library search: " +:+ str e) ;;
           ret []).

End narou_api.

(* ===================================================================== *)
(** * [pandas] *)
(* ===================================================================== *)

Module pd.
Section frames.

(** The non-NaN values of a float64 column. *)
Context {num : Type} {num_eq : EqDecision num}.

(** The numeric parser behind [pd.to_numeric(..., errors='coerce')]:
    [None] when the string is coerced to NaN. *)
Variable to_num : string -> option num.

(** A cell: a string object, a number, or NaN (a missing value). *)
Inductive cell : Type :=
| Str (s : string)
| Num (x : num)
| NaN.

#[global] Instance cell_eq_dec : EqDecision cell.
Proof. solve_decision. Defined.

(** A frame: its column labels and its rows, each with its index label. *)
Record DataFrame : Type :=
  mkDataFrame {
    columns : gset string;
    rows : list (nat * gmap string cell)
  }.

(** A column taken out of a frame: index labels and values. *)
Definition Series : Type := list (nat * cell).

Definition at_col (r : gmap string cell) (c : string) : cell :=
  default NaN (r !! c).

(** The row a dict becomes in a frame with columns [cols]: its values as
    strings, NaN under every other column. *)
Definition row_of (cols : gset string) (r : record) : gmap string cell :=
  (Str <$> r) ∪ gset_to_gmap NaN cols.

(** [pd.DataFrame(records)] for a list of dicts: the columns are the keys
    that occur, the index is 0, 1, ..., a key a record lacks is NaN. *)
Definition of_records (records : list record) : DataFrame :=
  let cols : gset string := ⋃ (dom <$> records) in
  mkDataFrame cols (imap (fun i r => (i, row_of cols r)) records).

(** [pd.DataFrame()] *)
Definition empty_frame : DataFrame := mkDataFrame ∅ [].

(** [df.empty] *)
Definition empty (df : DataFrame) : bool :=
  bool_decide (rows df = []) || bool_decide (columns df = ∅).

(** [df[c]] *)
Definition getitem (df : DataFrame) (c : string) : outcome Series :=
  if decide (c ∈ columns df) then
    Return ((fun ir : nat * gmap string cell => (ir.1, at_col ir.2 c)) <$> rows df)
  else Raise (KeyError c).

Definition to_numeric_cell (v : cell) : cell :=
  match v with
  | Str s =>
      match to_num s with
      | Some x => Num x
      | None => NaN
      end
  | Num x => Num x
  | NaN => NaN
  end.

(** [pd.to_numeric(s, errors='coerce')] *)
Definition to_numeric (s : Series) : Series :=
  (fun iv : nat * cell => (iv.1, to_numeric_cell iv.2)) <$> s.

(** [df[c] = s], for a series [s] that carries the index of [df]: the
    values are assigned row by row. *)
Definition setitem (df : DataFrame) (c : string) (s : Series) : DataFrame :=
  mkDataFrame (columns df ∪ {[c]})
    (zip_with (fun (ir : nat * gmap string cell) (iv : nat * cell) =>
                 (ir.1, <[c := iv.2]> ir.2))
       (rows df) s).

(** [pd.isna(v)] *)
Definition isna (v : cell) : bool :=
  match v with
  | NaN => true
  | _ => false
  end.

Definition missing_columns (df : DataFrame) (subset : list string) : list string :=
  filter (fun c => c ∉ columns df) subset.

(** [df.dropna(subset=subset)] *)
Definition dropna (subset : list string) (df : DataFrame) : outcome DataFrame :=
  match missing_columns df subset with
  | c :: _ => Raise (KeyError c)
  | [] =>
      Return (mkDataFrame (columns df)
                (filter (fun ir : nat * gmap string cell =>
                           forallb (fun c => negb (isna (at_col ir.2 c))) subset = true)
                   (rows df)))
  end.

(** The rows kept by [drop_duplicates(keep='first')]: [seen] holds the
    keys of the rows passed so far. NaN is equal to NaN here. *)
Fixpoint keep_first (subset : list string) (seen : list (list cell))
    (rs : list (nat * gmap string cell)) : list (nat * gmap string cell) :=
  match rs with
  | [] => []
  | ir :: rs' =>
      let k := at_col ir.2 <$> subset in
      if decide (k ∈ seen) then keep_first subset seen rs'
      else ir :: keep_first subset (k :: seen) rs'
  end.

(** [repr] of the [Index] of the labels [labels], as pandas prints an
    index of strings. *)
Definition index_repr (labels : list string) : string :=
  "Index([" +:+ String.concat ", " ((fun c => "'" +:+ c +:+ "'") <$> labels)
  +:+ "], dtype='object')".

(** [df.drop_duplicates(subset=subset)]; with labels that are not columns
    it raises [KeyError(Index(labels))], whose [str] is the [repr] of the
    index. *)
Definition drop_duplicates (subset : list string) (df : DataFrame)
  : outcome DataFrame :=
  match missing_columns df subset with
  | c :: cs => Raise (OtherException "KeyError" (index_repr (c :: cs)))
  | [] => Return (mkDataFrame (columns df) (keep_first subset [] (rows df)))
  end.

(** [df[cols]] for a list of labels *)
Definition select (cols : list string) (df : DataFrame) : outcome DataFrame :=
  match missing_columns df cols with
  | c :: _ => Raise (KeyError c)
  | [] =>
      Return (mkDataFrame (list_to_set cols)
                ((fun ir : nat * gmap string cell =>
                    (ir.1, filter (fun kv => kv.1 ∈ cols) ir.2)) <$> rows df))
  end.

End frames.

Arguments cell : clear implicits.
Arguments DataFrame : clear implicits.
Arguments Series : clear implicits.

End pd.

(** ** A reference numeric parser

    [Decimal.to_num] reads the plain decimal literals (an optional sign,
    digits, optionally a point and more digits) as a scaled integer
    [(m, k)], standing for m / 10^k with no trailing zero in the fraction;
    it takes every other string as not numeric. *)
Module Decimal.

Definition digit (c : ascii) : option Z :=
  let n := nat_of_ascii c in
  if Nat.leb 48 n && Nat.leb n 57 then Some (Z.of_nat n - 48) else None.

Fixpoint digits_value (acc : Z) (cs : list ascii) : option Z :=
  match cs with
  | [] => Some acc
  | c :: cs' =>
      match digit c with
      | Some d => digits_value (10 * acc + d) cs'
      | None => None
      end
  end.

Fixpoint split_point (cs : list ascii) : list ascii * list ascii :=
  match cs with
  | [] => ([], [])
  | c :: cs' =>
      if Ascii.eqb c "." then ([], cs')
      else (c :: (split_point cs').1, (split_point cs').2)
  end.

Fixpoint normalise (scale : nat) (m : Z) : Z * nat :=
  match scale with
  | O => (m, O)
  | S k => if m mod 10 =? 0 then normalise k (m / 10) else (m, scale)
  end.

Definition unsigned (cs : list ascii) : option (Z * nat) :=
  let (int_part, frac_part) := split_point cs in
  match (int_part ++ frac_part)%list with
  | [] => None
  | ds =>
      match digits_value 0 ds with
      | Some m => Some (normalise (length frac_part) m)
      | None => None
      end
  end.

Definition to_num (s : string) : option (Z * nat) :=
  match list_ascii_of_string s with
  | "-"%char :: cs =>
      match unsigned cs with
      | Some (m, k) => Some (- m, k)
      | None => None
      end
  | "+"%char :: cs => unsigned cs
  | cs => unsigned cs
  end.

End Decimal.

(* ===================================================================== *)
(** * The world of [app.py] and [map_utils.py] *)
(* ===================================================================== *)

(** A reference to a pandas object. *)
Abbreviation loc := positive.

(** [app.py], lines 311-321: the title in the header of the map, from
    [st.session_state.search_results] and the selected identifier. *)
Definition selected_book_title (search_results : option (list record))
    (selected_book_isbn : option string) : string :=
  match search_results, selected_book_isbn with
  | Some (b :: results_list), Some isbn =>
      if truthy isbn then
        match list_find (fun b : record => b !! "isbn13" = Some isbn) (b :: results_list) with
        | Some (_, book_info) =>
            if bool_decide (book_info <> ∅) then default "선택된 도서" (book_info !! "bookname")
            else "선택된 도서"
        | None => "선택된 도서"
        end
      else "선택된 도서"
  | _, _ => "선택된 도서"
  end.

Section app.

Context {num : Type} {num_eq : EqDecision num}.

Variable to_num : string -> option num.
Variable fromstring : string -> outcome ET.Element.
Variable remote : list requests.Request -> requests.Request -> outcome requests.Response.

(** The exception [st.map] raises on a frame, if any. *)
Variable st_map_raises : pd.DataFrame num -> option exn.

(** What Streamlit is asked to show. A spinner, which is on the page only
    while its block runs, is not recorded. *)
Inductive ui_event : Type :=
| StWarning (msg : string)
| StError (msg : string)
| StMap (df : pd.DataFrame num)
| StRerun
| StSubheader (body : string)
| StMarkdown (body : string).

(** The fields of [st.session_state] the library search and the map
    read and write. *)
Record SessionState : Type :=
  mkSession {
    selected_book_isbn : option string;
    library_locations : option loc;
    error_message : option string;
    loading : bool
  }.

Record AppWorld : Type :=
  mkApp {
    io : World;
    heap : gmap loc (pd.DataFrame num);
    ui : list ui_event;
    session : SessionState
  }.

(** ** Effects *)

(** A call into [narou_api]. *)
Definition call {A} (m : M World A) : M AppWorld A :=
  fun w =>
    let (o, io') := m (io w) in
    (o, mkApp io' (heap w) (ui w) (session w)).

Definition emit (ev : ui_event) : M AppWorld unit :=
  modify (fun w => mkApp (io w) (heap w) (ui w ++ [ev])%list (session w)).

Definition st_warning (msg : string) : M AppWorld unit := emit (StWarning msg).
Definition st_error (msg : string) : M AppWorld unit := emit (StError msg).
Definition st_rerun : M AppWorld unit := emit StRerun.
Definition st_subheader (body : string) : M AppWorld unit := emit (StSubheader body).
Definition st_markdown (body : string) : M AppWorld unit := emit (StMarkdown body).

(** [st.map(df)] *)
Definition st_map (df : pd.DataFrame num) : M AppWorld unit :=
  match st_map_raises df with
  | Some e => raise e
  | None => emit (StMap df)
  end.

(** A new pandas object. *)
Definition alloc (df : pd.DataFrame num) : M AppWorld loc :=
  fun w =>
    let l := fresh (dom (heap w)) in
    (Return l, mkApp (io w) (<[l := df]> (heap w)) (ui w) (session w)).

(** The object behind a reference. Every reference a Python program holds
    is live; the model raises on one that is not. *)
Definition deref (l : loc) : M AppWorld (pd.DataFrame num) :=
  fun w =>
    match heap w !! l with
    | Some df => (Return df, w)
    | None => (Raise (OtherException "ReferenceError" "no such object"), w)
    end.

(** Overwrite the object behind a reference (an in-place update). *)
Definition store (l : loc) (df : pd.DataFrame num) : M AppWorld unit :=
  modify (fun w => mkApp (io w) (<[l := df]> (heap w)) (ui w) (session w)).

(** [df.copy()] *)
Definition copy (l : loc) : M AppWorld loc :=
  df <- deref l ;; alloc df.

(** [df[c] = pd.to_numeric(df[c], errors='coerce')] on the object [l] *)
Definition coerce_column (l : loc) (c : string) : M AppWorld unit :=
  df <- deref l ;;
  s <- lift (pd.getitem df c) ;;
  store l (pd.setitem df c (pd.to_numeric to_num s)).

(** [df.dropna(subset=subset, inplace=True)] on the object [l] *)
Definition dropna_inplace (l : loc) (subset : list string) : M AppWorld unit :=
  df <- deref l ;;
  df' <- lift (pd.dropna subset df) ;;
  store l df'.

(** [df.drop_duplicates(subset=subset, inplace=True)] on the object [l] *)
Definition drop_duplicates_inplace (l : loc) (subset : list string)
  : M AppWorld unit :=
  df <- deref l ;;
  df' <- lift (pd.drop_duplicates subset df) ;;
  store l df'.

Definition set_library_locations (v : option loc) : M AppWorld unit :=
  modify (fun w =>
    mkApp (io w) (heap w) (ui w)
      (mkSession (selected_book_isbn (session w)) v
         (error_message (session w)) (loading (session w)))).

Definition set_error_message (msg : string) : M AppWorld unit :=
  modify (fun w =>
    mkApp (io w) (heap w) (ui w)
      (mkSession (selected_book_isbn (session w)) (library_locations (session w))
         (Some msg) (loading (session w)))).

Definition set_loading (b : bool) : M AppWorld unit :=
  modify (fun w =>
    mkApp (io w) (heap w) (ui w)
      (mkSession (selected_book_isbn (session w)) (library_locations (session w))
         (error_message (session w)) b)).

(** The object [st.session_state.library_locations] refers to. *)
Definition the_library_locations : M AppWorld loc :=
  w <- get ;;
  match library_locations (session w) with
  | Some l => ret l
  | None => raise (OtherException "TypeError" "'NoneType' object is not subscriptable")
  end.

(** ** [map_utils.render_map] *)

Definition render_map (locations_df : option loc) : M AppWorld unit :=
  match locations_df with
  | None => st_warning "지도에 표시할 도서관 위치 정보가 없습니다."
  | Some l =>
      df <- deref l ;;
      if pd.empty df then
        st_warning "지도에 표시할 도서관 위치 정보가 없습니다."
      else if negb (forallb (fun col => bool_decide (col ∈ pd.columns df))
                      ["latitude"; "longitude"]) then
        st_error "지도 표시에 필요한 'latitude' 또는 'longitude' 컬럼이 없습니다."
      else
        map_df <- copy l ;;
        coerce_column map_df "latitude" ;;
        coerce_column map_df "longitude" ;;
        dropna_inplace map_df ["latitude"; "longitude"] ;;
        shown <- deref map_df ;;
        if pd.empty shown then
          st_warning "유효한 위도/경도 데이터를 가진 도서관이 없습니다."
        else
          try_except
            (points <- lift (pd.select ["latitude"; "longitude"] shown) ;;
             st_map points)
            (fun e => st_error ("지도 렌더링 중 오류 발생: " +:+ str e))
  end.

(** ** [app.py], step 4: find the libraries that hold the selected book *)

Definition truthy_opt (o : option string) : bool :=
  match o with
  | Some s => truthy s
  | None => false
  end.

(** The body of the [try] of step 4. *)
Definition library_search_try (NAROU_API_KEY : option string) (isbn : string)
  : M AppWorld unit :=
  (if negb (truthy_opt NAROU_API_KEY) then
     raise (ValueError "도서관 정보나루 API 키가 설정되지 않았습니다. .env 파일을 확인하세요.")
   else ret tt) ;;
  let api_key := default "" NAROU_API_KEY in
  libraries_seoul <-
    call (find_libraries_for_book fromstring remote isbn api_key "11" 1 50) ;;
  libraries_gyeonggi <-
    call (find_libraries_for_book fromstring remote isbn api_key "31" 1 50) ;;
  let libraries := (libraries_seoul ++ libraries_gyeonggi)%list in
  match libraries with
  | _ :: _ =>
      created <- alloc (pd.of_records libraries) ;;
      set_library_locations (Some created) ;;
      (l <- the_library_locations ;; coerce_column l "latitude") ;;
      (l <- the_library_locations ;; coerce_column l "longitude") ;;
      (l <- the_library_locations ;; dropna_inplace l ["latitude"; "longitude"]) ;;
      (l <- the_library_locations ;; drop_duplicates_inplace l ["libCode"]) ;;
      l <- the_library_locations ;;
      df <- deref l ;;
      if pd.empty df then
        set_error_message "도서관 정보를 찾았지만, 유효한 위치 데이터가 없습니다." ;;
        st_warning "도서관 정보를 찾았지만, 유효한 위치 데이터가 없습니다." ;;
        blank <- alloc pd.empty_frame ;;
        set_library_locations (Some blank)
      else ret tt
  | [] =>
      set_error_message "선택한 도서를 소장한 도서관 정보를 찾을 수 없습니다 (서울/경기 지역)." ;;
      st_warning "선택한 도서를 소장한 도서관 정보를 찾을 수 없습니다 (서울/경기 지역)." ;;
      blank <- alloc pd.empty_frame ;;
      set_library_locations (Some blank)
  end.

(** The [try] statement of step 4 with its [except Exception] handler. *)
Definition library_search_guarded (NAROU_API_KEY : option string) (isbn : string)
  : M AppWorld unit :=
  try_except
    (library_search_try NAROU_API_KEY isbn)
    (fun e =>
       set_error_message ("도서관 검색 중 오류 발생: " +:+ str e) ;;
       st_error ("도서관 검색 중 오류 발생: " +:+ str e) ;;
       blank <- alloc pd.empty_frame ;;
       set_library_locations (Some blank)).

(** Step 4: the guard, the [try] statement and its [finally]. *)
Definition library_search_block (NAROU_API_KEY : option string) : M AppWorld unit :=
  w <- get ;;
  if truthy_opt (selected_book_isbn (session w))
     && bool_decide (library_locations (session w) = None)
     && loading (session w)
  then
    library_search_guarded NAROU_API_KEY (default "" (selected_book_isbn (session w))) ;;
    set_loading false ;;
    w' <- get ;;
    if negb (loading (session w')) then st_rerun else ret tt
  else ret tt.

(** The map section of [app.py] (lines 306-324): unless
    [st.session_state.library_locations] is [None] or empty, it shows the
    subheader and the line with the title of the selected book and hands
    the table to [render_map]. [search_results] is
    [st.session_state.search_results], which the section reads for the
    title. *)
Definition display_map_block (search_results : option (list record)) : M AppWorld unit :=
  w <- get ;;
  match library_locations (session w) with
  | Some l =>
      df <- deref l ;;
      if negb (pd.empty df) then
        st_subheader "📍 소장 도서관 위치" ;;
        st_markdown
          ("**'"
           +:+ selected_book_title search_results (selected_book_isbn (session w))
           +:+ "'** 소장 도서관 지도 (검색 지역: 서울/경기)") ;;
        render_map (Some l)
      else ret tt
  | None => ret tt
  end.

End app.

(* ===================================================================== *)
(** * The frame pipeline as functions on frames *)
(* ===================================================================== *)

Section pipeline.

Context {num : Type} {num_eq : EqDecision num}.
Variable to_num : string -> option num.

(** [df[c] = pd.to_numeric(df[c], errors='coerce')] *)
Definition coerced (c : string) (df : pd.DataFrame num) : outcome (pd.DataFrame num) :=
  and_then (pd.getitem df c)
    (fun s => Return (pd.setitem df c (pd.to_numeric to_num s))).

(** The two coercions and the [dropna] that [app.py] (lines 277-279) and
    [render_map] (lines 28-30) both run. *)
Definition coordinates_cleaned (df : pd.DataFrame num) : outcome (pd.DataFrame num) :=
  and_then (coerced "latitude" df)
    (fun d1 => and_then (coerced "longitude" d1)
                 (pd.dropna ["latitude"; "longitude"])).

(** Lines 275-281 of [app.py]: from the list of records to the frame
    without duplicates. *)
Definition located (libraries : list record) : outcome (pd.DataFrame num) :=
  and_then (coordinates_cleaned (pd.of_records libraries))
    (pd.drop_duplicates ["libCode"]).

(** The rows [located] leaves, none when it raises. *)
Definition located_rows (libraries : list record) : list (nat * gmap string (pd.cell num)) :=
  match located libraries with
  | Return d => pd.rows d
  | Raise _ => []
  end.

Definition is_num (v : pd.cell num) : bool :=
  match v with
  | pd.Num _ => true
  | _ => false
  end.

(** A cell that is a number, or a string that parses as one. *)
Definition numeric_cell (v : pd.cell num) : bool :=
  is_num (pd.to_numeric_cell to_num v).

(** A row whose latitude and longitude are both numeric. *)
Definition numeric_row (r : gmap string (pd.cell num)) : bool :=
  numeric_cell (pd.at_col r "latitude") && numeric_cell (pd.at_col r "longitude").

(** A row after the two coercions. *)
Definition coerce_row (r : gmap string (pd.cell num)) : gmap string (pd.cell num) :=
  <["longitude" := pd.to_numeric_cell to_num (pd.at_col r "longitude")]>
    (<["latitude" := pd.to_numeric_cell to_num (pd.at_col r "latitude")]> r).

(** A record whose field [f] is present and parses as a number. *)
Definition numeric_field (r : record) (f : string) : bool :=
  match r !! f with
  | Some s => bool_decide (is_Some (to_num s))
  | None => false
  end.

(** A record with numerically parseable latitude and longitude. *)
Definition has_coordinates (r : record) : bool :=
  numeric_field r "latitude" && numeric_field r "longitude".

(** The library code of a row. *)
Definition libCode (ir : nat * gmap string (pd.cell num)) : pd.cell num :=
  pd.at_col ir.2 "libCode".

(** The frame after the two coercions and the [dropna]: the rows whose
    latitude and longitude are numeric, coerced, under their labels. *)
Definition cleaned (df : pd.DataFrame num) : pd.DataFrame num :=
  pd.mkDataFrame (pd.columns df)
    ((fun ir : nat * gmap string (pd.cell num) => (ir.1, coerce_row ir.2))
       <$> filter (fun ir => numeric_row ir.2 = true) (pd.rows df)).

(** The key [drop_duplicates(subset=subset)] compares rows by. *)
Definition key_of (subset : list string) (ir : nat * gmap string (pd.cell num))
  : list (pd.cell num) :=
  pd.at_col ir.2 <$> subset.

End pipeline.

(* ===================================================================== *)
(** * The effects of [render_map] and of step 4, stated on worlds *)
(* ===================================================================== *)

Section effects.

Context {num : Type} {num_eq : EqDecision num}.
Variable to_num : string -> option num.
Variable fromstring : string -> outcome ET.Element.
Variable remote : list requests.Request -> requests.Request -> outcome requests.Response.
Variable st_map_raises : pd.DataFrame num -> option exn.

(** An in-place update of the object [l] by a function on frames. *)
Definition in_place (f : pd.DataFrame num -> outcome (pd.DataFrame num)) (l : loc)
    (w : AppWorld (num:=num)) : outcome unit * AppWorld (num:=num) :=
  match heap w !! l with
  | Some df =>
      match f df with
      | Return df' => (Return tt, mkApp (io w) (<[l := df']> (heap w)) (ui w) (session w))
      | Raise e => (Raise e, w)
      end
  | None => (Raise (OtherException "ReferenceError" "no such object"), w)
  end.

(** What [render_map] leaves behind, given the frame its argument refers
    to. *)
Definition render_map_world (df : pd.DataFrame num) (w : AppWorld (num:=num))
  : AppWorld (num:=num) :=
  let say ev h := mkApp (io w) h (ui w ++ [ev]) (session w) in
  if pd.empty df then
    say (StWarning "지도에 표시할 도서관 위치 정보가 없습니다.") (heap w)
  else if negb (forallb (fun col => bool_decide (col ∈ pd.columns df))
                  ["latitude"; "longitude"]) then
    say (StError "지도 표시에 필요한 'latitude' 또는 'longitude' 컬럼이 없습니다.") (heap w)
  else
    let map_df := fresh (dom (heap w)) in
    let shown := cleaned to_num df in
    let h := <[map_df := shown]> (heap w) in
    if pd.empty shown then
      say (StWarning "유효한 위도/경도 데이터를 가진 도서관이 없습니다.") h
    else
      match pd.select ["latitude"; "longitude"] shown with
      | Return points =>
          match st_map_raises points with
          | Some e => say (StError ("지도 렌더링 중 오류 발생: " +:+ str e)) h
          | None => say (StMap points) h
          end
      | Raise e => say (StError ("지도 렌더링 중 오류 발생: " +:+ str e)) h
      end.

(** What the map section shows before it calls [render_map]. *)
Definition map_header (search_results : option (list record)) (w : AppWorld (num:=num))
  : AppWorld (num:=num) :=
  mkApp (io w) (heap w)
    (ui w ++
       [StSubheader "📍 소장 도서관 위치";
        StMarkdown
          ("**'"
           +:+ selected_book_title search_results (selected_book_isbn (session w))
           +:+ "'** 소장 도서관 지도 (검색 지역: 서울/경기)")])
    (session w).

(** The state step 4 ends its [try] statement in: the session refers to
    a frame whose rows are those [located] leaves for some list of
    records. *)
Definition refers_to (rs : list (nat * gmap string (pd.cell num)))
    (w : AppWorld (num:=num)) : Prop :=
  exists l df,
    library_locations (session w) = Some l /\
    heap w !! l = Some df /\
    pd.rows df = rs.

(** The rows that may be referred to after step 4 in a world whose
    input and output state was [io0]: those of [located] on some list of
    records, namely the two results joined when both lookups return. *)
Definition expected_rows (NAROU_API_KEY : option string) (isbn : string) (io0 : World)
    (rs : list (nat * gmap string (pd.cell num))) : Prop :=
  (exists libraries, rs = located_rows to_num libraries) /\
  (forall L1 L2 io1 io2,
      find_libraries_for_book fromstring remote isbn (default "" NAROU_API_KEY)
        "11" 1 50 io0 = (Return L1, io1) ->
      find_libraries_for_book fromstring remote isbn (default "" NAROU_API_KEY)
        "31" 1 50 io1 = (Return L2, io2) ->
      rs = located_rows to_num (L1 ++ L2)).

End effects.

(* ===================================================================== *)
(** * The specification's wording, where it is compared with the code *)
(* ===================================================================== *)

Module Spec.

(** "Children having extractable text": a child whose text is present and
    not blank. *)
Definition has_extractable_text (c : ET.Element) : bool :=
  match ET.text c with
  | Some t => truthy (strip t)
  | None => false
  end.

(** "Skip an item entirely if it yields no fields (no immediate children
    with extractable text)": the items the specification keeps. *)
Definition kept_items (item_elements : list ET.Element) : list ET.Element :=
  filter (fun item => existsb has_extractable_text (ET.children item) = true)
    item_elements.

(** "Locate the first element matching the group name anywhere in the
    document": the first element tagged [name] in document order, the
    top-level element included. *)
Fixpoint first_anywhere (name : string) (e : ET.Element) : option ET.Element :=
  if decide (ET.tag e = name) then Some e
  else
    (fix among (cs : list ET.Element) : option ET.Element :=
       match cs with
       | [] => None
       | c :: cs' =>
           match first_anywhere name c with
           | Some g => Some g
           | None => among cs'
           end
       end) (ET.children e).

(** "If absent, treat the document's top-level element as the group." *)
Definition group_of (root : ET.Element) (name : string) : ET.Element :=
  default root (first_anywhere name root).

End Spec.

(** The request [search_books] hands to [requests.get]. *)
Definition srchBooks_request (query api_key : string) (page_no page_size : Z)
  : requests.Request :=
  requests.mkRequest "http://data4library.kr/api/srchBooks"
    [("authKey", requests.PStr api_key);
     ("keyword", requests.PStr query);
     ("pageNo", requests.PInt page_no);
     ("pageSize", requests.PInt page_size);
     ("format", requests.PStr "xml")]
    15.

(** The request [find_libraries_for_book] hands to [requests.get]. *)
Definition libSrchByBook_request (isbn13 api_key region_code : string)
    (page_no page_size : Z) : requests.Request :=
  requests.mkRequest "http://data4library.kr/api/libSrchByBook"
    [("authKey", requests.PStr api_key);
     ("isbn", requests.PStr isbn13);
     ("region", requests.PStr region_code);
     ("pageNo", requests.PInt page_no);
     ("pageSize", requests.PInt page_size);
     ("format", requests.PStr "xml")]
    20.

(** A failure of the remote call: [requests.get] raised a
    [RequestException] (a transport failure), or it returned a response
    whose status is 4xx or 5xx and [raise_for_status] raised [e]. *)
Inductive service_failure : outcome requests.Response -> exn -> Prop :=
| transport_failure e :
    is_RequestException e = true -> service_failure (Raise e) e
| bad_status r e :
    400 <= requests.status_code r < 600 ->
    requests.raise_for_status r = Raise e ->
    service_failure (Return r) e.

(** The [try] statement shared by the two operations, once the request [q]
    is to be issued in world [w]; [label1] and [label2] are the texts the
    two handlers print. *)
Definition after_request (fromstring : string -> outcome ET.Element)
    (remote : list requests.Request -> requests.Request -> outcome requests.Response)
    (q : requests.Request) (result_tag item_tag : string)
    (label1 label2 : string) (w : World) : outcome (list record) * World :=
  let w1 := mkWorld (stdout w) (net_log w ++ [q]) in
  let service_error e :=
    (Raise (ConnectionError ("Failed to connect to Narou API: " +:+ str e) e),
     mkWorld (stdout w ++ [label1 +:+ str e]) (net_log w ++ [q])) in
  match remote (net_log w) q with
  | Raise e =>
      if is_RequestException e then service_error e
      else (Return [], mkWorld (stdout w ++ [label2 +:+ str e]) (net_log w ++ [q]))
  | Return r =>
      match requests.raise_for_status r with
      | Raise e => service_error e
      | Return _ => _parse_xml_response fromstring (requests.text r) result_tag item_tag w1
      end
  end.

(** The three ways an operation of the client ends: a result, a
    configuration error, or a service error that wraps a
    [RequestException]. *)
Definition client_outcome (o : outcome (list record)) : Prop :=
  match o with
  | Return _ => True
  | Raise (ValueError _) => True
  | Raise (ConnectionError _ c) => is_RequestException c = true
  | Raise _ => False
  end.

(** The trimmed text of a child, the empty string when it has none. *)
Definition trimmed_text (c : ET.Element) : string :=
  from_option strip "" (ET.text c).

(** The normalizer's result as the specification words it: one mapping per
    item that has a child with extractable text, in order, each sending
    the tag of every child of its item to that child's trimmed text. *)
Definition records_as_stated (item_elements : list ET.Element) (out : list record)
  : Prop :=
  Forall2
    (fun item m => forall c, c ∈ ET.children item -> m !! ET.tag c = Some (trimmed_text c))
    (Spec.kept_items item_elements) out.

(* ===================================================================== *)
(** * Step 4 as a function on worlds *)
(* ===================================================================== *)

Section step4_world.

Context {num : Type} {num_eq : EqDecision num}.
Variable to_num : string -> option num.
Variable fromstring : string -> outcome ET.Element.
Variable remote : list requests.Request -> requests.Request -> outcome requests.Response.

(** The four in-place steps of step 4 on the frame of [libraries]: whether
    they end or raise, and the frame they leave in the object. *)
Definition located_trace (libraries : list record) : outcome unit * pd.DataFrame num :=
  let d0 := pd.of_records libraries in
  match coerced to_num "latitude" d0 with
  | Raise e => (Raise e, d0)
  | Return d1 =>
      match coerced to_num "longitude" d1 with
      | Raise e => (Raise e, d1)
      | Return d2 =>
          match pd.dropna ["latitude"; "longitude"] d2 with
          | Raise e => (Raise e, d2)
          | Return d3 =>
              match pd.drop_duplicates ["libCode"] d3 with
              | Raise e => (Raise e, d3)
              | Return d4 => (Return tt, d4)
              end
          end
      end
  end.

(** The world after a message has been recorded and shown and the session
    made to refer to a new empty frame. *)
Definition gave_up (say : string -> ui_event (num:=num)) (msg : string)
    (w : AppWorld (num:=num)) : AppWorld (num:=num) :=
  mkApp (io w) (<[fresh (dom (heap w)) := pd.empty_frame]> (heap w)) (ui w ++ [say msg])
    (mkSession (selected_book_isbn (session w)) (Some (fresh (dom (heap w))))
       (Some msg) (loading (session w))).

Definition with_io (io' : World) (w : AppWorld (num:=num)) : AppWorld (num:=num) :=
  mkApp io' (heap w) (ui w) (session w).

(** The world the [try] statement of step 4 and its handler leave. *)
Definition library_search_guarded_world (NAROU_API_KEY : option string) (isbn : string)
    (w : AppWorld (num:=num)) : AppWorld (num:=num) :=
  let failed e := gave_up StError ("도서관 검색 중 오류 발생: " +:+ str e) in
  if negb (truthy_opt NAROU_API_KEY) then
    failed (ValueError "도서관 정보나루 API 키가 설정되지 않았습니다. .env 파일을 확인하세요.") w
  else
    let api_key := default "" NAROU_API_KEY in
    match find_libraries_for_book fromstring remote isbn api_key "11" 1 50 (io w) with
    | (Raise e, io1) => failed e (with_io io1 w)
    | (Return libraries_seoul, io1) =>
        match find_libraries_for_book fromstring remote isbn api_key "31" 1 50 io1 with
        | (Raise e, io2) => failed e (with_io io2 w)
        | (Return libraries_gyeonggi, io2) =>
            match (libraries_seoul ++ libraries_gyeonggi)%list with
            | [] =>
                gave_up StWarning
                  "선택한 도서를 소장한 도서관 정보를 찾을 수 없습니다 (서울/경기 지역)."
                  (with_io io2 w)
            | libraries =>
                let created := fresh (dom (heap w)) in
                let w1 :=
                  mkApp io2 (<[created := (located_trace libraries).2]> (heap w)) (ui w)
                    (mkSession (selected_book_isbn (session w)) (Some created)
                       (error_message (session w)) (loading (session w))) in
                match (located_trace libraries).1 with
                | Raise e => failed e w1
                | Return _ =>
                    if pd.empty (located_trace libraries).2 then
                      gave_up StWarning
                        "도서관 정보를 찾았지만, 유효한 위치 데이터가 없습니다." w1
                    else w1
                end
            end
        end
    end.

(** The world the [finally] clause of step 4 makes of the one its [try]
    statement left. *)
Definition finished (w : AppWorld (num:=num)) : AppWorld (num:=num) :=
  mkApp (io w) (heap w) (ui w ++ [StRerun])
    (mkSession (selected_book_isbn (session w)) (library_locations (session w))
       (error_message (session w)) false).

(** The world step 4 leaves. *)
Definition library_search_block_world (NAROU_API_KEY : option string)
    (w : AppWorld (num:=num)) : AppWorld (num:=num) :=
  if truthy_opt (selected_book_isbn (session w))
     && bool_decide (library_locations (session w) = None)
     && loading (session w)
  then
    finished
      (library_search_guarded_world NAROU_API_KEY
         (default "" (selected_book_isbn (session w))) w)
  else w.

End step4_world.

(* ===================================================================== *)
(** * [json] and [re] *)
(* ===================================================================== *)

Module json.
Section values.

(** The floats of Python. *)
Context {float : Type}.

(** What [json.loads] returns: [None], a [bool], an [int], a [float], a
    [str], a [list] or a [dict] with [str] keys. *)
Inductive value : Type :=
| Null
| Bool (b : bool)
| Int (z : Z)
| Float (x : float)
| Str (s : string)
| List (items : list value)
| Dict (fields : gmap string value).

(** [type(v).__name__] *)
Definition type_name (v : value) : string :=
  match v with
  | Null => "NoneType"
  | Bool _ => "bool"
  | Int _ => "int"
  | Float _ => "float"
  | Str _ => "str"
  | List _ => "list"
  | Dict _ => "dict"
  end.

(** [v.get(key, otherwise)]: only a [dict] has the method. *)
Definition get (v : value) (key : string) (otherwise : value) : outcome value :=
  match v with
  | Dict fields => Return (default otherwise (fields !! key))
  | _ =>
      Raise (OtherException "AttributeError"
               ("'" +:+ type_name v +:+ "' object has no attribute 'get'"))
  end.

End values.

Arguments value : clear implicits.

(** [isinstance(e, json.JSONDecodeError)] *)
Definition is_JSONDecodeError (e : exn) : bool :=
  match e with
  | OtherException cls _ => String.eqb cls "JSONDecodeError"
  | _ => false
  end.

End json.

Module re.

(** The suffix of [s] that starts at its first opening brace. *)
Fixpoint from_first_brace (s : string) : option string :=
  match s with
  | EmptyString => None
  | String c s' => if Ascii.eqb c "{" then Some s else from_first_brace s'
  end.

(** The longest prefix of [s] that ends in a closing brace. *)
Fixpoint upto_last_brace (s : string) : option string :=
  match s with
  | EmptyString => None
  | String c s' =>
      match upto_last_brace s' with
      | Some t => Some (String c t)
      | None => if Ascii.eqb c "}" then Some (String c EmptyString) else None
      end
  end.

(** [re.search(r'\{.*\}', s, re.DOTALL)], as [match.group(0)]: the
    leftmost match starts at the first opening brace that a closing brace
    follows, which is the first opening brace if any is; the greedy [.*],
    which with [re.DOTALL] passes every character, ends it at the last
    closing brace. *)
Definition search_braces (s : string) : option string :=
  from_first_brace s ≫= upto_last_brace.

End re.

(* ===================================================================== *)
(** * The world of [openai_utils.py] *)
(* ===================================================================== *)

Module openai.

(** The arguments of [client.chat.completions.create], with the key the
    client was made with; [temperature] is [(m, k)] for m / 10^k. *)
Record ChatRequest : Type :=
  mkChatRequest {
    api_key : string;
    model : string;
    messages : list (string * string);
    response_format : string;
    temperature : Z * nat
  }.

End openai.

(** What [get_search_terms_from_gpt] can touch: standard output and the
    network as [narou_api] has them, the calls made to the OpenAI API so
    far, oldest first, and the module attribute [openai.api_key]. *)
Record GptWorld : Type :=
  mkGpt {
    console : World;
    chat_log : list openai.ChatRequest;
    openai_api_key : option string
  }.

(** The double quote character. *)
Definition dq : string := String (ascii_of_nat 34) EmptyString.

(** The f-string of lines 27-51. *)
Definition prompt (user_query : string) : string :=
  String.concat dq
    [ "
    당신은 전문 한국 도서 리뷰어 및 추천가입니다. 사용자의 다음 요청을 분석하여 도서관 정보나루 API에서 검색하기 가장 좋은 형태로 정보를 추출해주세요.

    사용자 요청: ";
      user_query;
      "

    분석 단계 (Chain-of-Thought):
    1. 사용자 요청의 핵심 주제 또는 의도를 파악합니다.
    2. 주제와 관련된 핵심 키워드를 한국어로 1-3개 추출합니다. (예: ";
      "인공지능";
      ", ";
      "머신러닝";
      ")
    3. 사용자 요청에 부합할 만한 가상의 도서 제목 예시를 1-2개 제안합니다. (예: ";
      "AI 시대의 생존법";
      ", ";
      "미래를 바꿀 딥러닝";
      ")
    4. 위 키워드 또는 제목을 바탕으로, 도서관 정보나루 API의 '도서 검색(/api/srchBooks)' 기능에 가장 적합한 검색어(쿼리) 1개를 생성합니다. 이 검색어는 키워드 조합이나 가장 가능성 높은 제목일 수 있습니다. 간결하고 명확해야 합니다.

    출력 형식 (JSON):
    {
      ";
      "keywords";
      ": [";
      "키워드1";
      ", ";
      "키워드2";
      ", ...],
      ";
      "titles";
      ": [";
      "추천 제목 예시 1";
      ", ";
      "추천 제목 예시 2";
      ", ...],
      ";
      "narou_query";
      ": ";
      "도서관 API 검색에 사용할 최종 쿼리";
      "
    }

    Self-reflection:
    - 키워드가 주제와 관련 있는가?
    - 제목 예시가 사용자 요청과 관련 있는가?
    - 생성된 narou_query가 도서관 API에서 실제 도서를 찾기에 적합한가? 너무 광범위하거나 모호하지 않은가?

    위 단계와 형식에 따라 분석 결과를 JSON으로만 제공해주세요. 설명은 포함하지 마세요.
    " ].

Section openai_utils.

Context {float : Type}.

(** [json.loads] on a [str]. *)
Variable loads : string -> outcome (json.value float).

(** [openai.OpenAI(api_key=...)] and [client.chat.completions.create(...)]
    as one call: it raises, or returns the [message.content] of each of
    the response's choices, [None] for a choice without content. The
    first argument is the calls made before. *)
Variable create :
  list openai.ChatRequest -> openai.ChatRequest -> outcome (list (option string)).

(** The dict the function returns: its three keys, with the types the
    validation leaves. *)
Record Terms : Type :=
  mkTerms {
    keywords : list (json.value float);
    titles : list (json.value float);
    narou_query : string
  }.

(** [{"keywords": [], "titles": [], "narou_query": ""}] *)
Definition empty_terms : Terms := mkTerms [] [] "".

(** [print(line)] *)
Definition gpt_print (line : string) : M GptWorld unit :=
  modify (fun w =>
    mkGpt (mkWorld (stdout (console w) ++ [line])%list (net_log (console w)))
      (chat_log w) (openai_api_key w)).

(** [openai.api_key = api_key] *)
Definition set_openai_api_key (api_key : string) : M GptWorld unit :=
  modify (fun w => mkGpt (console w) (chat_log w) (Some api_key)).

(** The arguments of the call of lines 57-65. *)
Definition chat_request (api_key user_query : string) : openai.ChatRequest :=
  openai.mkChatRequest api_key "gpt-4o"
    [("system", "You are a helpful assistant designed to output JSON.");
     ("user", prompt user_query)]
    "json_object" (5, 1%nat).

Definition chat_completions_create (q : openai.ChatRequest)
  : M GptWorld (list (option string)) :=
  fun w =>
    (create (chat_log w) q,
     mkGpt (console w) (chat_log w ++ [q])%list (openai_api_key w)).

(** [response.choices[0].message.content] *)
Definition first_content (choices : list (option string)) : outcome (option string) :=
  match choices with
  | content :: _ => Return content
  | [] => Raise (OtherException "IndexError" "list index out of range")
  end.

(** [json.loads(analysis_result)] *)
Definition loads_content (content : option string) : outcome (json.value float) :=
  match content with
  | Some text => loads text
  | None =>
      Raise (OtherException "TypeError"
               "the JSON object must be str, bytes or bytearray, not NoneType")
  end.

(** [x if isinstance(x, list) else []] *)
Definition list_or_empty (v : json.value float) : list (json.value float) :=
  match v with
  | json.List items => items
  | _ => []
  end.

(** [x if isinstance(x, str) else ""] *)
Definition str_or_empty (v : json.value float) : string :=
  match v with
  | json.Str s => s
  | _ => ""
  end.

(** Lines 73-86, and again lines 95-105: the three [get]s, the three
    [isinstance] checks and the dict that is returned. *)
Definition validated (parsed_result : json.value float) : outcome Terms :=
  and_then (json.get parsed_result "keywords" (json.List [])) (fun keywords =>
  and_then (json.get parsed_result "titles" (json.List [])) (fun titles =>
  and_then (json.get parsed_result "narou_query" (json.Str "")) (fun narou_query =>
  Return (mkTerms (list_or_empty keywords) (list_or_empty titles)
            (strip (str_or_empty narou_query)))))).

(** The local variable [analysis_result] as a handler finds it: not yet
    assigned, or assigned the content of the first choice. *)
Inductive local : Type :=
| Unbound
| Bound (content : option string).

(** The handler [except json.JSONDecodeError] of lines 88-111. An
    exception raised in it leaves the function: the handler that follows
    it belongs to the same [try] and does not cover it. *)
Definition on_JSONDecodeError (analysis_result : local) : M GptWorld Terms :=
  match analysis_result with
  | Unbound =>
      raise (OtherException "UnboundLocalError"
               "cannot access local variable 'analysis_result' where it is not associated with a value")
  | Bound None =>
      gpt_print "Error: Failed to decode JSON from GPT response: None" ;;
      raise (OtherException "TypeError"
               "expected string or bytes-like object, got 'NoneType'")
  | Bound (Some text) =>
      gpt_print ("Error: Failed to decode JSON from GPT response: " +:+ text) ;;
      match re.search_braces text with
      | Some group0 =>
          try_except
            (parsed_result <- lift (loads group0) ;;
             lift (validated parsed_result))
            (fun e =>
               if json.is_JSONDecodeError e then
                 gpt_print "Error: Regex fallback failed to parse JSON." ;;
                 ret empty_terms
               else raise e)
      | None =>
          gpt_print "Error: No JSON object found in GPT response." ;;
          ret empty_terms
      end
  end.

(** The two handlers of the [try] statement of lines 53-115. *)
Definition on_exception (analysis_result : local) (e : exn) : M GptWorld Terms :=
  if json.is_JSONDecodeError e then on_JSONDecodeError analysis_result
  else
    gpt_print ("An error occurred during OpenAI API call: " +:+ str e) ;;
    ret empty_terms.

(** The function: the key check, the assignment to [openai.api_key], and
    the [try] statement, whose body assigns [analysis_result] when the
    call has returned and a first choice exists. *)
Definition get_search_terms_from_gpt (user_query api_key : string) : M GptWorld Terms :=
  if negb (truthy api_key) then raise (ValueError "OpenAI API key is not configured.")
  else
    set_openai_api_key api_key ;;
    fun w =>
      match (choices <- chat_completions_create (chat_request api_key user_query) ;;
             lift (first_content choices)) w with
      | (Raise e, w1) => on_exception Unbound e w1
      | (Return analysis_result, w1) =>
          try_except
            (parsed_result <- lift (loads_content analysis_result) ;;
             lift (validated parsed_result))
            (on_exception (Bound analysis_result)) w1
      end.

End openai_utils.

Arguments Terms : clear implicits.

(** Whether the character [c] occurs in [s]. *)
Fixpoint occurs (c : ascii) (s : string) : bool :=
  match s with
  | EmptyString => false
  | String c' s' => Ascii.eqb c' c || occurs c s'
  end.

(* ===================================================================== *)
(** * [app.py]: the search form is submitted (lines 147-206) *)
(* ===================================================================== *)

Module Pyvalue.
Section values.

Context {float : Type}.

(** [bool(x)] for a float. *)
Variable float_truthy : float -> bool.

(** [str(v)] for a value that is not a [str]. *)
Variable repr : json.value float -> string.

(** [bool(v)] *)
Definition truthy (v : json.value float) : bool :=
  match v with
  | json.Null => false
  | json.Bool b => b
  | json.Int z => negb (z =? 0)
  | json.Float x => float_truthy x
  | json.Str s => Py.truthy s
  | json.List items => negb (bool_decide (items = []))
  | json.Dict fields => negb (bool_decide (dom fields = ∅))
  end.

(** [f"{v}"] *)
Definition format (v : json.value float) : string :=
  match v with
  | json.Str s => s
  | _ => repr v
  end.

(** The items of a list as strings, or the [TypeError] of [str.join] at
    the first item, counted from [i], that is not a [str]. *)
Fixpoint str_items (i : nat) (items : list (json.value float)) : outcome (list string) :=
  match items with
  | [] => Return []
  | json.Str s :: items' => and_then (str_items (S i) items') (fun l => Return (s :: l))
  | v :: _ =>
      Raise (OtherException "TypeError"
               ("sequence item " +:+ pretty i +:+ ": expected str instance, "
                +:+ json.type_name v +:+ " found"))
  end.

(** [sep.join(items)] *)
Definition join (sep : string) (items : list (json.value float)) : outcome string :=
  and_then (str_items 0 items) (fun l => Return (String.concat sep l)).

End values.
End Pyvalue.

(** What Streamlit is asked to show while the form is handled. *)
Inductive notice : Type :=
| StInfo (msg : string)
| StWarningNotice (msg : string)
| StErrorNotice (msg : string).

(** The world of the submit block: the world of [openai_utils], in which
    [narou_api] prints and sends too, what Streamlit was asked to show,
    and [st.session_state] - the two fields only this block writes and
    those it shares with step 4. *)
Record SubmitWorld : Type :=
  mkSubmit {
    gpt : GptWorld;
    notices : list notice;
    search_query : string;
    search_results : option (list record);
    state : SessionState
  }.

Section submit.

Context {float : Type}.
Variable float_truthy : float -> bool.
Variable repr : json.value float -> string.
Variable loads : string -> outcome (json.value float).
Variable create :
  list openai.ChatRequest -> openai.ChatRequest -> outcome (list (option string)).
Variable fromstring : string -> outcome ET.Element.
Variable remote : list requests.Request -> requests.Request -> outcome requests.Response.

(** [search_books] on a query that is not a [str]: what [requests] makes
    of such a parameter is left open. *)
Variable search_books_other : json.value float -> string -> M World (list record).

Definition notify (n : notice) : M SubmitWorld unit :=
  modify (fun w =>
    mkSubmit (gpt w) (notices w ++ [n])%list (search_query w) (search_results w) (state w)).

Definition set_state (f : SessionState -> SessionState) : M SubmitWorld unit :=
  modify (fun w =>
    mkSubmit (gpt w) (notices w) (search_query w) (search_results w) (f (state w))).

Definition put_error_message (msg : option string) : M SubmitWorld unit :=
  set_state (fun s =>
    mkSession (selected_book_isbn s) (library_locations s) msg (loading s)).

Definition put_loading (b : bool) : M SubmitWorld unit :=
  set_state (fun s =>
    mkSession (selected_book_isbn s) (library_locations s) (error_message s) b).

Definition put_search_results (v : option (list record)) : M SubmitWorld unit :=
  modify (fun w => mkSubmit (gpt w) (notices w) (search_query w) v (state w)).

(** A call into [openai_utils]. *)
Definition call_gpt {A} (m : M GptWorld A) : M SubmitWorld A :=
  fun w =>
    let (o, g) := m (gpt w) in
    (o, mkSubmit g (notices w) (search_query w) (search_results w) (state w)).

(** A call into [narou_api]. *)
Definition call_narou {A} (m : M World A) : M SubmitWorld A :=
  fun w =>
    let (o, io') := m (console (gpt w)) in
    (o, mkSubmit (mkGpt io' (chat_log (gpt w)) (openai_api_key (gpt w)))
          (notices w) (search_query w) (search_results w) (state w)).

(** Lines 163-170: the query taken from the analysis - the refined query,
    else the keywords joined, else the first title. *)
Definition query_of (gpt_analysis : Terms float) : outcome (json.value float) :=
  let keywords := keywords gpt_analysis in
  let titles := titles gpt_analysis in
  let narou_query := json.Str (narou_query gpt_analysis) in
  if negb (Pyvalue.truthy float_truthy narou_query) && negb (bool_decide (keywords = [])) then
    and_then (Pyvalue.join " " keywords) (fun s => Return (json.Str s))
  else if negb (Pyvalue.truthy float_truthy narou_query) && negb (bool_decide (titles = [])) then
    match titles with
    | first :: _ => Return first
    | [] => Raise (OtherException "IndexError" "list index out of range")
    end
  else Return narou_query.

(** Lines 157-182, steps 1 and 2: the value of [narou_query] afterwards,
    [None] when the analysis failed. The dict [get_search_terms_from_gpt]
    returns always has its three keys, so the defaults of the three
    [get]s are not used. *)
Definition analysis_step (OPENAI_API_KEY : option string) (user_input : string)
  : M SubmitWorld (json.value float) :=
  try_except
    ((if negb (truthy_opt OPENAI_API_KEY) then
        raise (ValueError "OpenAI API 키가 설정되지 않았습니다. .env 파일을 확인하세요.")
      else ret tt) ;;
     gpt_analysis <-
       call_gpt (get_search_terms_from_gpt loads create user_input
                   (default "" OPENAI_API_KEY)) ;;
     narou_query <- lift (query_of gpt_analysis) ;;
     if Pyvalue.truthy float_truthy narou_query then
       notify (StInfo ("GPT 분석 결과: 검색어='" +:+ Pyvalue.format repr narou_query +:+ "'")) ;;
       ret narou_query
     else
       notify (StWarningNotice
                 "GPT 분석에서 검색어를 추출하지 못했습니다. 입력값을 직접 사용합니다.") ;;
       ret (json.Str user_input))
    (fun e =>
       put_error_message (Some ("GPT 분석 중 오류 발생: " +:+ str e)) ;;
       notify (StErrorNotice ("GPT 분석 중 오류 발생: " +:+ str e)) ;;
       put_loading false ;;
       ret json.Null).

(** [search_books(narou_query, NAROU_API_KEY)] *)
Definition search_books_value (narou_query : json.value float) (api_key : string)
  : M World (list record) :=
  match narou_query with
  | json.Str query => search_books fromstring remote query api_key 1 20
  | _ => search_books_other narou_query api_key
  end.

(** Lines 185-203, step 3. *)
Definition book_search_step (NAROU_API_KEY : option string) (submit_button : bool)
    (narou_query : json.value float) : M SubmitWorld unit :=
  w <- get ;;
  if Pyvalue.truthy float_truthy narou_query
     && negb (truthy_opt (error_message (state w))) then
    try_except
      ((if negb (truthy_opt NAROU_API_KEY) then
          raise (ValueError "도서관 정보나루 API 키가 설정되지 않았습니다. .env 파일을 확인하세요.")
        else ret tt) ;;
       search_results <-
         call_narou (search_books_value narou_query (default "" NAROU_API_KEY)) ;;
       match search_results with
       | _ :: _ => put_search_results (Some search_results)
       | [] =>
           put_error_message (Some "검색 결과가 없습니다. 다른 키워드로 시도해보세요.") ;;
           notify (StWarningNotice "검색 결과가 없습니다. 다른 키워드로 시도해보세요.")
       end)
      (fun e =>
         put_error_message (Some ("도서 검색 중 오류 발생: " +:+ str e)) ;;
         notify (StErrorNotice ("도서 검색 중 오류 발생: " +:+ str e)))
  else if negb (truthy_opt (error_message (state w)))
          && negb (Pyvalue.truthy float_truthy narou_query)
          && submit_button then
    put_error_message (Some "GPT 분석에서 유효한 검색어를 추출하지 못했습니다.") ;;
    notify (StWarningNotice "GPT 분석에서 유효한 검색어를 추출하지 못했습니다.")
  else ret tt.

(** Lines 147-206: the script reaches the form's handler with the button
    state [submit_button] and the text [user_input]. *)
Definition submit_block (OPENAI_API_KEY NAROU_API_KEY : option string)
    (submit_button : bool) (user_input : string) : M SubmitWorld unit :=
  if submit_button && truthy user_input then
    modify (fun w =>
      mkSubmit (gpt w) (notices w) user_input None (mkSession None None None true)) ;;
    narou_query <- analysis_step OPENAI_API_KEY user_input ;;
    book_search_step NAROU_API_KEY submit_button narou_query ;;
    put_loading false
  else ret tt.

End submit.

(** ** The worlds the submit block leaves *)

(** The world after a failed analysis. *)
Definition analysis_failed (e : exn) (g : GptWorld) (w : SubmitWorld) : SubmitWorld :=
  mkSubmit g (notices w ++ [StErrorNotice ("GPT 분석 중 오류 발생: " +:+ str e)])
    (search_query w) (search_results w)
    (mkSession (selected_book_isbn (state w)) (library_locations (state w))
       (Some ("GPT 분석 중 오류 발생: " +:+ str e)) false).

(** The world after an analysis that gave a query. *)
Definition analysis_done (n : notice) (g : GptWorld) (w : SubmitWorld) : SubmitWorld :=
  mkSubmit g (notices w ++ [n]) (search_query w) (search_results w) (state w).

(** The text of a notice. *)
Definition notice_text (n : notice) : string :=
  match n with
  | StInfo msg => msg
  | StWarningNotice msg => msg
  | StErrorNotice msg => msg
  end.

(** The world after step 3 has recorded a message and shown it, [io']
    being what [narou_api] left of standard output and the network. *)
Definition reported (n : notice) (io' : World) (w : SubmitWorld) : SubmitWorld :=
  mkSubmit (mkGpt io' (chat_log (gpt w)) (openai_api_key (gpt w)))
    (notices w ++ [n]) (search_query w) (search_results w)
    (mkSession (selected_book_isbn (state w)) (library_locations (state w))
       (Some (notice_text n)) (loading (state w))).

(** The notice of the branch that reports that no valid query was
    found. *)
Definition no_valid_query : string :=
  "GPT 분석에서 유효한 검색어를 추출하지 못했습니다.".

(* ===================================================================== *)
(** * Sample inputs *)
(* ===================================================================== *)

Module Sample.

(** A remote service that answers a holdings lookup with one document
    for region 11 and another for region 31. *)
Definition serve (seoul gyeonggi : string)
  : list requests.Request -> requests.Request -> outcome requests.Response :=
  fun _ q =>
    match (list_to_map (requests.params q) : gmap string requests.param) !! "region" with
    | Some (requests.PStr "11") =>
        Return (requests.mkResponse 200 "OK" (requests.endpoint q) seoul)
    | Some (requests.PStr "31") =>
        Return (requests.mkResponse 200 "OK" (requests.endpoint q) gyeonggi)
    | _ => Return (requests.mkResponse 404 "Not Found" (requests.endpoint q) "")
    end.

(** Library 111017 is listed for both regions, first without a usable
    latitude. *)
Definition seoul_first_unlocated : string :=
  "<response><libs><lib><libCode>111017</libCode><latitude>invalid</latitude><longitude>126.9</longitude></lib><lib><libCode>111004</libCode><latitude>37.58</latitude><longitude>126.98</longitude></lib></libs></response>".

Definition gyeonggi_located : string :=
  "<response><libs><lib><libCode>111017</libCode><latitude>37.57</latitude><longitude>126.96</longitude></lib></libs></response>".

(** Library 111017 is listed for both regions, never with a usable
    latitude. *)
Definition gyeonggi_unlocated : string :=
  "<response><libs><lib><libCode>111017</libCode><latitude>invalid</latitude><longitude>126.9</longitude></lib><lib><libCode>141001</libCode><latitude>37.27</latitude><longitude>127.01</longitude></lib></libs></response>".

(** The records the client returns for [seoul_first_unlocated] and for
    [gyeonggi_located]. *)
Definition seoul_records : list record :=
  [ {[ "libCode" := "111017"; "latitude" := "invalid"; "longitude" := "126.9" ]};
    {[ "libCode" := "111004"; "latitude" := "37.58"; "longitude" := "126.98" ]} ].

Definition gyeonggi_records : list record :=
  [ {[ "libCode" := "111017"; "latitude" := "37.57"; "longitude" := "126.96" ]} ].

(** The records the client returns for [gyeonggi_unlocated]. *)
Definition gyeonggi_unlocated_records : list record :=
  [ {[ "libCode" := "111017"; "latitude" := "invalid"; "longitude" := "126.9" ]};
    {[ "libCode" := "141001"; "latitude" := "37.27"; "longitude" := "127.01" ]} ].

(** The session after the user has picked the book [isbn]. *)
Definition picked (isbn : string) : AppWorld (num:=Z * nat) :=
  mkApp (mkWorld [] []) ∅ [] (mkSession (Some isbn) None None true).

(** The two records of the specification's filtering example. *)
Definition located_record : record :=
  {[ "latitude" := "37.5"; "longitude" := "127.0" ]}.

Definition unlocated_record : record :=
  {[ "latitude" := "invalid"; "longitude" := "127.0" ]}.

(** A world that holds the frame of the two records at reference 1. *)
Definition with_frame : AppWorld (num:=Z * nat) :=
  mkApp (mkWorld [] [])
    {[ 1%positive := pd.of_records [located_record; unlocated_record] ]} []
    (mkSession (Some "9788966262281") (Some 1%positive) None false).

End Sample.

(* ===================================================================== *)
(** * Sample inputs for the orchestrator and for [openai_utils] *)
(* ===================================================================== *)

Module Scenario.

(** The frame an outcome holds, the empty frame when it raised. *)
Definition the_frame (o : outcome (pd.DataFrame (Z * nat))) : pd.DataFrame (Z * nat) :=
  match o with
  | Return d => d
  | Raise _ => pd.empty_frame
  end.

(** A world that holds the frame of [records] at reference 1, with
    nothing selected. *)
Definition holding (df : pd.DataFrame (Z * nat)) : AppWorld (num:=Z * nat) :=
  mkApp (mkWorld [] []) {[ 1%positive := df ]} []
    (mkSession None (Some 1%positive) None false).

(** A world with a frame at reference 1 in which the book [isbn] has been
    picked and its libraries not yet looked up. *)
Definition picked_beside (df : pd.DataFrame (Z * nat)) (isbn : string)
  : AppWorld (num:=Z * nat) :=
  mkApp (mkWorld [] []) {[ 1%positive := df ]} []
    (mkSession (Some isbn) None None true).

(** A remote service that is down. *)
Definition down : list requests.Request -> requests.Request -> outcome requests.Response :=
  fun _ _ => Raise (RequestException ReqTimeout "timed out").

(** A remote service that answers the first request it gets and fails
    afterwards. *)
Definition answers_once (body : string)
  : list requests.Request -> requests.Request -> outcome requests.Response :=
  fun log q =>
    match log with
    | [] => Return (requests.mkResponse 200 "OK" (requests.endpoint q) body)
    | _ :: _ => Raise (RequestException ReqTimeout "timed out")
    end.

(** A remote service that answers every request with [body]. *)
Definition answers (body : string)
  : list requests.Request -> requests.Request -> outcome requests.Response :=
  fun _ q => Return (requests.mkResponse 200 "OK" (requests.endpoint q) body).

(** A JSON object as the model may send it, and the same inside a
    sentence. *)
Definition object_body : string :=
  String.concat dq
    [ ""; "keywords"; ": ["; "python"; "], "; "titles"; ": 7, ";
      "narou_query"; ": "; " python "; "" ].

Definition object_text : string := "{" +:+ object_body +:+ "}".

Definition wrapped_text : string := "Sure! " +:+ object_text +:+ " Hope this helps.".

Definition object_fields : gmap string (json.value unit) :=
  {[ "keywords" := json.List [json.Str "python"];
     "titles" := json.Int 7;
     "narou_query" := json.Str " python " ]}.

(** A stand-in for [json.loads] that knows [object_text] and rejects every
    other string. *)
Definition loads (s : string) : outcome (json.value unit) :=
  if String.eqb s object_text then Return (json.Dict object_fields)
  else Raise (OtherException "JSONDecodeError" "Expecting value: line 1 column 1 (char 0)").

(** A model that replies [content] in its only choice. *)
Definition replies (content : string)
  : list openai.ChatRequest -> openai.ChatRequest -> outcome (list (option string)) :=
  fun _ _ => Return [Some content].

(** A call that fails with [e]. *)
Definition fails (e : exn)
  : list openai.ChatRequest -> openai.ChatRequest -> outcome (list (option string)) :=
  fun _ _ => Raise e.

Definition fresh_gpt : GptWorld := mkGpt (mkWorld [] []) [] None.

(** The session before the first search. *)
Definition fresh_submit : SubmitWorld :=
  mkSubmit fresh_gpt [] "" None (mkSession None None None false).

(** [search_books] is not asked with anything but a [str] here. *)
Definition no_other_query (v : json.value unit) (api_key : string) : M World (list record) :=
  ret [].

(** Three search results, two of them for the same identifier. *)
Definition results : list record :=
  [ {[ "isbn13" := "9788966262281"; "bookname" := "Effective Python" ]};
    {[ "isbn13" := "9791162245651" ]};
    {[ "isbn13" := "9791162245651"; "bookname" := "Fluent Python" ]} ].

End Scenario.

(* ===================================================================== *)
(** * Properties of the Python runtime and of the parser interface *)
(* ===================================================================== *)

Lemma truthy_false (s : string) : truthy s = false <-> s = "".
Proof. destruct s; simpl; split; congruence. Qed.

Lemma truthy_true (s : string) : truthy s = true <-> s <> "".
Proof. destruct s; simpl; split; congruence. Qed.

(** ** Characters *)

Lemma unchars_app (l1 l2 : list string) :
  unchars (l1 ++ l2) = unchars l1 +:+ unchars l2.
Proof.
  induction l1 as [|ch l1 IH]; [done|]. simpl. rewrite IH.
  induction ch as [|c ch IHch]; [done|]. exact (f_equal (String c) IHch).
Qed.

Lemma unchars_chars (s : string) : unchars (chars s) = s.
Proof.
  induction s as [|c s IH]; [done|]. simpl.
  destruct (chars s) as [|ch rest]; [by rewrite <- IH|].
  destruct (starts_with_continuation ch); exact (f_equal (String c) IH).
Qed.

(** The first character begins with the first byte. *)
Lemma chars_head (s : string) :
  match chars s with
  | [] => s = ""
  | ch :: _ => starts_with_continuation ch = starts_with_continuation s
  end.
Proof.
  destruct s as [|c s]; [done|]. simpl.
  destruct (chars s) as [|ch rest]; [done|].
  by destruct (starts_with_continuation ch).
Qed.

Lemma chars_well_cut (s : string) : well_cut true (chars s) = true.
Proof.
  induction s as [|c s IH]; [done|]. simpl.
  destruct (chars s) as [|ch rest]; [done|].
  simpl in IH. apply andb_true_iff in IH as [[Hch _]%andb_true_iff Hrest].
  destruct (starts_with_continuation ch) eqn:Hcont; simpl.
  - rewrite Hrest, andb_true_r. destruct ch as [|b ch]; [done|]. simpl in *.
    by rewrite Hcont, Hch.
  - by rewrite Hch, Hcont, Hrest.
Qed.

Lemma well_cut_weaken (first : bool) (l : list string) :
  well_cut first l = true -> well_cut true l = true.
Proof.
  destruct l as [|ch l]; [done|]. simpl.
  intros [[-> _]%andb_true_iff ->]%andb_true_iff. done.
Qed.

Lemma well_cut_app (first : bool) (l1 l2 : list string) :
  well_cut first (l1 ++ l2) = true ->
  well_cut first l1 = true /\ well_cut true l2 = true.
Proof.
  revert first. induction l1 as [|ch l1 IH]; intros first; simpl.
  - intros H. split; [done|]. by eapply well_cut_weaken.
  - intros [-> [H1 H2]%IH]%andb_true_iff. by rewrite H1.
Qed.

Lemma well_cut_unchars (l : list string) :
  well_cut false l = true -> starts_with_continuation (unchars l) = false.
Proof.
  destruct l as [|ch l]; [done|]. simpl.
  intros [[Hch Hcont%negb_true_iff]%andb_true_iff _]%andb_true_iff.
  by destruct ch.
Qed.

Lemma chars_char_app (b : ascii) (rest q : string) :
  forallb is_continuation (list_ascii_of_string rest) = true ->
  starts_with_continuation q = false ->
  chars (String b (rest +:+ q)) = String b rest :: chars q.
Proof.
  revert b. induction rest as [|r rest IH]; intros b Hrest Hq.
  - change ("" +:+ q) with q. simpl. pose proof (chars_head q) as Hhead.
    destruct (chars q) as [|ch l]; [done|]. by rewrite Hhead, Hq.
  - simpl in Hrest. apply andb_true_iff in Hrest as [Hr Hrest].
    change (String r rest +:+ q) with (String r (rest +:+ q)).
    change (chars (String b (String r (rest +:+ q))))
      with (match chars (String r (rest +:+ q)) with
            | ch :: l =>
                if starts_with_continuation ch then String b ch :: l
                else String b EmptyString :: ch :: l
            | [] => [String b EmptyString]
            end).
    rewrite (IH r Hrest Hq). simpl. by rewrite Hr.
Qed.

(** Cutting a string made of characters gives these characters back. *)
Lemma chars_unchars (l : list string) : well_cut true l = true -> chars (unchars l) = l.
Proof.
  induction l as [|ch l IH]; [done|]. simpl.
  intros [[Hch _]%andb_true_iff Hl]%andb_true_iff.
  destruct ch as [|b rest]; [done|]. simpl in Hch.
  change (String b rest +:+ unchars l) with (String b (rest +:+ unchars l)).
  rewrite chars_char_app; [|done|by apply well_cut_unchars].
  by rewrite IH by (by eapply well_cut_weaken).
Qed.

Lemma is_char_nonempty (l : list string) :
  well_cut true l = true -> unchars l = "" -> l = [].
Proof.
  destruct l as [|ch l]; [done|]. simpl.
  intros [[Hch _]%andb_true_iff _]%andb_true_iff. by destruct ch.
Qed.

(** ** [strip] on lists of characters *)

Lemma lstrip_chars_spec (l : list string) :
  exists pre, l = (pre ++ lstrip_chars l)%list /\ forallb is_space pre = true /\
              from_option is_space false (head (lstrip_chars l)) = false.
Proof.
  induction l as [|ch l (pre & Hl & Hpre & Hhead)]; [by exists []|]. simpl.
  destruct (is_space ch) eqn:Hch.
  - exists (ch :: pre). simpl. rewrite Hch, Hpre. by rewrite <- Hl.
  - exists []. simpl. by rewrite Hch.
Qed.

Lemma rstrip_chars_spec (l : list string) :
  exists post, l = (rstrip_chars l ++ post)%list /\ forallb is_space post = true /\
               from_option is_space false (last (rstrip_chars l)) = false /\
               (rstrip_chars l = [] \/ head (rstrip_chars l) = head l).
Proof.
  induction l as [|ch l (post & Hl & Hpost & Hlast & Hhead)];
    [exists []; by repeat split; try left|].
  simpl. destruct (rstrip_chars l) as [|ch' t] eqn:Hr.
  - simpl in Hl. subst l. destruct (is_space ch) eqn:Hch.
    + exists (ch :: post). simpl. rewrite Hch, Hpost. by repeat split; try left.
    + exists post. simpl. rewrite Hch. by repeat split; try right.
  - exists post. rewrite Hl. split; [done|]. split; [done|]. split; [|by right].
    exact Hlast.
Qed.

(** ** [strip] *)

Lemma lstrip_spec (s : string) :
  exists pre, s = pre +:+ lstrip s /\ all_space pre = true /\
              starts_with_space (lstrip s) = false.
Proof.
  destruct (lstrip_chars_spec (chars s)) as (pre & Hl & Hpre & Hhead).
  pose proof (chars_well_cut s) as Hcut. rewrite Hl in Hcut.
  apply well_cut_app in Hcut as [Hcut1 Hcut2].
  exists (unchars pre). unfold lstrip, all_space, starts_with_space.
  rewrite !chars_unchars by done. split; [|split; [done|]].
  - by rewrite <- unchars_app, <- Hl, unchars_chars.
  - by destruct (lstrip_chars (chars s)).
Qed.

Lemma rstrip_spec (s : string) :
  exists post, s = rstrip s +:+ post /\ all_space post = true /\
               ends_with_space (rstrip s) = false.
Proof.
  destruct (rstrip_chars_spec (chars s)) as (post & Hl & Hpost & Hlast & _).
  pose proof (chars_well_cut s) as Hcut. rewrite Hl in Hcut.
  apply well_cut_app in Hcut as [Hcut1 Hcut2].
  exists (unchars post). unfold rstrip, all_space, ends_with_space.
  rewrite !chars_unchars by done. split; [|split; [done|]].
  - by rewrite <- unchars_app, <- Hl, unchars_chars.
  - by destruct (last (rstrip_chars (chars s))).
Qed.

(** [strip] removes a run of whitespace at each end and leaves a string
    that neither begins nor ends with whitespace. *)
Lemma strip_spec (s : string) :
  exists pre post,
    s = pre +:+ strip s +:+ post /\
    all_space pre = true /\ all_space post = true /\
    starts_with_space (strip s) = false /\ ends_with_space (strip s) = false.
Proof.
  destruct (lstrip_chars_spec (chars s)) as (pre & Hl & Hpre & Hhead).
  destruct (rstrip_chars_spec (lstrip_chars (chars s)))
    as (post & Hr & Hpost & Hlast & Hmid).
  pose proof (chars_well_cut s) as Hcut. rewrite Hl in Hcut.
  apply well_cut_app in Hcut as [Hcut1 Hcut2]. rewrite Hr in Hcut2.
  apply well_cut_app in Hcut2 as [Hcut2 Hcut3].
  exists (unchars pre), (unchars post). unfold strip, all_space.
  unfold starts_with_space, ends_with_space.
  rewrite !chars_unchars by done.
  split; [|split; [done|split; [done|split]]].
  - by rewrite <- !unchars_app, <- Hr, <- Hl, unchars_chars.
  - destruct Hmid as [-> | Hmid]; [done|].
    destruct (rstrip_chars (lstrip_chars (chars s))) as [|ch t]; [done|].
    simpl in Hmid. by rewrite <- Hmid in Hhead.
  - by destruct (last (rstrip_chars (lstrip_chars (chars s)))).
Qed.

Lemma lstrip_chars_all (l : list string) :
  forallb is_space l = true -> lstrip_chars l = [].
Proof.
  induction l as [|ch l IH]; [done|]. simpl.
  intros [-> Hl]%andb_true_iff. by apply IH.
Qed.

(** [strip] gives the empty string exactly on the strings made of
    whitespace. *)
Lemma strip_empty (s : string) : strip s = "" <-> all_space s = true.
Proof.
  destruct (lstrip_chars_spec (chars s)) as (pre & Hl & Hpre & _).
  destruct (rstrip_chars_spec (lstrip_chars (chars s))) as (post & Hr & Hpost & _).
  pose proof (chars_well_cut s) as Hcut. rewrite Hl in Hcut.
  apply well_cut_app in Hcut as [_ Hcut]. rewrite Hr in Hcut.
  apply well_cut_app in Hcut as [Hcut _].
  unfold strip, all_space. split.
  - intros Hnil%is_char_nonempty; [|done]. rewrite Hnil in Hr. simpl in Hr.
    rewrite Hl, Hr, forallb_app, Hpre, Hpost. done.
  - intros Hall. by rewrite (lstrip_chars_all _ Hall).
Qed.

Example strip_both_ends : strip "  Dune  Messiah " = "Dune  Messiah".
Proof. reflexivity. Qed.

Example strip_blank : strip "   " = "".
Proof. reflexivity. Qed.

(** Korean text is left whole, and the ideographic space is whitespace
    like the others. *)
Example strip_korean : strip "그림책" = "그림책" /\ ends_with_space "그림책" = false.
Proof. split; vm_compute; reflexivity. Qed.

Example strip_wide_space : strip "　 인공지능 책 　" = "인공지능 책".
Proof. vm_compute. reflexivity. Qed.

Example chars_korean : chars "a책b" = ["a"; "책"; "b"] /\ ord "책" = Some 52293.
Proof. split; vm_compute; reflexivity. Qed.

(** The reference parser on text, tails and markup it rejects. *)
Example fromstring_text_and_tail :
  ET.fromstring "<a>x<b/>y</a>" =
  Return (ET.mkElement "a" [] (Some "x") None
            [ET.mkElement "b" [] None (Some "y") []]).
Proof. reflexivity. Qed.

Example fromstring_mismatched_tag :
  ET.fromstring "<a></b>" = Raise (ParseError "not well-formed (invalid token)").
Proof. reflexivity. Qed.

Example fromstring_empty_document :
  ET.fromstring EmptyString = Raise (ParseError "not well-formed (invalid token)").
Proof. reflexivity. Qed.

(** The reference numeric parser. *)
Example to_num_decimal : Decimal.to_num "37.50" = Some (375, 1%nat).
Proof. reflexivity. Qed.

Example to_num_negative : Decimal.to_num "-0.25" = Some (-25, 2%nat).
Proof. reflexivity. Qed.

Example to_num_word : Decimal.to_num "invalid" = None.
Proof. reflexivity. Qed.

Lemma raise_for_status_bad (r : requests.Response) :
  400 <= requests.status_code r < 600 ->
  exists msg, requests.raise_for_status r = Raise (RequestException ReqHTTPError msg).
Proof.
  intros [Hlo Hhi]. unfold requests.raise_for_status.
  destruct (requests.status_code r <? 500) eqn:H5.
  - assert ((400 <=? requests.status_code r) = true) as -> by lia.
    simpl. eauto.
  - assert ((400 <=? requests.status_code r) = true) as -> by lia.
    assert ((500 <=? requests.status_code r) = true) as -> by lia.
    assert ((requests.status_code r <? 600) = true) as -> by lia.
    simpl. eauto.
Qed.

Lemma raise_for_status_ok (r : requests.Response) :
  ~ (400 <= requests.status_code r < 600) ->
  requests.raise_for_status r = Return tt.
Proof.
  intros H. unfold requests.raise_for_status.
  destruct (400 <=? requests.status_code r) eqn:H4;
    destruct (requests.status_code r <? 500) eqn:H5;
    destruct (500 <=? requests.status_code r) eqn:H6;
    destruct (requests.status_code r <? 600) eqn:H7; simpl; try done; lia.
Qed.

Lemma raise_for_status_RequestException (r : requests.Response) (e : exn) :
  requests.raise_for_status r = Raise e -> is_RequestException e = true.
Proof.
  unfold requests.raise_for_status.
  repeat case_match; intros; simplify_eq; done.
Qed.

Lemma service_failure_RequestException o e :
  service_failure o e -> is_RequestException e = true.
Proof.
  destruct 1; [done|]. by eapply raise_for_status_RequestException.
Qed.

(* ===================================================================== *)
(** * The response normalizer *)
(* ===================================================================== *)

Section normalizer.

Variable fromstring : string -> outcome ET.Element.

(** The ternary of the inner loop: the stripped text, [""] without text. *)
Lemma text_content_eq (child : ET.Element) :
  text_content child = trimmed_text child.
Proof.
  unfold text_content, trimmed_text. destruct (ET.text child) as [t|]; simpl; [|done].
  destruct t; done.
Qed.

(** A field of Korean text is trimmed as [str.strip] trims it: the text
    is left whole and the ideographic space around it is removed. *)
Example text_content_korean :
  text_content (ET.mkElement "bookname" [] (Some " 그림책　") None []) = "그림책".
Proof. vm_compute. reflexivity. Qed.

Lemma item_data_of_snoc (tg : string) at_ tx tl (cs : list ET.Element) (c : ET.Element) :
  item_data_of (ET.mkElement tg at_ tx tl (cs ++ [c])) =
  <[ET.tag c := text_content c]> (item_data_of (ET.mkElement tg at_ tx tl cs)).
Proof. unfold item_data_of. simpl. by rewrite fold_left_app. Qed.

(** The mapping built for an item: each tag is sent to the text of the
    last child that bears it. *)
Lemma item_data_of_lookup (item : ET.Element) (t : string) :
  item_data_of item !! t = text_content <$> last (ET.findall item t).
Proof.
  destruct item as [tg at_ tx tl cs]. unfold ET.findall. simpl.
  induction cs as [|c cs IH] using rev_ind.
  - done.
  - rewrite item_data_of_snoc, filter_app. simpl.
    destruct (decide (ET.tag c = t)) as [Heq|Hne].
    + rewrite filter_cons_True, filter_nil by done.
      rewrite last_snoc. simpl. subst t. by rewrite lookup_insert_eq.
    + rewrite filter_cons_False, filter_nil, app_nil_r by done.
      by rewrite lookup_insert_ne.
Qed.

(** [item_data] is empty exactly for an item without child elements. *)
Lemma item_data_of_empty (item : ET.Element) :
  item_data_of item = ∅ <-> ET.children item = [].
Proof.
  destruct item as [tg at_ tx tl cs]. simpl. split.
  - destruct cs as [|c cs] using rev_ind; [done|].
    rewrite item_data_of_snoc. intros H. by apply insert_non_empty in H.
  - intros ->. done.
Qed.

Lemma collect_app (es : list ET.Element) (items : list record) :
  collect es items = (items ++ collect es [])%list.
Proof.
  revert items. induction es as [|e es IH]; intros items.
  - simpl. by rewrite app_nil_r.
  - unfold collect in *. simpl.
    destruct (decide (item_data_of e = ∅)); [apply IH|].
    rewrite IH. rewrite (IH [item_data_of e]). by rewrite app_assoc.
Qed.

(** The outer loop: one mapping per item that has a child, in order. *)
Lemma collect_spec (es : list ET.Element) :
  collect es [] = item_data_of <$> filter (fun e => ET.children e <> []) es.
Proof.
  induction es as [|e es IH]; [done|].
  change (collect (e :: es) []) with
    (collect es (if decide (item_data_of e = ∅) then [] else [] ++ [item_data_of e])%list).
  rewrite collect_app, IH.
  destruct (decide (item_data_of e = ∅)) as [He|He].
  - rewrite filter_cons_False; [done|].
    apply item_data_of_empty in He. by intros [].
  - rewrite filter_cons_True; [done|].
    intros Hc. apply He. by apply item_data_of_empty.
Qed.

(** What [_parse_xml_response] does on a document the parser accepts. *)
Lemma parse_xml_response_ok (s rt it : string) (root : ET.Element) (w : World) :
  fromstring s = Return root ->
  _parse_xml_response fromstring s rt it w =
  (Return (item_data_of <$>
             filter (fun e => ET.children e <> [])
               (ET.findall (results_element_of root rt) it)), w).
Proof.
  intros Hroot. unfold _parse_xml_response, try_except, bind, lift, ret.
  rewrite Hroot. by rewrite collect_spec.
Qed.

(** What it does on a document the parser rejects. *)
Lemma parse_xml_response_raise (s rt it : string) (e : exn) (w : World) :
  fromstring s = Raise e ->
  exists line,
    _parse_xml_response fromstring s rt it w =
    (Return [], mkWorld (stdout w ++ [line]) (net_log w)).
Proof.
  intros He. unfold _parse_xml_response, try_except, bind, lift, ret, print, modify.
  rewrite He. destruct (is_ParseError e); eauto.
Qed.

(** The normalizer never raises and issues no request. *)
Lemma parse_xml_response_total (s rt it : string) (w : World) :
  exists items out,
    _parse_xml_response fromstring s rt it w = (Return items, mkWorld out (net_log w)).
Proof.
  destruct (fromstring s) as [root|e] eqn:Hs.
  - eexists _, (stdout w). rewrite (parse_xml_response_ok _ _ _ _ _ Hs).
    by destruct w.
  - destruct (parse_xml_response_raise s rt it e w Hs) as [line ->]. eauto.
Qed.

End normalizer.

(* ===================================================================== *)
(** * The catalog client *)
(* ===================================================================== *)

Section client.

Variable fromstring : string -> outcome ET.Element.
Variable remote : list requests.Request -> requests.Request -> outcome requests.Response.

Lemma search_books_run (query api_key : string) (page_no page_size : Z) (w : World) :
  api_key <> "" ->
  search_books fromstring remote query api_key page_no page_size w =
  after_request fromstring remote (srchBooks_request query api_key page_no page_size) "docs" "doc"
    "Error during Narou API book search request: "
    "An unexpected error occurred during book search: " w.
Proof.
  intros Hkey%truthy_true. unfold search_books, after_request. rewrite Hkey. simpl.
  change (BASE_URL +:+ "/srchBooks") with "http://data4library.kr/api/srchBooks".
  unfold try_except, bind, requests_get, srchBooks_request. simpl.
  destruct (remote _ _) as [r|e]; simpl.
  - unfold lift. destruct (requests.raise_for_status r) as [[]|e] eqn:Hst; simpl.
    + destruct (parse_xml_response_total fromstring (requests.text r) "docs" "doc"
                  (mkWorld (stdout w) (net_log w ++ [srchBooks_request query api_key page_no page_size])))
        as (items & out & Hp).
      unfold srchBooks_request in Hp. simpl in Hp. by rewrite Hp.
    + by rewrite (raise_for_status_RequestException _ _ Hst).
  - by destruct (is_RequestException e).
Qed.

Lemma find_libraries_for_book_run (isbn13 api_key region_code : string)
    (page_no page_size : Z) (w : World) :
  api_key <> "" -> isbn13 <> "" -> region_code <> "" ->
  find_libraries_for_book fromstring remote isbn13 api_key region_code page_no page_size w =
  after_request fromstring remote (libSrchByBook_request isbn13 api_key region_code page_no page_size)
    "libs" "lib"
    "Error during Narou API library search request: "
    "An unexpected error occurred during library search: " w.
Proof.
  intros Hkey%truthy_true Hisbn%truthy_true Hregion%truthy_true.
  unfold find_libraries_for_book, after_request. rewrite Hkey, Hisbn, Hregion. simpl.
  change (BASE_URL +:+ "/libSrchByBook") with "http://data4library.kr/api/libSrchByBook".
  unfold try_except, bind, requests_get, libSrchByBook_request. simpl.
  destruct (remote _ _) as [r|e]; simpl.
  - unfold lift. destruct (requests.raise_for_status r) as [[]|e] eqn:Hst; simpl.
    + destruct (parse_xml_response_total fromstring (requests.text r) "libs" "lib"
                  (mkWorld (stdout w)
                     (net_log w ++ [libSrchByBook_request isbn13 api_key region_code page_no page_size])))
        as (items & out & Hp).
      unfold libSrchByBook_request in Hp. simpl in Hp. by rewrite Hp.
    + by rewrite (raise_for_status_RequestException _ _ Hst).
  - by destruct (is_RequestException e).
Qed.

(** The outcomes of the shared [try] statement. *)
Lemma after_request_failure q rt it l1 l2 w e :
  service_failure (remote (net_log w) q) e ->
  (after_request fromstring remote q rt it l1 l2 w).1 =
  Raise (ConnectionError ("Failed to connect to Narou API: " +:+ str e) e).
Proof.
  unfold after_request. inversion 1 as [e' He Heq|r e' Hst Hr Heq]; subst.
  - by rewrite He.
  - by rewrite Hr.
Qed.

Lemma after_request_unexpected q rt it l1 l2 w e :
  remote (net_log w) q = Raise e -> is_RequestException e = false ->
  (after_request fromstring remote q rt it l1 l2 w).1 = Return [].
Proof. unfold after_request. by intros -> ->. Qed.

Lemma after_request_outcomes q rt it l1 l2 w :
  (exists items, (after_request fromstring remote q rt it l1 l2 w).1 = Return items) \/
  (exists msg e, (after_request fromstring remote q rt it l1 l2 w).1 = Raise (ConnectionError msg e)
                 /\ is_RequestException e = true).
Proof.
  unfold after_request. destruct (remote _ _) as [r|e].
  - destruct (requests.raise_for_status r) as [[]|e] eqn:Hst.
    + destruct (parse_xml_response_total fromstring (requests.text r) rt it
                  (mkWorld (stdout w) (net_log w ++ [q]))) as (items & out & ->).
      left. eauto.
    + right. do 2 eexists. split; [done|].
      by eapply raise_for_status_RequestException.
  - destruct (is_RequestException e) eqn:He; [right|left]; eauto.
Qed.

End client.

(* ===================================================================== *)
(** * Claims about the client and the normalizer *)
(* ===================================================================== *)

(** Filtering by a predicate and by its negation splits a list. *)
Lemma length_filter_children (es : list ET.Element) :
  length (filter (fun e => ET.children e <> []) es) =
  (length es - length (filter (fun e => ET.children e = []) es))%nat.
Proof.
  induction es as [|e es IH]; [done|].
  pose proof (length_filter (fun e => ET.children e = []) es) as Hle.
  destruct (decide (ET.children e = [])) as [He|He].
  - rewrite filter_cons_False by (by intros []).
    rewrite (filter_cons_True (fun e => ET.children e = [])) by done.
    simpl. exact IH.
  - rewrite filter_cons_True by done.
    rewrite (filter_cons_False (fun e => ET.children e = [])) by done.
    simpl. rewrite IH. lia.
Qed.

(** No element of the tree bears [name] when the search for one fails. *)
Lemma first_anywhere_None (name : string) (e : ET.Element) :
  Spec.first_anywhere name e = None ->
  ET.tag e <> name /\ Forall (fun c => ET.tag c <> name) (ET.children e).
Proof.
  destruct e as [tg at_ tx tl cs]. simpl.
  destruct (decide (tg = name)) as [|Hne]; [done|].
  intros H. split; [done|].
  induction cs as [|c cs IH]; [constructor|].
  destruct (Spec.first_anywhere name c) eqn:Hc; [done|].
  constructor; [|by apply IH].
  destruct c as [tg' at' tx' tl' cs']. simpl in *.
  by destruct (decide (tg' = name)).
Qed.

(** A filter that no element passes keeps nothing. *)
Lemma filter_none {A} (P : A -> Prop) `{forall x, Decision (P x)} (l : list A) :
  Forall (fun x => ~ P x) l -> filter P l = [].
Proof.
  induction 1 as [|x l Hx Hl IH]; [done|].
  by rewrite filter_cons_False.
Qed.

(** A second filter that every survivor of the first one passes changes
    nothing. *)
Lemma filter_filter_all {A} (P Q : A -> Prop)
    `{forall x, Decision (P x)} `{forall x, Decision (Q x)} (l : list A) :
  Forall (fun x => P x -> Q x) l -> filter Q (filter P l) = filter P l.
Proof.
  induction 1 as [|x l Hx Hl IH]; [done|].
  destruct (decide (P x)) as [HP|HP].
  - rewrite (filter_cons_True P) by done.
    rewrite (filter_cons_True Q) by auto. by rewrite IH.
  - by rewrite (filter_cons_False P) by done.
Qed.

(** [find] returns the first direct child that bears the name. *)
Lemma find_first_child (root g : ET.Element) (name : string) before after :
  ET.children root = (before ++ g :: after)%list ->
  ET.tag g = name ->
  Forall (fun c => ET.tag c <> name) before ->
  ET.find root name = Some g.
Proof.
  intros Hcs Hg Hbefore. unfold ET.find, ET.findall. rewrite Hcs, filter_app.
  rewrite (filter_none _ before) by done.
  by rewrite filter_cons_True.
Qed.

Lemma find_no_child (root : ET.Element) (name : string) :
  Forall (fun c => ET.tag c <> name) (ET.children root) ->
  ET.find root name = None.
Proof.
  intros H. unfold ET.find, ET.findall.
  by rewrite (filter_none _ (ET.children root)).
Qed.

(** C1, as amended: for both operations, when the remote call yields a
    transport failure ([requests.get] raises a [RequestException]) or a
    response whose status is 4xx or 5xx, the operation raises
    [ConnectionError] with the underlying failure as its cause; it does not
    return a list. *)
Theorem C1_service_failure_is_raised
    (fromstring : string -> outcome ET.Element)
    (remote : list requests.Request -> requests.Request -> outcome requests.Response)
    (w : World) (e : exn) :
  (forall query api_key page_no page_size,
      api_key <> "" ->
      service_failure
        (remote (net_log w) (srchBooks_request query api_key page_no page_size)) e ->
      (search_books fromstring remote query api_key page_no page_size w).1 =
      Raise (ConnectionError ("Failed to connect to Narou API: " +:+ str e) e))
  /\
  (forall isbn13 api_key region_code page_no page_size,
      api_key <> "" -> isbn13 <> "" -> region_code <> "" ->
      service_failure
        (remote (net_log w)
           (libSrchByBook_request isbn13 api_key region_code page_no page_size)) e ->
      (find_libraries_for_book fromstring remote isbn13 api_key region_code
         page_no page_size w).1 =
      Raise (ConnectionError ("Failed to connect to Narou API: " +:+ str e) e)).
Proof.
  split.
  - intros query api_key page_no page_size Hkey Hfail.
    rewrite search_books_run by done. by apply after_request_failure.
  - intros isbn13 api_key region_code page_no page_size Hkey Hisbn Hregion Hfail.
    rewrite find_libraries_for_book_run by done. by apply after_request_failure.
Qed.

Lemma C1_service_failure_is_raised_witness :
  (search_books ET.fromstring
     (fun _ _ => Return (requests.mkResponse 404 "Not Found" "http://data4library.kr/api/srchBooks" ""))
     "python" "key" 1 20 (mkWorld [] [])).1 =
  Raise (ConnectionError
           "Failed to connect to Narou API: 404 Client Error: Not Found for url: http://data4library.kr/api/srchBooks"
           (RequestException ReqHTTPError
              "404 Client Error: Not Found for url: http://data4library.kr/api/srchBooks"))
  /\
  (find_libraries_for_book ET.fromstring
     (fun _ _ => Raise (RequestException ReqConnectionError "Connection refused"))
     "9788966262281" "key" "11" 1 50 (mkWorld [] [])).1 =
  Raise (ConnectionError "Failed to connect to Narou API: Connection refused"
           (RequestException ReqConnectionError "Connection refused")).
Proof.
  split.
  - apply (proj1 (C1_service_failure_is_raised ET.fromstring _ (mkWorld [] [])
                    (RequestException ReqHTTPError
                       "404 Client Error: Not Found for url: http://data4library.kr/api/srchBooks"))).
    + discriminate.
    + apply bad_status; [simpl; lia | reflexivity].
  - apply (proj2 (C1_service_failure_is_raised ET.fromstring _ (mkWorld [] [])
                    (RequestException ReqConnectionError "Connection refused"))).
    + discriminate.
    + discriminate.
    + discriminate.
    + apply transport_failure. reflexivity.
Defined.

(** C1 as stated fails: status 304 is not a 2xx status, yet
    [raise_for_status] does not raise on it, and both operations return an
    empty list. *)
Lemma C1_counterexample_status_304 :
  let r := requests.mkResponse 304 "Not Modified" "http://data4library.kr/api" "" in
  ~ (200 <= requests.status_code r < 300) /\
  (search_books ET.fromstring (fun _ _ => Return r)
     "python" "key" 1 20 (mkWorld [] [])).1 = Return [] /\
  (find_libraries_for_book ET.fromstring (fun _ _ => Return r)
     "9788966262281" "key" "11" 1 50 (mkWorld [] [])).1 = Return [].
Proof. simpl. split; [lia|]. split; vm_compute; reflexivity. Qed.

(** C2: on every input string the parser rejects, whatever the group name
    and the item name, the normalizer returns the empty list; and it never
    raises, on any input. *)
Theorem C2_malformed_document_yields_empty
    (fromstring : string -> outcome ET.Element)
    (xml_string result_tag item_tag : string) (w : World) :
  (forall e, fromstring xml_string = Raise e ->
     (_parse_xml_response fromstring xml_string result_tag item_tag w).1 = Return [])
  /\
  (exists items,
     (_parse_xml_response fromstring xml_string result_tag item_tag w).1 = Return items).
Proof.
  split.
  - intros e He.
    by destruct (parse_xml_response_raise fromstring xml_string result_tag item_tag e w He)
      as [line ->].
  - destruct (parse_xml_response_total fromstring xml_string result_tag item_tag w)
      as (items & out & ->). eauto.
Qed.

Lemma C2_malformed_document_yields_empty_witness :
  ET.fromstring "<response><docs><doc><bookname>Dune</bookname></doc>" =
  Raise (ParseError "not well-formed (invalid token)")
  /\
  (_parse_xml_response ET.fromstring
     "<response><docs><doc><bookname>Dune</bookname></doc>" "docs" "doc"
     (mkWorld [] [])).1 = Return [].
Proof.
  split; [reflexivity|].
  apply (proj1 (C2_malformed_document_yields_empty ET.fromstring
                  "<response><docs><doc><bookname>Dune</bookname></doc>" "docs" "doc"
                  (mkWorld [] []))
           (ParseError "not well-formed (invalid token)")).
  reflexivity.
Defined.

(** C3: with an empty credential either operation raises [ValueError], and
    so does the holdings lookup with an empty identifier or an empty region
    code; the world is left as it was, so no request has been issued. *)
Theorem C3_configuration_error_before_network
    (fromstring : string -> outcome ET.Element)
    (remote : list requests.Request -> requests.Request -> outcome requests.Response)
    (w : World) :
  (forall query page_no page_size,
      search_books fromstring remote query "" page_no page_size w =
      (Raise (ValueError "Narou API key is not configured."), w))
  /\
  (forall isbn13 api_key region_code page_no page_size,
      api_key = "" \/ isbn13 = "" \/ region_code = "" ->
      exists msg,
        find_libraries_for_book fromstring remote isbn13 api_key region_code
          page_no page_size w = (Raise (ValueError msg), w)).
Proof.
  split; [done|].
  intros isbn13 api_key region_code page_no page_size H.
  unfold find_libraries_for_book.
  destruct api_key; [simpl; eauto|].
  destruct isbn13; [simpl; eauto|].
  destruct region_code; [simpl; eauto|].
  by destruct H as [|[|]].
Qed.

Lemma C3_configuration_error_before_network_witness :
  exists msg,
    find_libraries_for_book ET.fromstring
      (fun _ _ => Return (requests.mkResponse 200 "OK" "" "<response/>"))
      "" "key" "11" 1 50 (mkWorld [] []) =
    (Raise (ValueError msg), mkWorld [] []).
Proof.
  apply (proj2 (C3_configuration_error_before_network ET.fromstring _ (mkWorld [] []))).
  right. left. reflexivity.
Defined.

(** C4: for both operations, an exception of the remote call that is not a
    [RequestException] becomes the empty list; and whatever happens, an
    operation ends with a result, a [ValueError] or a [ConnectionError]
    that wraps a [RequestException]. *)
Theorem C4_unexpected_error_yields_empty
    (fromstring : string -> outcome ET.Element)
    (remote : list requests.Request -> requests.Request -> outcome requests.Response)
    (w : World) :
  (forall query api_key page_no page_size e,
      api_key <> "" ->
      remote (net_log w) (srchBooks_request query api_key page_no page_size) = Raise e ->
      is_RequestException e = false ->
      (search_books fromstring remote query api_key page_no page_size w).1 = Return [])
  /\
  (forall isbn13 api_key region_code page_no page_size e,
      api_key <> "" -> isbn13 <> "" -> region_code <> "" ->
      remote (net_log w)
        (libSrchByBook_request isbn13 api_key region_code page_no page_size) = Raise e ->
      is_RequestException e = false ->
      (find_libraries_for_book fromstring remote isbn13 api_key region_code
         page_no page_size w).1 = Return [])
  /\
  (forall query api_key page_no page_size,
      client_outcome (search_books fromstring remote query api_key page_no page_size w).1)
  /\
  (forall isbn13 api_key region_code page_no page_size,
      client_outcome
        (find_libraries_for_book fromstring remote isbn13 api_key region_code
           page_no page_size w).1).
Proof.
  repeat split.
  - intros query api_key page_no page_size e Hkey Hraise He.
    rewrite search_books_run by done. by eapply after_request_unexpected.
  - intros isbn13 api_key region_code page_no page_size e Hkey Hisbn Hregion Hraise He.
    rewrite find_libraries_for_book_run by done. by eapply after_request_unexpected.
  - intros query api_key page_no page_size.
    destruct (decide (api_key = "")) as [->|Hkey]; [done|].
    rewrite search_books_run by done.
    destruct (after_request_outcomes fromstring remote
                (srchBooks_request query api_key page_no page_size) "docs" "doc"
                "Error during Narou API book search request: "
                "An unexpected error occurred during book search: " w)
      as [[items ->]|(msg & e & -> & He)]; done.
  - intros isbn13 api_key region_code page_no page_size.
    destruct (decide (api_key = "")) as [->|Hkey]; [done|].
    destruct (decide (isbn13 = "")) as [->|Hisbn]; [by destruct api_key|].
    destruct (decide (region_code = "")) as [->|Hregion];
      [by destruct api_key, isbn13|].
    rewrite find_libraries_for_book_run by done.
    destruct (after_request_outcomes fromstring remote
                (libSrchByBook_request isbn13 api_key region_code page_no page_size)
                "libs" "lib"
                "Error during Narou API library search request: "
                "An unexpected error occurred during library search: " w)
      as [[items ->]|(msg & e & -> & He)]; done.
Qed.

Lemma C4_unexpected_error_yields_empty_witness :
  (search_books ET.fromstring
     (fun _ _ => Raise (OtherException "UnicodeError" "label empty or too long"))
     "python" "key" 1 20 (mkWorld [] [])).1 = Return []
  /\
  (find_libraries_for_book ET.fromstring
     (fun _ _ => Raise (OtherException "UnicodeError" "label empty or too long"))
     "9788966262281" "key" "11" 1 50 (mkWorld [] [])).1 = Return [].
Proof.
  pose proof (C4_unexpected_error_yields_empty ET.fromstring
                (fun _ _ => Raise (OtherException "UnicodeError" "label empty or too long"))
                (mkWorld [] [])) as (Hbooks & Hlibs & _).
  split.
  - apply (Hbooks "python" "key" 1 20 (OtherException "UnicodeError" "label empty or too long"));
      [discriminate | reflexivity | reflexivity].
  - apply (Hlibs "9788966262281" "key" "11" 1 50
             (OtherException "UnicodeError" "label empty or too long"));
      [discriminate | discriminate | discriminate | reflexivity | reflexivity].
Defined.

(** C5, as amended: for a document the parser accepts, with [N] item
    elements among the children of the group element, the normalizer
    returns one mapping per item that has at least one child element, in
    document order - [N] less the number of items without children, an item
    whose children all lack text being kept; each mapping sends every tag
    borne by a child of its item to the trimmed text of the last child
    that bears it (the empty string when that child has no text), and
    holds no other key. *)
Theorem C5_one_mapping_per_item_with_children
    (fromstring : string -> outcome ET.Element)
    (xml_string result_tag item_tag : string) (w : World) (root : ET.Element) :
  fromstring xml_string = Return root ->
  let item_elements := ET.findall (results_element_of root result_tag) item_tag in
  exists out,
    (_parse_xml_response fromstring xml_string result_tag item_tag w).1 = Return out /\
    length out =
      (length item_elements
       - length (filter (fun item => ET.children item = []) item_elements))%nat /\
    Forall2
      (fun item m => forall t, m !! t = trimmed_text <$> last (ET.findall item t))
      (filter (fun item => ET.children item <> []) item_elements) out /\
    Forall
      (fun m : record =>
         forall t v, m !! t = Some v ->
                     starts_with_space v = false /\ ends_with_space v = false)
      out.
Proof.
  intros Hroot item_elements.
  rewrite (parse_xml_response_ok fromstring _ result_tag item_tag root w Hroot).
  eexists. split; [reflexivity|]. split; [|split].
  - rewrite length_fmap. apply length_filter_children.
  - apply Forall2_fmap_r, Forall_Forall2_diag, Forall_forall.
    intros item _ t. rewrite item_data_of_lookup.
    destruct (last (ET.findall item t)) as [c|]; simpl; [|done].
    by rewrite text_content_eq.
  - apply Forall_fmap, Forall_forall. intros item _ t v. simpl.
    rewrite item_data_of_lookup.
    destruct (last (ET.findall item t)) as [c|]; simpl; [|done].
    intros [= <-]. rewrite text_content_eq. unfold trimmed_text.
    destruct (ET.text c) as [tx|]; simpl; [|done].
    by destruct (strip_spec tx) as (pre & post & _ & _ & _ & Hstart & Hend).
Qed.

Lemma C5_one_mapping_per_item_with_children_witness :
  exists out,
    (_parse_xml_response ET.fromstring
       "<response><docs><doc><isbn13> 978 </isbn13><vol/></doc><doc/><doc><isbn13>979</isbn13></doc></docs></response>"
       "docs" "doc" (mkWorld [] [])).1 = Return out /\
    length out = 2%nat.
Proof.
  destruct (ET.fromstring
              "<response><docs><doc><isbn13> 978 </isbn13><vol/></doc><doc/><doc><isbn13>979</isbn13></doc></docs></response>")
    as [root|] eqn:Hroot; [|discriminate].
  destruct (C5_one_mapping_per_item_with_children ET.fromstring _ "docs" "doc"
              (mkWorld [] []) root Hroot) as (out & Hout & Hlen & _ & _).
  exists out. split; [exact Hout|].
  vm_compute in Hroot. injection Hroot as <-.
  rewrite Hlen. reflexivity.
Defined.

(** C5 as stated fails: the one item of this document has a child but no
    child with text, so the specification omits it; the normalizer returns
    a mapping for it. *)
Lemma C5_counterexample_item_with_empty_child :
  exists root out,
    ET.fromstring "<response><docs><doc><vol/></doc></docs></response>" = Return root /\
    (_parse_xml_response ET.fromstring
       "<response><docs><doc><vol/></doc></docs></response>" "docs" "doc"
       (mkWorld [] [])).1 = Return out /\
    out = [ {[ "vol" := "" ]} ] /\
    ~ records_as_stated (ET.findall (results_element_of root "docs") "doc") out.
Proof.
  eexists _, _. split; [vm_compute; reflexivity|].
  split; [vm_compute; reflexivity|].
  split; [vm_compute; reflexivity|].
  intros H. apply Forall2_length in H. vm_compute in H. discriminate.
Qed.

(** C6, as amended: for a document the parser accepts, the normalizer
    scans the first direct child of the top-level element that bears the
    group name, and the top-level element itself when no direct child
    bears it - in particular when no element of the document does; a root
    that holds the items directly, with no group wrapper among its
    children, yields one record per item that has a child element. *)
Theorem C6_group_is_first_child_or_root
    (fromstring : string -> outcome ET.Element)
    (xml_string result_tag item_tag : string) (w : World) (root : ET.Element) :
  fromstring xml_string = Return root ->
  let out := (_parse_xml_response fromstring xml_string result_tag item_tag w).1 in
  let records_of (group : ET.Element) :=
    item_data_of <$> filter (fun e => ET.children e <> []) (ET.findall group item_tag) in
  (forall before g after,
      ET.children root = (before ++ g :: after)%list ->
      ET.tag g = result_tag ->
      Forall (fun c => ET.tag c <> result_tag) before ->
      out = Return (records_of g))
  /\
  (Forall (fun c => ET.tag c <> result_tag) (ET.children root) ->
   out = Return (records_of root))
  /\
  (Spec.first_anywhere result_tag root = None -> out = Return (records_of root))
  /\
  (Forall (fun c => ET.tag c <> result_tag) (ET.children root) ->
   Forall (fun c => ET.tag c = item_tag -> ET.children c <> []) (ET.children root) ->
   exists items,
     out = Return items /\ length items = length (ET.findall root item_tag)).
Proof.
  intros Hroot out records_of. subst out.
  rewrite (parse_xml_response_ok fromstring _ result_tag item_tag root w Hroot). simpl.
  assert (Forall (fun c => ET.tag c <> result_tag) (ET.children root) ->
          results_element_of root result_tag = root) as Hfallback.
  { intros H. unfold results_element_of. by rewrite find_no_child. }
  repeat split.
  - intros before g after Hcs Hg Hbefore. unfold results_element_of.
    by rewrite (find_first_child root g result_tag before after).
  - intros H. rewrite Hfallback by done. reflexivity.
  - intros H%first_anywhere_None. rewrite Hfallback by apply H. reflexivity.
  - intros H Hitems. rewrite Hfallback by done. eexists. split; [reflexivity|].
    rewrite length_fmap. unfold ET.findall. by rewrite filter_filter_all.
Qed.

Lemma C6_group_is_first_child_or_root_witness :
  let isbn (n : string) := ET.mkElement "isbn13" [] (Some n) None [] in
  let doc (n : string) := ET.mkElement "doc" [] None None [isbn n] in
  let group := ET.mkElement "docs" [] None None [doc "1"; doc "2"] in
  (_parse_xml_response ET.fromstring
     "<response><numFound>2</numFound><docs><doc><isbn13>1</isbn13></doc><doc><isbn13>2</isbn13></doc></docs></response>"
     "docs" "doc" (mkWorld [] [])).1 =
  Return (item_data_of <$>
            filter (fun e => ET.children e <> []) (ET.findall group "doc"))
  /\
  (let root := ET.mkElement "response" [] None None [doc "1"; doc "2"; doc "3"] in
   let out :=
     (_parse_xml_response ET.fromstring
        "<response><doc><isbn13>1</isbn13></doc><doc><isbn13>2</isbn13></doc><doc><isbn13>3</isbn13></doc></response>"
        "docs" "doc" (mkWorld [] [])).1 in
   out = Return (item_data_of <$>
                   filter (fun e => ET.children e <> []) (ET.findall root "doc")) /\
   exists items, out = Return items /\ length items = 3%nat).
Proof.
  intros isbn doc group. split.
  - assert (ET.fromstring
              "<response><numFound>2</numFound><docs><doc><isbn13>1</isbn13></doc><doc><isbn13>2</isbn13></doc></docs></response>"
            = Return (ET.mkElement "response" [] None None
                        [ET.mkElement "numFound" [] (Some "2") None []; group]))
      as Hroot by reflexivity.
    apply (proj1 (C6_group_is_first_child_or_root ET.fromstring _ "docs" "doc"
                    (mkWorld [] []) _ Hroot)
             [ET.mkElement "numFound" [] (Some "2") None []] group []).
    + reflexivity.
    + reflexivity.
    + repeat constructor. discriminate.
  - intros root.
    assert (ET.fromstring
              "<response><doc><isbn13>1</isbn13></doc><doc><isbn13>2</isbn13></doc><doc><isbn13>3</isbn13></doc></response>"
            = Return root) as Hroot by reflexivity.
    destruct (C6_group_is_first_child_or_root ET.fromstring _ "docs" "doc"
                (mkWorld [] []) root Hroot) as (_ & Hnochild & Hnowhere & Hdirect).
    split.
    + apply Hnowhere. reflexivity.
    + destruct Hdirect as (items & Hout & Hlen).
      * repeat constructor; discriminate.
      * repeat constructor; discriminate.
      * exists items. split; [exact Hout|]. rewrite Hlen. reflexivity.
Defined.

(** C6 as stated fails: here the first element named [docs] lies two
    levels below the top-level element; scanning it would give one record,
    but [find] looks among the direct children only, the normalizer falls
    back to the top-level element and returns nothing. *)
Lemma C6_counterexample_nested_group :
  exists root g,
    ET.fromstring
      "<response><result><docs><doc><isbn13>1</isbn13></doc></docs></result></response>"
    = Return root /\
    Spec.first_anywhere "docs" root = Some g /\
    collect (ET.findall g "doc") [] = [ {[ "isbn13" := "1" ]} ] /\
    collect (ET.findall (Spec.group_of root "docs") "doc") [] = [ {[ "isbn13" := "1" ]} ] /\
    (_parse_xml_response ET.fromstring
       "<response><result><docs><doc><isbn13>1</isbn13></doc></docs></result></response>"
       "docs" "doc" (mkWorld [] [])).1 = Return [].
Proof.
  eexists _, _. repeat split; vm_compute; reflexivity.
Qed.

(** C9 as stated fails: the client returns one record per [lib] element of
    the response; when the document lists a library code twice, so does
    the result of the lookup. *)
Lemma C9_counterexample_duplicate_in_one_lookup :
  (find_libraries_for_book ET.fromstring
     (fun _ _ =>
        Return (requests.mkResponse 200 "OK" "http://data4library.kr/api/libSrchByBook"
                  "<response><libs><lib><libCode>111017</libCode></lib><lib><libCode>111017</libCode></lib></libs></response>"))
     "9788966262281" "key" "11" 1 50 (mkWorld [] [])).1 =
  Return [ {[ "libCode" := "111017" ]}; {[ "libCode" := "111017" ]} ].
Proof. vm_compute. reflexivity. Qed.

(* ===================================================================== *)
(** * Properties of the frame pipeline *)
(* ===================================================================== *)

Section pipeline_facts.

Context {num : Type} {num_eq : EqDecision num}.
Variable to_num : string -> option num.

Implicit Types (df : pd.DataFrame num).

Lemma to_numeric_cell_num_or_nan (v : pd.cell num) :
  (exists x, pd.to_numeric_cell to_num v = pd.Num x) \/ pd.to_numeric_cell to_num v = pd.NaN.
Proof.
  destruct v as [s|x|]; simpl; eauto.
  destruct (to_num s); eauto.
Qed.

Lemma to_numeric_cell_idemp (v : pd.cell num) :
  pd.to_numeric_cell to_num (pd.to_numeric_cell to_num v) = pd.to_numeric_cell to_num v.
Proof. destruct v as [s|x|]; simpl; [|done..]. by destruct (to_num s). Qed.

Lemma notna_to_numeric_cell (v : pd.cell num) :
  negb (pd.isna (pd.to_numeric_cell to_num v)) = numeric_cell to_num v.
Proof.
  unfold numeric_cell. by destruct (to_numeric_cell_num_or_nan v) as [[x ->]| ->].
Qed.

Lemma coerced_present (c : string) df :
  c ∈ pd.columns df ->
  coerced to_num c df =
  Return (pd.mkDataFrame (pd.columns df)
            ((fun ir : nat * gmap string (pd.cell num) =>
                (ir.1, <[c := pd.to_numeric_cell to_num (pd.at_col ir.2 c)]> ir.2))
               <$> pd.rows df)).
Proof.
  intros Hc. unfold coerced, pd.getitem. rewrite decide_True by done. simpl.
  unfold pd.setitem, pd.to_numeric. f_equal. f_equal.
  - apply set_eq. intros x. rewrite elem_of_union, elem_of_singleton.
    split; [by intros [?| ->]|by left].
  - rewrite <- list_fmap_compose, zip_with_fmap_r, zip_with_diag. done.
Qed.

Lemma coerced_absent (c : string) df :
  c ∉ pd.columns df -> coerced to_num c df = Raise (KeyError c).
Proof. intros Hc. unfold coerced, pd.getitem. by rewrite decide_False. Qed.

Lemma missing_columns_nil df (subset : list string) :
  Forall (fun c => c ∈ pd.columns df) subset -> pd.missing_columns df subset = [].
Proof.
  intros H0. unfold pd.missing_columns. apply filter_none.
  eapply Forall_impl; [exact H0|]. intros c Hc Hn. exact (Hn Hc).
Qed.

Lemma missing_columns_cons df (subset : list string) (c : string) :
  c ∈ subset -> c ∉ pd.columns df ->
  exists c' cs, pd.missing_columns df subset = c' :: cs.
Proof.
  intros Hin Hc. unfold pd.missing_columns.
  destruct (filter _ subset) as [|c' cs] eqn:Hf; [|eauto].
  exfalso. eapply filter_nil_not_elem_of; [exact Hf| |exact Hin]. done.
Qed.

Lemma at_col_coerce_row_latitude r :
  pd.at_col (coerce_row to_num r) "latitude" =
  pd.to_numeric_cell to_num (pd.at_col r "latitude").
Proof.
  unfold coerce_row, pd.at_col at 1.
  rewrite lookup_insert_ne by done. by rewrite lookup_insert_eq.
Qed.

Lemma at_col_coerce_row_longitude r :
  pd.at_col (coerce_row to_num r) "longitude" =
  pd.to_numeric_cell to_num (pd.at_col r "longitude").
Proof. unfold coerce_row, pd.at_col at 1. by rewrite lookup_insert_eq. Qed.

Lemma at_col_coerce_row_other r (c : string) :
  c <> "latitude" -> c <> "longitude" ->
  pd.at_col (coerce_row to_num r) c = pd.at_col r c.
Proof.
  intros H1 H2. unfold coerce_row, pd.at_col.
  by rewrite !lookup_insert_ne by done.
Qed.

Lemma coerce_row_two_steps r :
  <["longitude" :=
      pd.to_numeric_cell to_num
        (pd.at_col (<["latitude" := pd.to_numeric_cell to_num (pd.at_col r "latitude")]> r)
           "longitude")]>
    (<["latitude" := pd.to_numeric_cell to_num (pd.at_col r "latitude")]> r)
  = coerce_row to_num r.
Proof.
  unfold coerce_row. f_equal. unfold pd.at_col. by rewrite lookup_insert_ne.
Qed.

Lemma dropna_coerced_rows (rs : list (nat * gmap string (pd.cell num))) :
  filter (fun ir : nat * gmap string (pd.cell num) =>
            forallb (fun c => negb (pd.isna (pd.at_col ir.2 c)))
              ["latitude"; "longitude"] = true)
    ((fun ir : nat * gmap string (pd.cell num) => (ir.1, coerce_row to_num ir.2)) <$> rs)
  = (fun ir : nat * gmap string (pd.cell num) => (ir.1, coerce_row to_num ir.2))
      <$> filter (fun ir => numeric_row to_num ir.2 = true) rs.
Proof.
  induction rs as [|[i r] rs IH]; [done|].
  rewrite fmap_cons.
  assert (forallb (fun c => negb (pd.isna (pd.at_col (coerce_row to_num r) c)))
            ["latitude"; "longitude"] = numeric_row to_num r) as Hrow.
  { simpl. rewrite at_col_coerce_row_latitude, at_col_coerce_row_longitude.
    by rewrite !notna_to_numeric_cell, andb_true_r. }
  destruct (numeric_row to_num r) eqn:Hr.
  - rewrite filter_cons_True by exact Hrow.
    rewrite (filter_cons_True _ (i, r)) by exact Hr.
    rewrite fmap_cons. by rewrite IH.
  - rewrite filter_cons_False
      by (intros Hn; exact (eq_true_false_abs _ Hn Hrow)).
    rewrite (filter_cons_False _ (i, r))
      by (intros Hn; exact (eq_true_false_abs _ Hn Hr)).
    exact IH.
Qed.

Lemma coordinates_cleaned_present df :
  "latitude" ∈ pd.columns df -> "longitude" ∈ pd.columns df ->
  coordinates_cleaned to_num df = Return (cleaned to_num df).
Proof.
  intros Hlat Hlon. unfold coordinates_cleaned.
  rewrite coerced_present by done. simpl.
  rewrite coerced_present by done. simpl.
  unfold pd.dropna. rewrite missing_columns_nil by (repeat constructor; done).
  simpl pd.rows. simpl pd.columns. unfold cleaned. f_equal. f_equal.
  rewrite <- list_fmap_compose.
  rewrite <- dropna_coerced_rows. f_equal.
  apply list_fmap_ext. intros _ [i r] _. simpl. by rewrite coerce_row_two_steps.
Qed.

Lemma coordinates_cleaned_absent df :
  "latitude" ∉ pd.columns df \/ "longitude" ∉ pd.columns df ->
  exists e, coordinates_cleaned to_num df = Raise e.
Proof.
  intros Hc. unfold coordinates_cleaned.
  destruct (decide ("latitude" ∈ pd.columns df)) as [Hlat|Hlat].
  - destruct Hc as [|Hlon]; [done|].
    rewrite coerced_present by done. simpl.
    rewrite coerced_absent by done. eauto.
  - rewrite coerced_absent by done. eauto.
Qed.

(** Every row of a cleaned frame has numbers for latitude and longitude. *)
Lemma cleaned_numeric df :
  Forall (fun ir => is_num (pd.at_col ir.2 "latitude") = true /\
                    is_num (pd.at_col ir.2 "longitude") = true)
    (pd.rows (cleaned to_num df)).
Proof.
  unfold cleaned. simpl. apply Forall_fmap, Forall_forall.
  intros [i r] [Hr _]%list_elem_of_filter. simpl in *.
  rewrite at_col_coerce_row_latitude, at_col_coerce_row_longitude.
  unfold numeric_row, numeric_cell in Hr. by apply andb_true_iff in Hr.
Qed.


(** ** [drop_duplicates] *)

Lemma keep_first_cons (subset : list string) (seen : list (list (pd.cell num)))
    (ir : nat * gmap string (pd.cell num)) (rs : list (nat * gmap string (pd.cell num))) :
  pd.keep_first subset seen (ir :: rs) =
  if decide (key_of subset ir ∈ seen) then pd.keep_first subset seen rs
  else ir :: pd.keep_first subset (key_of subset ir :: seen) rs.
Proof. done. Qed.

(** The rows with a given key that survive: the first of them, unless
    the key has been seen. *)
Lemma keep_first_filter (subset : list string) (k : list (pd.cell num))
    (seen : list (list (pd.cell num))) (rs : list (nat * gmap string (pd.cell num))) :
  filter (fun ir => key_of subset ir = k) (pd.keep_first subset seen rs) =
  if decide (k ∈ seen) then []
  else option_list (head (filter (fun ir => key_of subset ir = k) rs)).
Proof.
  revert seen. induction rs as [|ir rs IH]; intros seen.
  - simpl. by destruct (decide (k ∈ seen)).
  - rewrite keep_first_cons.
    destruct (decide (key_of subset ir ∈ seen)) as [Hseen|Hseen].
    + rewrite IH. destruct (decide (k ∈ seen)) as [|Hk]; [done|].
      rewrite (filter_cons_False _ ir); [done|]. intros Heq. by rewrite Heq in Hseen.
    + destruct (decide (key_of subset ir = k)) as [Heq|Hne].
      * rewrite !filter_cons_True by done. rewrite IH.
        rewrite decide_True by (rewrite Heq; left).
        rewrite decide_False by (by rewrite <- Heq). done.
      * rewrite !filter_cons_False by done. rewrite IH.
        destruct (decide (k ∈ seen)) as [Hk|Hk].
        -- rewrite decide_True by (by right). done.
        -- rewrite decide_False; [done|].
           intros [?|?]%elem_of_cons; [by subst|done].
Qed.

Lemma keep_first_NoDup (subset : list string)
    (seen : list (list (pd.cell num))) (rs : list (nat * gmap string (pd.cell num))) :
  NoDup (key_of subset <$> pd.keep_first subset seen rs) /\
  (forall k, k ∈ key_of subset <$> pd.keep_first subset seen rs -> k ∉ seen).
Proof.
  revert seen. induction rs as [|ir rs IH]; intros seen.
  - simpl. split; [constructor|]. intros k Hk. by apply elem_of_nil in Hk.
  - rewrite keep_first_cons.
    destruct (decide (key_of subset ir ∈ seen)) as [Hseen|Hseen]; [apply IH|].
    destruct (IH (key_of subset ir :: seen)) as [Hnd Hfresh].
    rewrite fmap_cons. split.
    + constructor; [|done]. intros Hin. apply Hfresh in Hin. apply Hin. left.
    + intros k [->|Hin]%elem_of_cons; [done|].
      apply Hfresh in Hin. intros Hk. apply Hin. by right.
Qed.

Lemma keep_first_Forall (P : nat * gmap string (pd.cell num) -> Prop) (subset : list string)
    (seen : list (list (pd.cell num))) (rs : list (nat * gmap string (pd.cell num))) :
  Forall P rs -> Forall P (pd.keep_first subset seen rs).
Proof.
  intros Hrs. revert seen. induction Hrs as [|ir rs Hir Hrs IH]; intros seen.
  - constructor.
  - rewrite keep_first_cons. destruct (decide _); [apply IH|]. constructor; [done|apply IH].
Qed.

(** After [drop_duplicates(subset=['libCode'])] no two rows carry the
    same library code. *)
Lemma keep_first_libCode_NoDup (rs : list (nat * gmap string (pd.cell num))) :
  NoDup (libCode <$> pd.keep_first ["libCode"] [] rs).
Proof.
  destruct (keep_first_NoDup ["libCode"] [] rs) as [Hnd _].
  apply (NoDup_fmap_1 (fun c : pd.cell num => [c])).
  by rewrite <- list_fmap_compose.
Qed.

(** ** [pd.DataFrame(records)] *)

Lemma at_col_row_of (cols : gset string) (r : record) (c : string) :
  pd.at_col (pd.row_of (num:=num) cols r) c =
  match r !! c with
  | Some s => pd.Str s
  | None => pd.NaN
  end.
Proof.
  unfold pd.at_col, pd.row_of. rewrite lookup_union, lookup_fmap.
  destruct (r !! c) as [s|]; simpl.
  - by destruct (gset_to_gmap pd.NaN cols !! c).
  - rewrite lookup_gset_to_gmap. by destruct (guard (c ∈ cols)).
Qed.

Lemma of_records_rows (libraries : list record) :
  pd.rows (pd.of_records (num:=num) libraries) =
  imap (fun i r => (i, pd.row_of (pd.columns (pd.of_records (num:=num) libraries)) r)) libraries.
Proof. done. Qed.

Lemma of_records_column (libraries : list record) (r : record) (c : string) :
  r ∈ libraries -> is_Some (r !! c) -> c ∈ pd.columns (pd.of_records (num:=num) libraries).
Proof.
  intros Hr Hc. simpl. apply elem_of_union_list. exists (dom r). split.
  - apply list_elem_of_fmap. eauto.
  - by apply elem_of_dom.
Qed.

Lemma numeric_row_row_of (cols : gset string) (r : record) :
  numeric_row to_num (pd.row_of cols r) = has_coordinates to_num r.
Proof.
  unfold numeric_row, has_coordinates, numeric_cell, numeric_field.
  rewrite !at_col_row_of.
  assert (forall o : option string,
            is_num (pd.to_numeric_cell to_num
                      match o with Some s => pd.Str s | None => pd.NaN end) =
            match o with Some s => bool_decide (is_Some (to_num s)) | None => false end)
    as Hcell.
  { intros [s|]; simpl; [|done]. by destruct (to_num s). }
  by rewrite !Hcell.
Qed.


(** ** From the records to the located rows *)

Lemma head_filter_imap {A B} (P : A -> Prop) (Q : B -> Prop)
    `{forall x, Decision (P x)} `{forall y, Decision (Q y)}
    (mk : nat -> A -> B) (l : list A) :
  (forall i x, Q (mk i x) <-> P x) ->
  head (filter Q (imap mk l)) =
  (fun ix : nat * A => mk ix.1 ix.2) <$> list_find P l.
Proof.
  revert mk. induction l as [|x l IH]; intros mk Hmk; [done|].
  rewrite imap_cons. simpl list_find.
  destruct (decide (P x)) as [Hx|Hx].
  - rewrite filter_cons_True by (by apply Hmk). done.
  - rewrite filter_cons_False by (by rewrite Hmk).
    rewrite (IH (mk ∘ S)) by (intros i y; apply Hmk).
    by destruct (list_find P l) as [[i y]|].
Qed.

Lemma filter_fmap {A B} (P : B -> Prop) `{forall y, Decision (P y)}
    (f : A -> B) (l : list A) :
  filter P (f <$> l) = f <$> filter (fun x => P (f x)) l.
Proof.
  induction l as [|x l IH]; [done|].
  rewrite fmap_cons. destruct (decide (P (f x))) as [Hx|Hx].
  - rewrite !filter_cons_True by done. by rewrite fmap_cons, IH.
  - by rewrite !filter_cons_False by done.
Qed.

Lemma head_fmap' {A B} (f : A -> B) (l : list A) : head (f <$> l) = f <$> head l.
Proof. by destruct l. Qed.

Lemma located_present (libraries : list record) :
  let df := pd.of_records (num:=num) libraries in
  "latitude" ∈ pd.columns df -> "longitude" ∈ pd.columns df ->
  "libCode" ∈ pd.columns df ->
  located to_num libraries =
  Return (pd.mkDataFrame (pd.columns df)
            (pd.keep_first ["libCode"] [] (pd.rows (cleaned to_num df)))).
Proof.
  intros df Hlat Hlon Hcode. unfold located. fold df.
  rewrite coordinates_cleaned_present by done. simpl.
  unfold pd.drop_duplicates.
  by rewrite missing_columns_nil by (repeat constructor; done).
Qed.

Lemma located_absent (libraries : list record) :
  let df := pd.of_records (num:=num) libraries in
  "latitude" ∉ pd.columns df \/ "longitude" ∉ pd.columns df \/
  "libCode" ∉ pd.columns df ->
  exists e, located to_num libraries = Raise e.
Proof.
  intros df Hc. unfold located. fold df.
  destruct (decide ("latitude" ∈ pd.columns df)) as [Hlat|Hlat];
    [destruct (decide ("longitude" ∈ pd.columns df)) as [Hlon|Hlon]|].
  - destruct Hc as [|[|Hcode]]; [done..|].
    rewrite coordinates_cleaned_present by done. simpl.
    unfold pd.drop_duplicates.
    destruct (missing_columns_cons (cleaned to_num df) ["libCode"] "libCode")
      as (c' & cs & ->); [left|done|eauto].
  - destruct (coordinates_cleaned_absent df) as [e ->]; eauto.
  - destruct (coordinates_cleaned_absent df) as [e ->]; eauto.
Qed.

(** The rows [located] leaves: the first row of each library code among
    the rows with numeric coordinates, or nothing. *)
Lemma located_rows_cases (libraries : list record) :
  located_rows to_num libraries =
    pd.keep_first ["libCode"] [] (pd.rows (cleaned to_num (pd.of_records libraries)))
  \/
  (located_rows to_num libraries = [] /\
   let df := pd.of_records (num:=num) libraries in
   "latitude" ∉ pd.columns df \/ "longitude" ∉ pd.columns df \/
   "libCode" ∉ pd.columns df).
Proof.
  unfold located_rows.
  destruct (decide ("latitude" ∈ pd.columns (pd.of_records (num:=num) libraries)))
    as [Hlat|Hlat];
    [destruct (decide ("longitude" ∈ pd.columns (pd.of_records (num:=num) libraries)))
       as [Hlon|Hlon];
     [destruct (decide ("libCode" ∈ pd.columns (pd.of_records (num:=num) libraries)))
        as [Hcode|Hcode]|]|].
  - left. by rewrite located_present.
  - right. destruct (located_absent libraries) as [e ->]; auto.
  - right. destruct (located_absent libraries) as [e ->]; auto.
  - right. destruct (located_absent libraries) as [e ->]; auto.
Qed.

Lemma located_rows_NoDup (libraries : list record) :
  NoDup (libCode <$> located_rows to_num libraries).
Proof.
  destruct (located_rows_cases libraries) as [->|[-> _]].
  - apply keep_first_libCode_NoDup.
  - constructor.
Qed.

Lemma located_rows_numeric (libraries : list record) :
  Forall (fun ir => is_num (pd.at_col ir.2 "latitude") = true /\
                    is_num (pd.at_col ir.2 "longitude") = true)
    (located_rows to_num libraries).
Proof.
  destruct (located_rows_cases libraries) as [->|[-> _]].
  - apply keep_first_Forall, cleaned_numeric.
  - constructor.
Qed.

(** The rows of a given library code that [located] leaves: the first
    record with that code and parseable coordinates, under its position
    in the list, if there is one. *)
Lemma located_rows_code (libraries : list record) (c : string) :
  filter (fun ir => libCode ir = pd.Str c) (located_rows to_num libraries) =
  option_list
    ((fun ix : nat * record =>
        (ix.1, coerce_row to_num
                 (pd.row_of (pd.columns (pd.of_records (num:=num) libraries)) ix.2)))
       <$> list_find (fun r => r !! "libCode" = Some c /\ has_coordinates to_num r = true)
             libraries).
Proof.
  destruct (located_rows_cases libraries) as [->|[-> Hc]].
  - rewrite (list_filter_iff _ (fun ir => key_of ["libCode"] ir = [pd.Str c]))
      by (intros ir; unfold key_of, libCode; simpl; split; congruence).
    rewrite keep_first_filter. rewrite decide_False by (intros Hin; inversion Hin).
    f_equal. unfold cleaned. simpl pd.rows.
    rewrite filter_fmap, head_fmap', list_filter_filter.
    erewrite (head_filter_imap
                (fun r : record => r !! "libCode" = Some c /\ has_coordinates to_num r = true)).
    + by destruct (list_find _ libraries) as [[i r]|].
    + intros i r. unfold key_of. simpl.
      rewrite at_col_coerce_row_other by done.
      rewrite at_col_row_of, numeric_row_row_of.
      split.
      * intros [Hk Hn]. split; [|done]. destruct (r !! "libCode"); congruence.
      * intros [-> Hn]. done.
  - simpl. symmetry.
    assert (list_find (fun r : record => r !! "libCode" = Some c /\ has_coordinates to_num r = true)
              libraries = None) as ->; [|done].
    apply list_find_None, Forall_forall. intros r Hr [Hcode Hn].
    unfold has_coordinates, numeric_field in Hn. apply andb_true_iff in Hn as [Hlat Hlon].
    destruct Hc as [Hc|[Hc|Hc]]; apply Hc; apply (of_records_column _ r); try done.
    all: match goal with |- is_Some ?o => destruct o; [eauto|done] end.
Qed.

End pipeline_facts.

(* ===================================================================== *)
(** * Properties of [render_map] and of step 4 *)
(* ===================================================================== *)

Section app_facts.

Context {num : Type} {num_eq : EqDecision num}.
Variable to_num : string -> option num.
Variable fromstring : string -> outcome ET.Element.
Variable remote : list requests.Request -> requests.Request -> outcome requests.Response.
Variable st_map_raises : pd.DataFrame num -> option exn.

Implicit Types (h : gmap loc (pd.DataFrame num)) (df : pd.DataFrame num)
  (s : SessionState).

Lemma deref_run io0 h ui0 s l df :
  h !! l = Some df ->
  deref l (mkApp io0 h ui0 s) = (Return df, mkApp io0 h ui0 s).
Proof. intros Hl. unfold deref. simpl. by rewrite Hl. Qed.

Lemma coerce_column_run l c (w : AppWorld (num:=num)) :
  coerce_column to_num l c w = in_place (coerced to_num c) l w.
Proof.
  unfold coerce_column, in_place, bind, deref, lift, coerced.
  destruct (heap w !! l) as [df|]; [|done].
  by destruct (pd.getitem df c).
Qed.

Lemma dropna_inplace_run l subset (w : AppWorld (num:=num)) :
  dropna_inplace l subset w = in_place (pd.dropna subset) l w.
Proof.
  unfold dropna_inplace, in_place, bind, deref, lift.
  destruct (heap w !! l) as [df|]; [|done].
  by destruct (pd.dropna subset df).
Qed.

Lemma drop_duplicates_inplace_run l subset (w : AppWorld (num:=num)) :
  drop_duplicates_inplace l subset w = in_place (pd.drop_duplicates subset) l w.
Proof.
  unfold drop_duplicates_inplace, in_place, bind, deref, lift.
  destruct (heap w !! l) as [df|]; [|done].
  by destruct (pd.drop_duplicates subset df).
Qed.

(** Two in-place updates in a row are one, by the composed function;
    when the second raises, the object keeps the result of the first. *)
Lemma in_place_Return f l io0 h ui0 s df df' :
  h !! l = Some df -> f df = Return df' ->
  in_place f l (mkApp io0 h ui0 s) = (Return tt, mkApp io0 (<[l := df']> h) ui0 s).
Proof. intros Hl Hf. unfold in_place. simpl. by rewrite Hl, Hf. Qed.

Lemma in_place_Raise f l io0 h ui0 s df e :
  h !! l = Some df -> f df = Raise e ->
  in_place f l (mkApp io0 h ui0 s) = (Raise e, mkApp io0 h ui0 s).
Proof. intros Hl Hf. unfold in_place. simpl. by rewrite Hl, Hf. Qed.

(** The two coercions and the [dropna], run in place on a frame that has
    both columns. *)
Lemma clean_steps_run {A} io0 h ui0 s l df (k : M (AppWorld (num:=num)) A) :
  h !! l = Some df ->
  "latitude" ∈ pd.columns df -> "longitude" ∈ pd.columns df ->
  (coerce_column to_num l "latitude" ;;
   coerce_column to_num l "longitude" ;;
   dropna_inplace l ["latitude"; "longitude"] ;;
   k) (mkApp io0 h ui0 s) =
  k (mkApp io0 (<[l := cleaned to_num df]> h) ui0 s).
Proof.
  intros Hl Hlat Hlon.
  pose proof (coordinates_cleaned_present to_num df Hlat Hlon) as Hclean.
  unfold coordinates_cleaned, and_then in Hclean.
  destruct (coerced to_num "latitude" df) as [d1|] eqn:H1; [|done].
  destruct (coerced to_num "longitude" d1) as [d2|] eqn:H2; [|done].
  unfold bind at 1. rewrite coerce_column_run.
  rewrite (in_place_Return _ _ _ _ _ _ df d1) by done.
  unfold bind at 1. rewrite coerce_column_run.
  rewrite (in_place_Return _ _ _ _ _ _ d1 d2) by (try done; apply lookup_insert_eq).
  unfold bind at 1. rewrite dropna_inplace_run.
  rewrite (in_place_Return _ _ _ _ _ _ d2 (cleaned to_num df))
    by (try done; apply lookup_insert_eq).
  by rewrite !insert_insert_eq.
Qed.

Lemma render_map_run (l : loc) (w : AppWorld (num:=num)) df :
  heap w !! l = Some df ->
  render_map to_num st_map_raises (Some l) w = (Return tt, render_map_world to_num st_map_raises df w).
Proof.
  intros Hl. destruct w as [io0 h ui0 s]. simpl in Hl.
  unfold render_map, render_map_world. unfold bind at 1.
  rewrite (deref_run _ _ _ _ _ _ Hl). cbv beta iota.
  destruct (pd.empty df); [done|].
  destruct (negb (forallb _ _)) eqn:Hcols; [done|].
  apply negb_false_iff in Hcols. simpl in Hcols.
  apply andb_true_iff in Hcols as [Hlat Hlon%andb_true_iff%proj1].
  apply bool_decide_eq_true in Hlat, Hlon.
  unfold bind at 1. unfold copy, bind at 1. rewrite (deref_run _ _ _ _ _ _ Hl).
  cbv beta iota. unfold alloc at 1. cbv beta iota zeta. simpl heap. simpl io. simpl ui. simpl session.
  set (map_df := fresh (dom h)).
  rewrite (clean_steps_run _ _ _ _ map_df df)
    by (try done; unfold map_df; apply lookup_insert_eq).
  rewrite insert_insert_eq.
  unfold bind at 1. rewrite (deref_run _ _ _ _ map_df (cleaned to_num df))
    by apply lookup_insert_eq.
  cbv beta iota.
  destruct (pd.empty (cleaned to_num df)); [done|].
  unfold try_except, bind, lift, st_map, st_error, emit, modify, raise.
  destruct (pd.select _ _) as [points|e]; [|done].
  by destruct (st_map_raises points).
Qed.


(** ** The library search block *)

Lemma the_library_locations_run io0 h ui0 s l :
  library_locations s = Some l ->
  the_library_locations (mkApp io0 h ui0 s) = (Return l, mkApp io0 h ui0 s).
Proof.
  intros Hl. unfold the_library_locations, bind, get. simpl. by rewrite Hl.
Qed.

Lemma blank_refers_to io0 h ui0 isbn msg busy :
  refers_to []
    (mkApp io0 (<[fresh (dom h) := pd.empty_frame]> h) ui0
       (mkSession isbn (Some (fresh (dom h))) msg busy)).
Proof. exists (fresh (dom h)), pd.empty_frame. simpl. by rewrite lookup_insert_eq. Qed.

(** The four in-place steps of step 4 on the frame just created. *)
Lemma located_steps_run {A} io0 h ui0 s l (libraries : list record)
    (k : M (AppWorld (num:=num)) A) :
  library_locations s = Some l ->
  h !! l = Some (pd.of_records libraries) ->
  exists h',
    ((l <- the_library_locations ;; coerce_column to_num l "latitude") ;;
     (l <- the_library_locations ;; coerce_column to_num l "longitude") ;;
     (l <- the_library_locations ;; dropna_inplace l ["latitude"; "longitude"]) ;;
     (l <- the_library_locations ;; drop_duplicates_inplace l ["libCode"]) ;;
     k) (mkApp io0 h ui0 s) =
    match located to_num libraries with
    | Return d => k (mkApp io0 (<[l := d]> h) ui0 s)
    | Raise e => (Raise e, mkApp io0 h' ui0 s)
    end.
Proof.
  intros Hs Hl. unfold located, coordinates_cleaned, and_then.
  unfold bind at 1. unfold bind at 1. rewrite (the_library_locations_run _ _ _ _ l Hs).
  cbv beta iota. rewrite coerce_column_run.
  destruct (coerced to_num "latitude" (pd.of_records libraries)) as [d1|e] eqn:H1;
    [rewrite (in_place_Return _ _ _ _ _ _ _ d1 Hl H1)
    |rewrite (in_place_Raise _ _ _ _ _ _ _ e Hl H1); eauto].
  unfold bind at 1. unfold bind at 1. rewrite (the_library_locations_run _ _ _ _ l Hs).
  cbv beta iota. rewrite coerce_column_run.
  destruct (coerced to_num "longitude" d1) as [d2|e] eqn:H2;
    [rewrite (in_place_Return _ _ _ _ _ _ d1 d2) by (try done; apply lookup_insert_eq)
    |rewrite (in_place_Raise _ _ _ _ _ _ d1 e) by (try done; apply lookup_insert_eq); eauto].
  unfold bind at 1. unfold bind at 1. rewrite (the_library_locations_run _ _ _ _ l Hs).
  cbv beta iota. rewrite dropna_inplace_run.
  destruct (pd.dropna ["latitude"; "longitude"] d2) as [d3|e] eqn:H3;
    [rewrite (in_place_Return _ _ _ _ _ _ d2 d3) by (try done; apply lookup_insert_eq)
    |rewrite (in_place_Raise _ _ _ _ _ _ d2 e) by (try done; apply lookup_insert_eq); eauto].
  unfold bind at 1. unfold bind at 1. rewrite (the_library_locations_run _ _ _ _ l Hs).
  cbv beta iota. rewrite drop_duplicates_inplace_run.
  destruct (pd.drop_duplicates ["libCode"] d3) as [d4|e] eqn:H4;
    [rewrite (in_place_Return _ _ _ _ _ _ d3 d4) by (try done; apply lookup_insert_eq)
    |rewrite (in_place_Raise _ _ _ _ _ _ d3 e) by (try done; apply lookup_insert_eq); eauto].
  exists h. by rewrite !insert_insert_eq.
Qed.


Lemma located_rows_nil : located_rows to_num [] = [].
Proof. done. Qed.

Lemma located_Return_rows (libraries : list record) d :
  located to_num libraries = Return d -> pd.rows d = located_rows to_num libraries.
Proof. intros Hd. unfold located_rows. by rewrite Hd. Qed.

Lemma located_Raise_rows (libraries : list record) e :
  located to_num libraries = Raise e -> located_rows to_num libraries = [].
Proof. intros Hd. unfold located_rows. by rewrite Hd. Qed.

Lemma located_Return_empty (libraries : list record) d :
  located to_num libraries = Return d -> pd.empty d = true -> pd.rows d = [].
Proof.
  intros Hd Hempty.
  destruct (decide ("latitude" ∈ pd.columns (pd.of_records (num:=num) libraries)))
    as [Hlat|Hlat];
    [destruct (decide ("longitude" ∈ pd.columns (pd.of_records (num:=num) libraries)))
       as [Hlon|Hlon];
     [destruct (decide ("libCode" ∈ pd.columns (pd.of_records (num:=num) libraries)))
        as [Hcode|Hcode]|]|].
  2-4: destruct (located_absent to_num libraries) as [e He]; [auto|congruence].
  rewrite located_present in Hd by done. injection Hd as <-.
  unfold pd.empty in Hempty. simpl pd.columns in *.
  apply orb_true_iff in Hempty as [Hrows%bool_decide_eq_true|Hcols%bool_decide_eq_true].
  - exact Hrows.
  - exfalso. rewrite Hcols in Hlat. by apply not_elem_of_empty in Hlat.
Qed.

Lemma blank_run (say : string -> ui_event (num:=num)) (msg : string) io0 h ui0 s :
  (set_error_message msg ;; emit (say msg) ;;
   blank <- alloc pd.empty_frame ;; set_library_locations (Some blank))
    (mkApp io0 h ui0 s) =
  (Return tt,
   mkApp io0 (<[fresh (dom h) := pd.empty_frame]> h) (ui0 ++ [say msg])
     (mkSession (selected_book_isbn s) (Some (fresh (dom h))) (Some msg) (loading s))).
Proof. done. Qed.

Lemma library_search_try_cases (NAROU_API_KEY : option string) (isbn : string)
    (w : AppWorld (num:=num)) :
  match library_search_try to_num fromstring remote NAROU_API_KEY isbn w with
  | (Return _, w1) =>
      exists rs, refers_to rs w1 /\ expected_rows to_num fromstring remote NAROU_API_KEY isbn (io w) rs
  | (Raise _, _) => expected_rows to_num fromstring remote NAROU_API_KEY isbn (io w) []
  end.
Proof.
  destruct w as [io0 h ui0 s]. simpl io.
  unfold library_search_try. unfold bind at 1.
  destruct (truthy_opt NAROU_API_KEY) eqn:Hkey; cbv beta iota delta [negb].
  2: { unfold raise. split; [by exists []|].
       intros L1 L2 io1 io2 Hc1 _. exfalso.
       destruct NAROU_API_KEY as [[|]|]; simpl in *; discriminate. }
  unfold ret at 1. cbv beta iota.
  unfold bind at 1. unfold call at 1. simpl io.
  destruct (find_libraries_for_book fromstring remote isbn (default "" NAROU_API_KEY)
              "11" 1 50 io0) as [[L1|e1] io1] eqn:Hc1.
  all: cbv beta iota.
  2: { split; [by exists []|]. intros; congruence. }
  simpl heap. simpl ui. simpl session.
  unfold bind at 1. unfold call at 1. simpl io.
  destruct (find_libraries_for_book fromstring remote isbn (default "" NAROU_API_KEY)
              "31" 1 50 io1) as [[L2|e2] io2] eqn:Hc2.
  all: cbv beta iota.
  2: { split; [by exists []|]. intros L1' L2' io1' io2' H1 H2.
       rewrite Hc1 in H1. injection H1 as <- <-. rewrite Hc2 in H2. discriminate. }
  simpl heap. simpl ui. simpl session.
  assert (forall rs, rs = located_rows to_num (L1 ++ L2) ->
                     expected_rows to_num fromstring remote NAROU_API_KEY isbn io0 rs) as Hexp.
  { intros rs ->. split; [eauto|]. intros L1' L2' io1' io2' H1 H2.
    rewrite Hc1 in H1. injection H1 as <- <-.
    rewrite Hc2 in H2. by injection H2 as <- <-. }
  destruct (L1 ++ L2)%list as [|r libraries] eqn:HL.
  - change (st_warning ?m) with (emit (num:=num) (StWarning m)).
    rewrite (blank_run StWarning). eexists. split; [apply blank_refers_to|].
    by apply Hexp.
  - unfold bind at 1. unfold alloc at 1. cbv beta iota zeta. simpl.
    unfold bind at 1. unfold set_library_locations at 1, modify at 1. simpl.
    set (created := fresh (dom h)).
    lazymatch goal with
    | |- context [bind _ (fun _ => bind _ (fun _ => bind _ (fun _ => bind _ (fun _ => ?k))))] =>
        destruct (located_steps_run io2 (<[created := pd.of_records (r :: libraries)]> h) ui0
                    (mkSession (selected_book_isbn s) (Some created) (error_message s)
                       (loading s))
                    created (r :: libraries) k) as [h' ->];
          [done|apply lookup_insert_eq|]
    end.
    destruct (located to_num (r :: libraries)) as [d|e] eqn:Hloc.
    2: { apply Hexp. symmetry. by eapply located_Raise_rows. }
    rewrite insert_insert_eq.
    unfold bind at 1. rewrite (the_library_locations_run _ _ _ _ created) by done.
    cbv beta iota.
    unfold bind at 1. rewrite (deref_run _ _ _ _ created d) by apply lookup_insert_eq.
    cbv beta iota.
    destruct (pd.empty d) eqn:Hempty.
    + change (st_warning ?m) with (emit (num:=num) (StWarning m)).
      rewrite (blank_run StWarning). eexists. split; [apply blank_refers_to|].
      apply Hexp. rewrite <- (located_Return_rows _ _ Hloc).
      symmetry. by eapply located_Return_empty.
    + unfold ret. exists (pd.rows d). split.
      * exists created, d. simpl. by rewrite lookup_insert_eq.
      * apply Hexp. by apply located_Return_rows.
Qed.

Lemma library_search_guarded_run (NAROU_API_KEY : option string) (isbn : string)
    (w : AppWorld (num:=num)) :
  exists w' rs,
    library_search_guarded to_num fromstring remote NAROU_API_KEY isbn w = (Return tt, w') /\
    refers_to rs w' /\
    expected_rows to_num fromstring remote NAROU_API_KEY isbn (io w) rs.
Proof.
  pose proof (library_search_try_cases NAROU_API_KEY isbn w) as Htry.
  unfold library_search_guarded, try_except.
  destruct (library_search_try to_num fromstring remote NAROU_API_KEY isbn w)
    as [[[]|e] w1].
  - destruct Htry as (rs & Hrs & Hexp). eauto.
  - destruct w1 as [io1 h1 ui1 s1].
    change (st_error ?m) with (emit (num:=num) (StError m)).
    rewrite (blank_run StError). do 2 eexists. split; [done|].
    split; [apply blank_refers_to|done].
Qed.

(** Step 4 as a whole, when its guard holds. *)
Lemma library_search_block_run (NAROU_API_KEY : option string) (isbn : string)
    (w : AppWorld (num:=num)) :
  selected_book_isbn (session w) = Some isbn -> isbn <> "" ->
  library_locations (session w) = None ->
  loading (session w) = true ->
  exists w' rs,
    library_search_block to_num fromstring remote NAROU_API_KEY w = (Return tt, w') /\
    refers_to rs w' /\
    expected_rows to_num fromstring remote NAROU_API_KEY isbn (io w) rs.
Proof.
  destruct w as [io0 h ui0 [sel lib err lo]]. simpl.
  intros -> Hisbn%truthy_true -> ->.
  unfold library_search_block. unfold bind at 1, get at 1. cbv beta iota. simpl.
  rewrite Hisbn. simpl.
  destruct (library_search_guarded_run NAROU_API_KEY isbn
              (mkApp io0 h ui0 (mkSession (Some isbn) None err true)))
    as (w1 & rs & Hrun & (l & df & Hl & Hdf & Hrs) & Hexp).
  unfold bind at 1. rewrite Hrun. cbv beta iota.
  unfold bind, set_loading, modify, get, st_rerun, emit, modify. simpl.
  do 2 eexists. split; [reflexivity|]. split; [|exact Hexp].
  exists l, df. simpl. done.
Qed.

End app_facts.

(* ===================================================================== *)
(** * Claims about the library table and the map *)
(* ===================================================================== *)

Section table_claims.

Context {num : Type} {num_eq : EqDecision num}.
Variable to_num : string -> option num.
Variable fromstring : string -> outcome ET.Element.
Variable remote : list requests.Request -> requests.Request -> outcome requests.Response.
Variable st_map_raises : pd.DataFrame num -> option exn.

(** A cell of a kept column is the same after [df[cols]]. *)
Lemma at_col_select (cols : list string) (r : gmap string (pd.cell num)) (c : string) :
  c ∈ cols ->
  pd.at_col (filter (fun kv : string * pd.cell num => kv.1 ∈ cols) r) c = pd.at_col r c.
Proof.
  intros Hc. unfold pd.at_col. rewrite map_lookup_filter.
  destruct (r !! c) as [v|]; simpl; [|done].
  by rewrite option_guard_True.
Qed.

Lemma select_present (cols : list string) (df : pd.DataFrame num) :
  Forall (fun c => c ∈ pd.columns df) cols ->
  pd.select cols df =
  Return (pd.mkDataFrame (list_to_set cols)
            ((fun ir : nat * gmap string (pd.cell num) =>
                (ir.1, filter (fun kv : string * pd.cell num => kv.1 ∈ cols) ir.2))
               <$> pd.rows df)).
Proof. intros Hc. unfold pd.select. by rewrite missing_columns_nil. Qed.

(** The heap after [render_map]: the objects that were there are as they
    were. *)
Lemma render_map_world_heap (df : pd.DataFrame num) (w : AppWorld (num:=num))
    (l : loc) (d : pd.DataFrame num) :
  heap w !! l = Some d ->
  heap (render_map_world to_num st_map_raises df w) !! l = Some d.
Proof.
  intros Hl.
  assert (l <> fresh (dom (heap w))) as Hfresh.
  { intros ->. apply (is_fresh (dom (heap w))). apply elem_of_dom. eauto. }
  unfold render_map_world. repeat case_match; simpl; try done;
    by rewrite lookup_insert_ne.
Qed.

Lemma render_map_world_session (df : pd.DataFrame num) (w : AppWorld (num:=num)) :
  session (render_map_world to_num st_map_raises df w) = session w.
Proof. unfold render_map_world. by repeat case_match. Qed.

End table_claims.

(** The frame of records among which one has a field is not empty. *)
Lemma of_records_not_empty {num : Type} (libraries : list record) (r : record) (c : string) :
  r ∈ libraries -> is_Some (r !! c) ->
  pd.empty (pd.of_records (num:=num) libraries) = false.
Proof.
  intros Hr Hc. unfold pd.empty. apply orb_false_iff. split.
  - apply bool_decide_eq_false. simpl. destruct libraries; [by apply elem_of_nil in Hr|done].
  - apply bool_decide_eq_false. intros Hcols.
    pose proof (of_records_column (num:=num) libraries r c Hr Hc) as Hin.
    rewrite Hcols in Hin. by apply not_elem_of_empty in Hin.
Qed.

(** C10: [render_map] leaves the frame it is given as it was - and every
    other frame, and the session: the coercions and the [dropna] act on
    the copy. *)
Theorem C10_render_map_leaves_argument_unchanged
    {num : Type} {num_eq : EqDecision num}
    (to_num : string -> option num) (st_map_raises : pd.DataFrame num -> option exn)
    (w : AppWorld (num:=num)) (l : loc) (df : pd.DataFrame num) :
  heap w !! l = Some df ->
  let w' := (render_map to_num st_map_raises (Some l) w).2 in
  heap w' !! l = Some df /\
  (forall l0 d0, heap w !! l0 = Some d0 -> heap w' !! l0 = Some d0) /\
  session w' = session w.
Proof.
  intros Hl w'. subst w'. rewrite (render_map_run to_num st_map_raises l w df Hl). simpl.
  split; [by apply render_map_world_heap|].
  split; [intros l0 d0; apply render_map_world_heap|].
  apply render_map_world_session.
Qed.

Lemma C10_render_map_leaves_argument_unchanged_witness :
  let w' := (render_map Decimal.to_num (fun _ => None) (Some 1%positive) Sample.with_frame).2 in
  heap w' !! 1%positive =
  Some (pd.of_records [Sample.located_record; Sample.unlocated_record]) /\
  session w' = session Sample.with_frame.
Proof.
  assert (heap Sample.with_frame !! 1%positive =
          Some (pd.of_records [Sample.located_record; Sample.unlocated_record]))
    as Hframe by reflexivity.
  destruct (C10_render_map_leaves_argument_unchanged Decimal.to_num (fun _ => None)
              Sample.with_frame 1%positive _ Hframe) as (_ & Hall & Hsession).
  split; [|exact Hsession].
  apply Hall. exact Hframe.
Defined.

(** C9, as amended: one holdings lookup returns one record per [lib]
    element of the response that has a child element, duplicates of a
    library code included; the records are unique by library code in the
    table that step 4 of the orchestrator leaves in the session, after its
    [drop_duplicates] over the results of the two regions. *)
Theorem C9_table_unique_by_library_code
    {num : Type} {num_eq : EqDecision num}
    (to_num : string -> option num)
    (fromstring : string -> outcome ET.Element)
    (remote : list requests.Request -> requests.Request -> outcome requests.Response) :
  (forall isbn13 api_key region_code page_no page_size (w : World) r root,
      api_key <> "" -> isbn13 <> "" -> region_code <> "" ->
      remote (net_log w)
        (libSrchByBook_request isbn13 api_key region_code page_no page_size) = Return r ->
      ~ (400 <= requests.status_code r < 600) ->
      fromstring (requests.text r) = Return root ->
      (find_libraries_for_book fromstring remote isbn13 api_key region_code
         page_no page_size w).1 =
      Return (item_data_of <$>
                filter (fun e => ET.children e <> [])
                  (ET.findall (results_element_of root "libs") "lib")))
  /\
  (forall NAROU_API_KEY (w : AppWorld (num:=num)) isbn,
      selected_book_isbn (session w) = Some isbn -> isbn <> "" ->
      library_locations (session w) = None ->
      loading (session w) = true ->
      let w' := (library_search_block to_num fromstring remote NAROU_API_KEY w).2 in
      exists l df,
        library_locations (session w') = Some l /\
        heap w' !! l = Some df /\
        NoDup (libCode <$> pd.rows df)).
Proof.
  split.
  - intros isbn13 api_key region_code page_no page_size w r root
      Hkey Hisbn Hregion Hremote Hstatus Hroot.
    rewrite find_libraries_for_book_run by done.
    unfold after_request. rewrite Hremote, (raise_for_status_ok r Hstatus).
    by rewrite (parse_xml_response_ok fromstring _ "libs" "lib" root _ Hroot).
  - intros NAROU_API_KEY w isbn Hsel Hisbn Hlib Hloading w'. subst w'.
    destruct (library_search_block_run to_num fromstring remote NAROU_API_KEY isbn w
                Hsel Hisbn Hlib Hloading)
      as (w' & rs & -> & (l & df & Hl & Hdf & Hrs) & [[libraries Hlocated] _]).
    exists l, df. simpl. split; [done|]. split; [done|].
    rewrite Hrs, Hlocated. apply located_rows_NoDup.
Qed.

Lemma C9_table_unique_by_library_code_witness :
  (exists root,
      ET.fromstring Sample.gyeonggi_located = Return root /\
      (find_libraries_for_book ET.fromstring
         (Sample.serve Sample.seoul_first_unlocated Sample.gyeonggi_located)
         "9788966262281" "key" "31" 1 50 (mkWorld [] [])).1 =
      Return (item_data_of <$>
                filter (fun e => ET.children e <> [])
                  (ET.findall (results_element_of root "libs") "lib")))
  /\
  (let w' := (library_search_block Decimal.to_num ET.fromstring
                (Sample.serve Sample.seoul_first_unlocated Sample.gyeonggi_located)
                (Some "key") (Sample.picked "9788966262281")).2 in
   exists l df,
     library_locations (session w') = Some l /\
     heap w' !! l = Some df /\
     NoDup (libCode <$> pd.rows df)).
Proof.
  destruct (C9_table_unique_by_library_code Decimal.to_num ET.fromstring
              (Sample.serve Sample.seoul_first_unlocated Sample.gyeonggi_located))
    as [Hlookup Htable].
  split.
  - destruct (ET.fromstring Sample.gyeonggi_located) as [root|] eqn:Hroot;
      [|discriminate].
    exists root. split; [reflexivity|].
    apply (Hlookup "9788966262281" "key" "31" 1 50 (mkWorld [] [])
             (requests.mkResponse 200 "OK" "http://data4library.kr/api/libSrchByBook"
                Sample.gyeonggi_located) root).
    + discriminate.
    + discriminate.
    + discriminate.
    + reflexivity.
    + simpl. lia.
    + exact Hroot.
  - apply (Htable (Some "key") (Sample.picked "9788966262281") "9788966262281");
      [reflexivity | discriminate | reflexivity | reflexivity].
Defined.

(** C7, as amended: when step 4 of the orchestrator has looked the
    identifier up in the two regions, joined the two results, dropped the
    records without numeric latitude and longitude and then the duplicates
    of a library code, a library code occurs at most once in the table:
    once, as the row of the first record of the joined list that carries
    the code and has parseable coordinates, and not at all when no record
    that carries the code has them. *)
Theorem C7_code_kept_once_where_located
    {num : Type} {num_eq : EqDecision num}
    (to_num : string -> option num)
    (fromstring : string -> outcome ET.Element)
    (remote : list requests.Request -> requests.Request -> outcome requests.Response)
    (NAROU_API_KEY : option string) (w : AppWorld (num:=num)) (isbn : string)
    (L1 L2 : list record) (io1 io2 : World) (c : string) :
  selected_book_isbn (session w) = Some isbn -> isbn <> "" ->
  library_locations (session w) = None ->
  loading (session w) = true ->
  find_libraries_for_book fromstring remote isbn (default "" NAROU_API_KEY)
    "11" 1 50 (io w) = (Return L1, io1) ->
  find_libraries_for_book fromstring remote isbn (default "" NAROU_API_KEY)
    "31" 1 50 io1 = (Return L2, io2) ->
  let w' := (library_search_block to_num fromstring remote NAROU_API_KEY w).2 in
  let first_located :=
    list_find (fun r : record => r !! "libCode" = Some c /\ has_coordinates to_num r = true)
      (L1 ++ L2) in
  exists l df,
    library_locations (session w') = Some l /\
    heap w' !! l = Some df /\
    let with_code := filter (fun ir => libCode ir = pd.Str c) (pd.rows df) in
    (length with_code <= 1)%nat /\
    (forall i r,
        first_located = Some (i, r) ->
        with_code =
        [(i, coerce_row to_num
               (pd.row_of (pd.columns (pd.of_records (num:=num) (L1 ++ L2))) r))]) /\
    (first_located = None -> with_code = []).
Proof.
  intros Hsel Hisbn Hlib Hloading Hc1 Hc2 w' first_located. subst w'.
  destruct (library_search_block_run to_num fromstring remote NAROU_API_KEY isbn w
              Hsel Hisbn Hlib Hloading)
    as (w' & rs & -> & (l & df & Hl & Hdf & Hrs) & [_ Hboth]).
  exists l, df. simpl. split; [done|]. split; [done|].
  rewrite Hrs, (Hboth L1 L2 io1 io2 Hc1 Hc2), located_rows_code.
  fold first_located. destruct first_located as [[i r]|]; simpl.
  - split; [lia|]. split; [|done]. by intros i' r' [= <- <-].
  - split; [lia|]. done.
Qed.

Lemma C7_code_kept_once_where_located_witness :
  (let w' := (library_search_block Decimal.to_num ET.fromstring
                (Sample.serve Sample.seoul_first_unlocated Sample.gyeonggi_located)
                (Some "key") (Sample.picked "9788966262281")).2 in
   exists l df,
     library_locations (session w') = Some l /\
     heap w' !! l = Some df /\
     fst <$> filter (fun ir => libCode ir = pd.Str "111017") (pd.rows df) = [2%nat])
  /\
  (let w' := (library_search_block Decimal.to_num ET.fromstring
                (Sample.serve Sample.seoul_first_unlocated Sample.gyeonggi_unlocated)
                (Some "key") (Sample.picked "9788966262281")).2 in
   exists l df,
     library_locations (session w') = Some l /\
     heap w' !! l = Some df /\
     filter (fun ir => libCode ir = pd.Str "111017") (pd.rows df) = []).
Proof.
  split.
  - destruct (C7_code_kept_once_where_located Decimal.to_num ET.fromstring
                (Sample.serve Sample.seoul_first_unlocated Sample.gyeonggi_located)
                (Some "key") (Sample.picked "9788966262281") "9788966262281"
                Sample.seoul_records Sample.gyeonggi_records
                (mkWorld [] [libSrchByBook_request "9788966262281" "key" "11" 1 50])
                (mkWorld [] [libSrchByBook_request "9788966262281" "key" "11" 1 50;
                             libSrchByBook_request "9788966262281" "key" "31" 1 50])
                "111017")
      as (l & df & Hl & Hdf & _ & Hfirst & _);
      [reflexivity | discriminate | reflexivity | reflexivity
      | vm_compute; reflexivity | vm_compute; reflexivity |].
    exists l, df. split; [exact Hl|]. split; [exact Hdf|].
    erewrite Hfirst; [reflexivity|]. vm_compute. reflexivity.
  - destruct (C7_code_kept_once_where_located Decimal.to_num ET.fromstring
                (Sample.serve Sample.seoul_first_unlocated Sample.gyeonggi_unlocated)
                (Some "key") (Sample.picked "9788966262281") "9788966262281"
                Sample.seoul_records Sample.gyeonggi_unlocated_records
                (mkWorld [] [libSrchByBook_request "9788966262281" "key" "11" 1 50])
                (mkWorld [] [libSrchByBook_request "9788966262281" "key" "11" 1 50;
                             libSrchByBook_request "9788966262281" "key" "31" 1 50])
                "111017")
      as (l & df & Hl & Hdf & _ & _ & Hnone);
      [reflexivity | discriminate | reflexivity | reflexivity
      | vm_compute; reflexivity | vm_compute; reflexivity |].
    exists l, df. split; [exact Hl|]. split; [exact Hdf|].
    apply Hnone. vm_compute. reflexivity.
Defined.

(** C7 as stated fails: the two results below share the library code
    111017 and no other. When neither record that carries it has a numeric
    latitude, the table holds the code not once but never; when only the
    second has one, the row kept is the second occurrence (label 2), not
    the first (label 0). *)
Lemma C7_counterexample_unlocated_first_occurrence :
  let table (gyeonggi : string) :=
    let w' := (library_search_block Decimal.to_num ET.fromstring
                 (Sample.serve Sample.seoul_first_unlocated gyeonggi)
                 (Some "key") (Sample.picked "9788966262281")).2 in
    (fun df : pd.DataFrame (Z * nat) =>
       (fun ir : nat * gmap string (pd.cell (Z * nat)) => (ir.1, libCode ir)) <$> pd.rows df)
      <$> (library_locations (session w') ≫= (heap w' !!.)) in
  table Sample.gyeonggi_unlocated = Some [(1%nat, pd.Str "111004"); (3%nat, pd.Str "141001")] /\
  table Sample.gyeonggi_located = Some [(1%nat, pd.Str "111004"); (2%nat, pd.Str "111017")].
Proof. split; vm_compute; reflexivity. Qed.

(** The rows of a cleaned frame carry the labels of the rows of the frame
    that have numeric coordinates. *)
Lemma cleaned_labels {num : Type} (to_num : string -> option num) (df : pd.DataFrame num) :
  fst <$> pd.rows (cleaned to_num df) =
  fst <$> filter (fun ir => numeric_row to_num ir.2 = true) (pd.rows df).
Proof.
  unfold cleaned. simpl. rewrite <- list_fmap_compose.
  by apply list_fmap_ext.
Qed.

(** The cleaned frame of the two records of the specification's example:
    the first record alone, under label 0. *)
Lemma cleaned_example {num : Type} (to_num : string -> option num) (r1 r2 : record) x y :
  r1 !! "latitude" = Some "37.5" -> r1 !! "longitude" = Some "127.0" ->
  r2 !! "latitude" = Some "invalid" -> r2 !! "longitude" = Some "127.0" ->
  to_num "37.5" = Some x -> to_num "127.0" = Some y -> to_num "invalid" = None ->
  pd.rows (cleaned to_num (pd.of_records [r1; r2])) =
  [(0%nat, coerce_row to_num (pd.row_of (pd.columns (pd.of_records (num:=num) [r1; r2])) r1))].
Proof.
  intros Hlat1 Hlon1 Hlat2 Hlon2 Hx Hy Hbad.
  unfold cleaned. simpl pd.rows.
  rewrite filter_cons_True.
  - rewrite filter_cons_False; [done|]. simpl.
    rewrite numeric_row_row_of. unfold has_coordinates, numeric_field.
    rewrite Hlat2, Hbad. simpl. by intros [=].
  - simpl. rewrite numeric_row_row_of. unfold has_coordinates, numeric_field.
    by rewrite Hlat1, Hlon1, Hx, Hy.
Qed.

(** C8: the frame [render_map] hands to [st.map] holds only rows whose
    latitude and longitude are numbers - the rows of its argument whose
    latitude and longitude parse, the others dropped; the table step 4
    leaves in the session holds only such rows too; and of the two records
    of the example, the one with latitude 37.5 is kept and the one with
    latitude "invalid" is dropped. *)
Theorem C8_only_numeric_coordinates_are_displayed
    {num : Type} {num_eq : EqDecision num}
    (to_num : string -> option num)
    (fromstring : string -> outcome ET.Element)
    (remote : list requests.Request -> requests.Request -> outcome requests.Response)
    (st_map_raises : pd.DataFrame num -> option exn) :
  (forall (w : AppWorld (num:=num)) l df,
      heap w !! l = Some df ->
      let w' := (render_map to_num st_map_raises (Some l) w).2 in
      exists ev,
        ui w' = (ui w ++ [ev])%list /\
        forall points,
          ev = StMap points ->
          Forall (fun ir => is_num (pd.at_col ir.2 "latitude") = true /\
                            is_num (pd.at_col ir.2 "longitude") = true)
            (pd.rows points) /\
          fst <$> pd.rows points =
          fst <$> filter (fun ir => numeric_row to_num ir.2 = true) (pd.rows df))
  /\
  (forall NAROU_API_KEY (w : AppWorld (num:=num)) isbn,
      selected_book_isbn (session w) = Some isbn -> isbn <> "" ->
      library_locations (session w) = None ->
      loading (session w) = true ->
      let w' := (library_search_block to_num fromstring remote NAROU_API_KEY w).2 in
      exists l df,
        library_locations (session w') = Some l /\
        heap w' !! l = Some df /\
        Forall (fun ir => is_num (pd.at_col ir.2 "latitude") = true /\
                          is_num (pd.at_col ir.2 "longitude") = true)
          (pd.rows df))
  /\
  (forall (w : AppWorld (num:=num)) l (r1 r2 : record) x y,
      heap w !! l = Some (pd.of_records [r1; r2]) ->
      r1 !! "latitude" = Some "37.5" -> r1 !! "longitude" = Some "127.0" ->
      r2 !! "latitude" = Some "invalid" -> r2 !! "longitude" = Some "127.0" ->
      to_num "37.5" = Some x -> to_num "127.0" = Some y -> to_num "invalid" = None ->
      let w' := (render_map to_num st_map_raises (Some l) w).2 in
      exists shown row,
        heap w' !! fresh (dom (heap w)) = Some shown /\
        pd.rows shown = [(0%nat, row)] /\
        pd.at_col row "latitude" = pd.Num x /\
        pd.at_col row "longitude" = pd.Num y).
Proof.
  split; [|split].
  - intros w l df Hl w'. subst w'.
    rewrite (render_map_run to_num st_map_raises l w df Hl). simpl.
    unfold render_map_world.
    destruct (pd.empty df); [eexists; split; [reflexivity|done]|].
    destruct (negb _) eqn:Hcols; [eexists; split; [reflexivity|done]|].
    apply negb_false_iff in Hcols. simpl in Hcols.
    apply andb_true_iff in Hcols as [Hlat Hlon%andb_true_iff%proj1].
    apply bool_decide_eq_true in Hlat, Hlon.
    destruct (pd.empty (cleaned to_num df)); [eexists; split; [reflexivity|done]|].
    rewrite (select_present ["latitude"; "longitude"] (cleaned to_num df))
      by (repeat constructor; done).
    destruct (st_map_raises _); [eexists; split; [reflexivity|done]|].
    eexists. split; [reflexivity|]. intros points [= <-]. simpl. split.
    + apply Forall_fmap. eapply Forall_impl; [apply (cleaned_numeric to_num df)|].
      intros [i r] Hr. simpl in *.
      rewrite !at_col_select by (repeat constructor). exact Hr.
    + rewrite <- list_fmap_compose. rewrite <- cleaned_labels.
      by apply list_fmap_ext.
  - intros NAROU_API_KEY w isbn Hsel Hisbn Hlib Hloading w'. subst w'.
    destruct (library_search_block_run to_num fromstring remote NAROU_API_KEY isbn w
                Hsel Hisbn Hlib Hloading)
      as (w' & rs & -> & (l & df & Hl & Hdf & Hrs) & [[libraries Hlocated] _]).
    exists l, df. simpl. split; [done|]. split; [done|].
    rewrite Hrs, Hlocated. apply located_rows_numeric.
  - intros w l r1 r2 x y Hl Hlat1 Hlon1 Hlat2 Hlon2 Hx Hy Hbad w'. subst w'.
    rewrite (render_map_run to_num st_map_raises l w _ Hl). simpl.
    pose proof (cleaned_example to_num r1 r2 x y Hlat1 Hlon1 Hlat2 Hlon2 Hx Hy Hbad)
      as Hrows.
    unfold render_map_world.
    rewrite (of_records_not_empty [r1; r2] r1 "latitude") by (eauto || left).
    assert ("latitude" ∈ pd.columns (pd.of_records (num:=num) [r1; r2])) as Hlat
      by (apply (of_records_column _ r1); [left|eauto]).
    assert ("longitude" ∈ pd.columns (pd.of_records (num:=num) [r1; r2])) as Hlon
      by (apply (of_records_column _ r1); [left|eauto]).
    simpl forallb. rewrite !bool_decide_eq_true_2 by done. simpl negb. cbv iota.
    eexists _, _.
    split; [|split; [exact Hrows|]].
    + repeat case_match; simpl; apply lookup_insert_eq.
    + rewrite at_col_coerce_row_latitude, at_col_coerce_row_longitude, !at_col_row_of.
      by rewrite Hlat1, Hlon1; simpl; rewrite Hx, Hy.
Qed.

Lemma C8_only_numeric_coordinates_are_displayed_witness :
  (let w' := (render_map Decimal.to_num (fun _ => None) (Some 1%positive)
                Sample.with_frame).2 in
   exists ev,
     ui w' = (ui Sample.with_frame ++ [ev])%list /\
     forall points,
       ev = StMap points ->
       Forall (fun ir => is_num (pd.at_col ir.2 "latitude") = true /\
                         is_num (pd.at_col ir.2 "longitude") = true)
         (pd.rows points) /\
       fst <$> pd.rows points =
       fst <$> filter (fun ir => numeric_row Decimal.to_num ir.2 = true)
                 (pd.rows (pd.of_records [Sample.located_record; Sample.unlocated_record])))
  /\
  (let w' := (library_search_block Decimal.to_num ET.fromstring
                (Sample.serve Sample.seoul_first_unlocated Sample.gyeonggi_located)
                (Some "key") (Sample.picked "9788966262281")).2 in
   exists l df,
     library_locations (session w') = Some l /\
     heap w' !! l = Some df /\
     Forall (fun ir => is_num (pd.at_col ir.2 "latitude") = true /\
                       is_num (pd.at_col ir.2 "longitude") = true)
       (pd.rows df))
  /\
  (let w' := (render_map Decimal.to_num (fun _ => None) (Some 1%positive)
                Sample.with_frame).2 in
   exists shown row,
     heap w' !! fresh (dom (heap Sample.with_frame)) = Some shown /\
     pd.rows shown = [(0%nat, row)] /\
     pd.at_col row "latitude" = pd.Num (375, 1%nat) /\
     pd.at_col row "longitude" = pd.Num (127, 0%nat)).
Proof.
  destruct (C8_only_numeric_coordinates_are_displayed Decimal.to_num ET.fromstring
              (Sample.serve Sample.seoul_first_unlocated Sample.gyeonggi_located)
              (fun _ => None))
    as (Hmap & Htable & Hexample).
  split; [|split].
  - apply (Hmap Sample.with_frame 1%positive
             (pd.of_records [Sample.located_record; Sample.unlocated_record])).
    reflexivity.
  - apply (Htable (Some "key") (Sample.picked "9788966262281") "9788966262281");
      [reflexivity | discriminate | reflexivity | reflexivity].
  - apply (Hexample Sample.with_frame 1%positive
             Sample.located_record Sample.unlocated_record (375, 1%nat) (127, 0%nat));
      reflexivity.
Defined.

(** The map of the two records of the example: [st.map] is handed the row
    of the first record and nothing else. *)
Example render_map_shows_located_record :
  exists points,
    ui (render_map Decimal.to_num (fun _ => None) (Some 1%positive) Sample.with_frame).2 =
    [StMap points] /\
    (fun ir : nat * gmap string (pd.cell (Z * nat)) =>
       (ir.1, pd.at_col ir.2 "latitude", pd.at_col ir.2 "longitude")) <$> pd.rows points =
    [(0%nat, pd.Num (375, 1%nat), pd.Num (127, 0%nat))].
Proof. eexists. split; vm_compute; reflexivity. Qed.

(* ===================================================================== *)
(** * Further properties of the normalizer and of the client *)
(* ===================================================================== *)

(** The result of the normalizer as a function of what the parser says. *)
Lemma parse_xml_response_result (fromstring : string -> outcome ET.Element)
    (s rt it : string) (w : World) :
  (_parse_xml_response fromstring s rt it w).1 =
  match fromstring s with
  | Return root =>
      Return (item_data_of <$>
                filter (fun e => ET.children e <> [])
                  (ET.findall (results_element_of root rt) it))
  | Raise _ => Return []
  end.
Proof.
  destruct (fromstring s) as [root|e] eqn:Hs.
  - by rewrite (parse_xml_response_ok fromstring s rt it root w Hs).
  - by destruct (parse_xml_response_raise fromstring s rt it e w Hs) as [line ->].
Qed.

Lemma parse_xml_response_nonempty (fromstring : string -> outcome ET.Element)
    (s rt it : string) (w : World) :
  exists items,
    (_parse_xml_response fromstring s rt it w).1 = Return items /\
    Forall (fun m : record => m <> ∅) items.
Proof.
  rewrite parse_xml_response_result. destruct (fromstring s) as [root|e].
  - eexists. split; [done|]. apply Forall_fmap, Forall_forall.
    intros item [Hitem _]%list_elem_of_filter Hempty. simpl in Hempty.
    by apply item_data_of_empty in Hempty.
  - exists []. split; [done|constructor].
Qed.

Lemma after_request_nonempty fromstring remote q rt it l1 l2 w :
  match (after_request fromstring remote q rt it l1 l2 w).1 with
  | Return items => Forall (fun m : record => m <> ∅) items
  | Raise _ => True
  end.
Proof.
  unfold after_request. destruct (remote _ _) as [r|e].
  - destruct (requests.raise_for_status r) as [[]|e]; [|done].
    by destruct (parse_xml_response_nonempty fromstring (requests.text r) rt it
                   (mkWorld (stdout w) (net_log w ++ [q]))) as (items & -> & Hall).
  - destruct (is_RequestException e); [done|]. simpl. constructor.
Qed.

(** X1. No record that the normalizer or the client returns is an empty
    mapping. *)
Theorem records_are_never_empty
    (fromstring : string -> outcome ET.Element)
    (remote : list requests.Request -> requests.Request -> outcome requests.Response)
    (w : World) :
  (forall xml_string result_tag item_tag,
      exists items,
        (_parse_xml_response fromstring xml_string result_tag item_tag w).1 = Return items /\
        Forall (fun m : record => m <> ∅) items)
  /\
  (forall query api_key page_no page_size,
      match (search_books fromstring remote query api_key page_no page_size w).1 with
      | Return items => Forall (fun m : record => m <> ∅) items
      | Raise _ => True
      end)
  /\
  (forall isbn13 api_key region_code page_no page_size,
      match (find_libraries_for_book fromstring remote isbn13 api_key region_code
               page_no page_size w).1 with
      | Return items => Forall (fun m : record => m <> ∅) items
      | Raise _ => True
      end).
Proof.
  split; [|split].
  - intros. apply parse_xml_response_nonempty.
  - intros query api_key page_no page_size.
    destruct (decide (api_key = "")) as [->|Hkey]; [done|].
    rewrite search_books_run by done. apply after_request_nonempty.
  - intros isbn13 api_key region_code page_no page_size.
    destruct (decide (api_key = "")) as [->|Hkey]; [done|].
    destruct (decide (isbn13 = "")) as [->|Hisbn]; [by destruct api_key|].
    destruct (decide (region_code = "")) as [->|Hregion];
      [by destruct api_key, isbn13|].
    rewrite find_libraries_for_book_run by done. apply after_request_nonempty.
Qed.

(** X2. The normalizer's effects: on a document the parser accepts it leaves
    the world as it was; on one the parser rejects it prints one line and
    does nothing else. It never issues a request. *)
Theorem normalizer_prints_only_on_failure
    (fromstring : string -> outcome ET.Element)
    (xml_string result_tag item_tag : string) (w : World) :
  (_parse_xml_response fromstring xml_string result_tag item_tag w).2 =
  match fromstring xml_string with
  | Return _ => w
  | Raise e =>
      mkWorld
        (stdout w ++
           [(if is_ParseError e then "XML Parsing Error: " else "Error parsing XML: ")
            +:+ str e])
        (net_log w)
  end.
Proof.
  destruct (fromstring xml_string) as [root|e] eqn:Hs.
  - by rewrite (parse_xml_response_ok fromstring _ result_tag item_tag root w Hs).
  - unfold _parse_xml_response, try_except, bind, lift, ret, print, modify.
    rewrite Hs. by destruct (is_ParseError e).
Qed.

(** X3. A field is the empty string exactly when the child has no text or
    its text is made of whitespace characters only - the empty text
    included: the cases cannot be told apart in the record. *)
Theorem blank_text_gives_empty_field (child : ET.Element) :
  text_content child = "" <->
  ET.text child = None \/ exists t, ET.text child = Some t /\ all_space t = true.
Proof.
  unfold text_content. destruct (ET.text child) as [t|]; [|by split; [left|]].
  split.
  - intros H. right. exists t. split; [done|].
    destruct t as [|c t]; [done|]. simpl truthy in H. cbv iota in H.
    by apply strip_empty.
  - intros [|(t' & [= <-] & Hall)]; [done|].
    destruct t as [|c t]; [done|]. simpl truthy. cbv iota. by apply strip_empty.
Qed.

(** The request log after the shared [try] statement: the one request,
    whatever the remote does. *)
Lemma after_request_log fromstring remote q rt it l1 l2 w :
  net_log (after_request fromstring remote q rt it l1 l2 w).2 = (net_log w ++ [q])%list.
Proof.
  unfold after_request. destruct (remote _ _) as [r|e].
  - destruct (requests.raise_for_status r) as [[]|e]; [|done].
    by destruct (parse_xml_response_total fromstring (requests.text r) rt it
                   (mkWorld (stdout w) (net_log w ++ [q]))) as (items & out & ->).
  - by destruct (is_RequestException e).
Qed.

(** X4. Each operation of the client issues exactly one request once its
    arguments pass the checks - whether the remote answers, fails or sends
    garbage: there is no retry and no second call. *)
Theorem client_issues_exactly_one_request
    (fromstring : string -> outcome ET.Element)
    (remote : list requests.Request -> requests.Request -> outcome requests.Response)
    (w : World) :
  (forall query api_key page_no page_size,
      api_key <> "" ->
      net_log (search_books fromstring remote query api_key page_no page_size w).2 =
      (net_log w ++ [srchBooks_request query api_key page_no page_size])%list)
  /\
  (forall isbn13 api_key region_code page_no page_size,
      api_key <> "" -> isbn13 <> "" -> region_code <> "" ->
      net_log (find_libraries_for_book fromstring remote isbn13 api_key region_code
                 page_no page_size w).2 =
      (net_log w ++
         [libSrchByBook_request isbn13 api_key region_code page_no page_size])%list).
Proof.
  split.
  - intros. rewrite search_books_run by done. apply after_request_log.
  - intros. rewrite find_libraries_for_book_run by done. apply after_request_log.
Qed.

Lemma client_issues_exactly_one_request_witness :
  net_log (search_books ET.fromstring
             (fun _ _ => Raise (RequestException ReqTimeout "timed out"))
             "python" "key" 1 20 (mkWorld [] [])).2 =
  [srchBooks_request "python" "key" 1 20]
  /\
  net_log (find_libraries_for_book ET.fromstring
             (fun _ _ => Return (requests.mkResponse 200 "OK" "" "<libs>"))
             "9788966262281" "key" "11" 1 50 (mkWorld [] [])).2 =
  [libSrchByBook_request "9788966262281" "key" "11" 1 50].
Proof.
  split.
  - apply (proj1 (client_issues_exactly_one_request ET.fromstring _ (mkWorld [] []))).
    discriminate.
  - apply (proj2 (client_issues_exactly_one_request ET.fromstring _ (mkWorld [] [])));
      discriminate.
Defined.

Lemma after_request_passes_body fromstring remote q rt it l1 l2 w r :
  remote (net_log w) q = Return r ->
  ~ (400 <= requests.status_code r < 600) ->
  (after_request fromstring remote q rt it l1 l2 w).1 =
  (_parse_xml_response fromstring (requests.text r) rt it w).1.
Proof.
  intros Hr Hstatus. unfold after_request.
  rewrite Hr, (raise_for_status_ok r Hstatus).
  by rewrite !parse_xml_response_result.
Qed.

(** X5. When the remote answers with a status that is not 4xx or 5xx, the
    operation returns what the normalizer makes of the body: in
    particular a body the parser rejects gives the empty list, not an
    error. *)
Theorem response_body_goes_to_normalizer
    (fromstring : string -> outcome ET.Element)
    (remote : list requests.Request -> requests.Request -> outcome requests.Response)
    (w : World) (r : requests.Response) :
  ~ (400 <= requests.status_code r < 600) ->
  (forall query api_key page_no page_size,
      api_key <> "" ->
      remote (net_log w) (srchBooks_request query api_key page_no page_size) = Return r ->
      let result := (search_books fromstring remote query api_key page_no page_size w).1 in
      result = (_parse_xml_response fromstring (requests.text r) "docs" "doc" w).1 /\
      (forall e, fromstring (requests.text r) = Raise e -> result = Return []))
  /\
  (forall isbn13 api_key region_code page_no page_size,
      api_key <> "" -> isbn13 <> "" -> region_code <> "" ->
      remote (net_log w)
        (libSrchByBook_request isbn13 api_key region_code page_no page_size) = Return r ->
      let result := (find_libraries_for_book fromstring remote isbn13 api_key region_code
                       page_no page_size w).1 in
      result = (_parse_xml_response fromstring (requests.text r) "libs" "lib" w).1 /\
      (forall e, fromstring (requests.text r) = Raise e -> result = Return [])).
Proof.
  intros Hstatus. split.
  - intros query api_key page_no page_size Hkey Hr result. subst result.
    rewrite search_books_run by done.
    rewrite (after_request_passes_body _ _ _ _ _ _ _ _ r Hr Hstatus).
    split; [done|]. intros e He. by rewrite parse_xml_response_result, He.
  - intros isbn13 api_key region_code page_no page_size Hkey Hisbn Hregion Hr result.
    subst result. rewrite find_libraries_for_book_run by done.
    rewrite (after_request_passes_body _ _ _ _ _ _ _ _ r Hr Hstatus).
    split; [done|]. intros e He. by rewrite parse_xml_response_result, He.
Qed.

Lemma response_body_goes_to_normalizer_witness :
  (search_books ET.fromstring
     (fun _ _ => Return (requests.mkResponse 200 "OK" "" "<html>Service Unavailable"))
     "python" "key" 1 20 (mkWorld [] [])).1 = Return []
  /\
  (find_libraries_for_book ET.fromstring
     (fun _ _ => Return (requests.mkResponse 200 "OK" "" "<html>Service Unavailable"))
     "9788966262281" "key" "11" 1 50 (mkWorld [] [])).1 = Return [].
Proof.
  assert (~ (400 <= requests.status_code
                      (requests.mkResponse 200 "OK" "" "<html>Service Unavailable") < 600))
    as Hstatus by (simpl; lia).
  destruct (response_body_goes_to_normalizer ET.fromstring
              (fun _ _ => Return (requests.mkResponse 200 "OK" "" "<html>Service Unavailable"))
              (mkWorld [] []) _ Hstatus) as [Hbooks Hlibs].
  split.
  - destruct (Hbooks "python" "key" 1 20) as [_ Hbad]; [discriminate|reflexivity|].
    apply (Hbad (ParseError "not well-formed (invalid token)")). reflexivity.
  - destruct (Hlibs "9788966262281" "key" "11" 1 50) as [_ Hbad];
      [discriminate|discriminate|discriminate|reflexivity|].
    apply (Hbad (ParseError "not well-formed (invalid token)")). reflexivity.
Defined.

(* ===================================================================== *)
(** * Further properties of [render_map] *)
(* ===================================================================== *)

Section render_map_facts.

Context {num : Type} {num_eq : EqDecision num}.
Variable to_num : string -> option num.
Variable st_map_raises : pd.DataFrame num -> option exn.

(** A frame has the two coordinate columns. *)
Lemma coordinate_columns (df : pd.DataFrame num) :
  forallb (fun col => bool_decide (col ∈ pd.columns df)) ["latitude"; "longitude"] = true <->
  "latitude" ∈ pd.columns df /\ "longitude" ∈ pd.columns df.
Proof.
  simpl. rewrite andb_true_r, andb_true_iff, !bool_decide_eq_true. done.
Qed.

(** Whether the cleaned copy of a frame is empty. *)
Lemma empty_cleaned (df : pd.DataFrame num) :
  pd.empty df = false ->
  pd.empty (cleaned to_num df) =
  bool_decide (filter (fun ir => numeric_row to_num ir.2 = true) (pd.rows df) = []).
Proof.
  unfold pd.empty. intros [_ Hcols]%orb_false_iff. unfold cleaned. simpl.
  rewrite Hcols, orb_false_r.
  destruct (filter _ (pd.rows df)); done.
Qed.

(** X6. When there is nothing to put on a map, [render_map] shows one notice
    and no map, raises nothing and changes no field of the session: a
    warning on [None] and on an empty frame, an error on a frame that
    lacks a coordinate column - in both cases without making a copy - and
    another warning on a frame none of whose rows has a numeric latitude
    and longitude. *)
Theorem render_map_with_nothing_to_show (w : AppWorld (num:=num)) :
  let say ev h := (Return tt, mkApp (io w) h (ui w ++ [ev]) (session w)) in
  render_map to_num st_map_raises None w =
    say (StWarning "지도에 표시할 도서관 위치 정보가 없습니다.") (heap w)
  /\
  (forall l df,
      heap w !! l = Some df -> pd.empty df = true ->
      render_map to_num st_map_raises (Some l) w =
      say (StWarning "지도에 표시할 도서관 위치 정보가 없습니다.") (heap w))
  /\
  (forall l df,
      heap w !! l = Some df -> pd.empty df = false ->
      "latitude" ∉ pd.columns df \/ "longitude" ∉ pd.columns df ->
      render_map to_num st_map_raises (Some l) w =
      say (StError "지도 표시에 필요한 'latitude' 또는 'longitude' 컬럼이 없습니다.") (heap w))
  /\
  (forall l df,
      heap w !! l = Some df -> pd.empty df = false ->
      "latitude" ∈ pd.columns df -> "longitude" ∈ pd.columns df ->
      Forall (fun ir => numeric_row to_num ir.2 = false) (pd.rows df) ->
      render_map to_num st_map_raises (Some l) w =
      say (StWarning "유효한 위도/경도 데이터를 가진 도서관이 없습니다.")
        (<[fresh (dom (heap w)) := pd.mkDataFrame (pd.columns df) []]> (heap w))).
Proof.
  intros say. split; [done|]. split; [|split].
  - intros l df Hl Hempty. rewrite (render_map_run to_num st_map_raises l w df Hl).
    unfold render_map_world. by rewrite Hempty.
  - intros l df Hl Hempty Hcols. rewrite (render_map_run to_num st_map_raises l w df Hl).
    unfold render_map_world. rewrite Hempty.
    destruct (forallb _ _) eqn:Hall; [|done].
    apply coordinate_columns in Hall. tauto.
  - intros l df Hl Hempty Hlat Hlon Hrows.
    rewrite (render_map_run to_num st_map_raises l w df Hl).
    unfold render_map_world. rewrite Hempty.
    rewrite (proj2 (coordinate_columns df)) by done. simpl negb. cbv iota.
    assert (filter (fun ir => numeric_row to_num ir.2 = true) (pd.rows df) = []) as Hnone.
    { apply filter_none. eapply Forall_impl; [exact Hrows|].
      intros ir Hir. simpl. by rewrite Hir. }
    rewrite (empty_cleaned df Hempty), Hnone.
    rewrite bool_decide_eq_true_2 by done. unfold cleaned. by rewrite Hnone.
Qed.

(** X7. An exception of [st.map] does not leave [render_map]: it is shown as
    an error. *)
Theorem render_map_catches_map_failure (w : AppWorld (num:=num)) (l : loc)
    (df points : pd.DataFrame num) (e : exn) :
  heap w !! l = Some df ->
  pd.empty df = false ->
  "latitude" ∈ pd.columns df -> "longitude" ∈ pd.columns df ->
  Exists (fun ir => numeric_row to_num ir.2 = true) (pd.rows df) ->
  pd.select ["latitude"; "longitude"] (cleaned to_num df) = Return points ->
  st_map_raises points = Some e ->
  (render_map to_num st_map_raises (Some l) w).1 = Return tt /\
  ui (render_map to_num st_map_raises (Some l) w).2 =
  (ui w ++ [StError ("지도 렌더링 중 오류 발생: " +:+ str e)])%list.
Proof.
  intros Hl Hempty Hlat Hlon Hrows Hpoints Hraise.
  rewrite (render_map_run to_num st_map_raises l w df Hl). split; [done|]. simpl.
  unfold render_map_world. rewrite Hempty.
  rewrite (proj2 (coordinate_columns df)) by done. simpl negb. cbv iota.
  rewrite (empty_cleaned df Hempty). rewrite bool_decide_eq_false_2.
  - by rewrite Hpoints, Hraise.
  - intros Hnone. apply Exists_exists in Hrows as (ir & Hin & Hir).
    eapply filter_nil_not_elem_of; [exact Hnone| |exact Hin]. exact Hir.
Qed.

(** A row whose coordinates are numbers already is left as it is by the
    two coercions. *)
Lemma coerce_row_numeric (r : gmap string (pd.cell num)) :
  is_num (pd.at_col r "latitude") = true ->
  is_num (pd.at_col r "longitude") = true ->
  coerce_row to_num r = r /\ numeric_row to_num r = true.
Proof.
  unfold pd.at_col, coerce_row, numeric_row, numeric_cell, pd.at_col.
  destruct (r !! "latitude") as [[| x |]|] eqn:Hlat; try done.
  destruct (r !! "longitude") as [[| y |]|] eqn:Hlon; try done.
  intros _ _. simpl. split; [|done].
  rewrite (insert_id r "latitude") by done. by rewrite insert_id.
Qed.

Lemma cleaned_numeric_frame (df : pd.DataFrame num) :
  Forall (fun ir => is_num (pd.at_col ir.2 "latitude") = true /\
                    is_num (pd.at_col ir.2 "longitude") = true) (pd.rows df) ->
  cleaned to_num df = df.
Proof.
  intros Hrows. destruct df as [cols rows]. unfold cleaned. simpl in *. f_equal.
  induction Hrows as [|[i r] rows [Hlat Hlon] Hrows IH]; [done|].
  destruct (coerce_row_numeric r Hlat Hlon) as [Hsame Hnum].
  rewrite filter_cons_True by done. rewrite fmap_cons. simpl. by rewrite Hsame, IH.
Qed.

(** The columns a selection needs are there when it returns. *)
Lemma select_Return_columns (cols : list string) (df points : pd.DataFrame num) :
  pd.select cols df = Return points -> Forall (fun c => c ∈ pd.columns df) cols.
Proof.
  unfold pd.select, pd.missing_columns.
  destruct (filter _ cols) eqn:Hmiss; [|done]. intros _.
  apply Forall_forall. intros c Hin. apply dec_stable. intros Hc.
  eapply filter_nil_not_elem_of; [exact Hmiss|exact Hc|exact Hin].
Qed.

(** The frame of the two coordinate columns: its labels and coordinates
    are those of the frame it is taken from. *)
Lemma select_coordinates (df points : pd.DataFrame num) :
  pd.select ["latitude"; "longitude"] df = Return points ->
  pd.columns points = {["latitude"; "longitude"]} /\
  (fun ir : nat * gmap string (pd.cell num) =>
     (ir.1, pd.at_col ir.2 "latitude", pd.at_col ir.2 "longitude")) <$> pd.rows points =
  (fun ir : nat * gmap string (pd.cell num) =>
     (ir.1, pd.at_col ir.2 "latitude", pd.at_col ir.2 "longitude")) <$> pd.rows df.
Proof.
  intros Hpoints. pose proof (select_Return_columns _ _ _ Hpoints) as Hcols.
  rewrite (select_present ["latitude"; "longitude"] df) in Hpoints by done.
  injection Hpoints as <-. simpl. split; [set_solver|].
  rewrite <- list_fmap_compose. apply list_fmap_ext. intros _ [i r] _. simpl.
  by rewrite !at_col_select by set_solver.
Qed.

(** The world [render_map] leaves on a frame whose rows all have numeric
    coordinates, when [st.map] accepts the points. *)
Lemma render_map_world_clean (df points : pd.DataFrame num) (w : AppWorld (num:=num)) :
  pd.empty df = false ->
  Forall (fun ir => is_num (pd.at_col ir.2 "latitude") = true /\
                    is_num (pd.at_col ir.2 "longitude") = true) (pd.rows df) ->
  pd.select ["latitude"; "longitude"] df = Return points ->
  st_map_raises points = None ->
  render_map_world to_num st_map_raises df w =
  mkApp (io w) (<[fresh (dom (heap w)) := df]> (heap w)) (ui w ++ [StMap points])
    (session w).
Proof.
  intros Hempty Hrows Hpoints Hok.
  pose proof (select_Return_columns _ _ _ Hpoints) as Hcols.
  unfold render_map_world. rewrite Hempty.
  rewrite (proj2 (coordinate_columns df))
    by (rewrite !Forall_cons in Hcols; tauto).
  simpl negb. cbv iota.
  by rewrite (cleaned_numeric_frame df Hrows), Hempty, Hpoints, Hok.
Qed.

(** X8. On a frame whose rows all have numeric coordinates - such as the table
    step 4 leaves - [render_map] hands [st.map] the frame's own latitude
    and longitude columns: no row is dropped and no value changed. *)
Theorem render_map_shows_clean_frame_whole (w : AppWorld (num:=num)) (l : loc)
    (df points : pd.DataFrame num) :
  heap w !! l = Some df ->
  pd.empty df = false ->
  Forall (fun ir => is_num (pd.at_col ir.2 "latitude") = true /\
                    is_num (pd.at_col ir.2 "longitude") = true) (pd.rows df) ->
  pd.select ["latitude"; "longitude"] df = Return points ->
  st_map_raises points = None ->
  ui (render_map to_num st_map_raises (Some l) w).2 = (ui w ++ [StMap points])%list /\
  pd.columns points = {["latitude"; "longitude"]} /\
  (fun ir : nat * gmap string (pd.cell num) =>
     (ir.1, pd.at_col ir.2 "latitude", pd.at_col ir.2 "longitude")) <$> pd.rows points =
  (fun ir : nat * gmap string (pd.cell num) =>
     (ir.1, pd.at_col ir.2 "latitude", pd.at_col ir.2 "longitude")) <$> pd.rows df.
Proof.
  intros Hl Hempty Hrows Hpoints Hok.
  rewrite (render_map_run to_num st_map_raises l w df Hl). simpl.
  rewrite (render_map_world_clean df points w) by done.
  split; [done|]. by apply select_coordinates.
Qed.

End render_map_facts.

Lemma render_map_with_nothing_to_show_witness :
  render_map Decimal.to_num (fun _ => None) (Some 1%positive)
    (Scenario.holding (pd.of_records [Sample.unlocated_record])) =
  (Return tt,
   mkApp (mkWorld [] [])
     (<[2%positive := pd.mkDataFrame {["latitude"; "longitude"]} []]>
        {[ 1%positive := pd.of_records [Sample.unlocated_record] ]})
     [StWarning "유효한 위도/경도 데이터를 가진 도서관이 없습니다."]
     (mkSession None (Some 1%positive) None false)).
Proof.
  destruct (render_map_with_nothing_to_show Decimal.to_num (fun _ => None)
              (Scenario.holding (pd.of_records [Sample.unlocated_record])))
    as (_ & _ & _ & Hrows).
  rewrite (Hrows 1%positive (pd.of_records [Sample.unlocated_record])).
  - vm_compute. reflexivity.
  - reflexivity.
  - vm_compute. reflexivity.
  - apply (bool_decide_unpack _). vm_compute. exact I.
  - apply (bool_decide_unpack _). vm_compute. exact I.
  - repeat constructor.
Defined.

Lemma render_map_catches_map_failure_witness :
  let w' := (render_map Decimal.to_num
               (fun _ => Some (OtherException "StreamlitAPIException" "bad data"))
               (Some 1%positive) Sample.with_frame) in
  w'.1 = Return tt /\
  ui w'.2 = [StError "지도 렌더링 중 오류 발생: bad data"].
Proof.
  apply (render_map_catches_map_failure Decimal.to_num
           (fun _ => Some (OtherException "StreamlitAPIException" "bad data"))
           Sample.with_frame 1%positive
           (pd.of_records [Sample.located_record; Sample.unlocated_record])
           (Scenario.the_frame
              (pd.select ["latitude"; "longitude"]
                 (cleaned Decimal.to_num
                    (pd.of_records [Sample.located_record; Sample.unlocated_record]))))
           (OtherException "StreamlitAPIException" "bad data")).
  - reflexivity.
  - vm_compute. reflexivity.
  - apply (bool_decide_unpack _). vm_compute. exact I.
  - apply (bool_decide_unpack _). vm_compute. exact I.
  - apply Exists_cons_hd. vm_compute. reflexivity.
  - vm_compute. reflexivity.
  - reflexivity.
Defined.

Lemma render_map_shows_clean_frame_whole_witness :
  let df := Scenario.the_frame (located Decimal.to_num Sample.gyeonggi_records) in
  let points := Scenario.the_frame (pd.select ["latitude"; "longitude"] df) in
  ui (render_map Decimal.to_num (fun _ => None) (Some 1%positive) (Scenario.holding df)).2 =
  [StMap points] /\
  pd.columns points = {["latitude"; "longitude"]} /\
  (fun ir : nat * gmap string (pd.cell (Z * nat)) =>
     (ir.1, pd.at_col ir.2 "latitude", pd.at_col ir.2 "longitude")) <$> pd.rows points =
  (fun ir : nat * gmap string (pd.cell (Z * nat)) =>
     (ir.1, pd.at_col ir.2 "latitude", pd.at_col ir.2 "longitude")) <$> pd.rows df.
Proof.
  intros df points.
  apply (render_map_shows_clean_frame_whole Decimal.to_num (fun _ => None)
           (Scenario.holding df) 1%positive df points).
  - reflexivity.
  - vm_compute. reflexivity.
  - vm_compute. repeat constructor.
  - vm_compute. reflexivity.
  - reflexivity.
Defined.

(* ===================================================================== *)
(** * Properties of step 4, stated on the world it leaves *)
(* ===================================================================== *)

Section step4_facts.

Context {num : Type} {num_eq : EqDecision num}.
Variable to_num : string -> option num.
Variable fromstring : string -> outcome ET.Element.
Variable remote : list requests.Request -> requests.Request -> outcome requests.Response.

Lemma gave_up_run (say : string -> ui_event (num:=num)) (msg : string)
    (w : AppWorld (num:=num)) :
  (set_error_message msg ;; emit (say msg) ;;
   blank <- alloc pd.empty_frame ;; set_library_locations (Some blank)) w =
  (Return tt, gave_up say msg w).
Proof. by destruct w. Qed.

(** The four in-place steps, with the frame they leave when they raise. *)
Lemma located_steps_trace {A} io0 h ui0 s l (libraries : list record)
    (k : M (AppWorld (num:=num)) A) :
  library_locations s = Some l ->
  h !! l = Some (pd.of_records libraries) ->
  ((l <- the_library_locations ;; coerce_column to_num l "latitude") ;;
   (l <- the_library_locations ;; coerce_column to_num l "longitude") ;;
   (l <- the_library_locations ;; dropna_inplace l ["latitude"; "longitude"]) ;;
   (l <- the_library_locations ;; drop_duplicates_inplace l ["libCode"]) ;;
   k) (mkApp io0 h ui0 s) =
  match (located_trace to_num libraries).1 with
  | Return _ => k (mkApp io0 (<[l := (located_trace to_num libraries).2]> h) ui0 s)
  | Raise e => (Raise e, mkApp io0 (<[l := (located_trace to_num libraries).2]> h) ui0 s)
  end.
Proof.
  intros Hs Hl. unfold located_trace.
  unfold bind at 1. unfold bind at 1. rewrite (the_library_locations_run _ _ _ _ l Hs).
  cbv beta iota. rewrite coerce_column_run.
  destruct (coerced to_num "latitude" (pd.of_records libraries)) as [d1|e] eqn:H1;
    [rewrite (in_place_Return _ _ _ _ _ _ _ d1 Hl H1)
    |rewrite (in_place_Raise _ _ _ _ _ _ _ e Hl H1); simpl; by rewrite insert_id].
  unfold bind at 1. unfold bind at 1. rewrite (the_library_locations_run _ _ _ _ l Hs).
  cbv beta iota. rewrite coerce_column_run.
  destruct (coerced to_num "longitude" d1) as [d2|e] eqn:H2;
    [rewrite (in_place_Return _ _ _ _ _ _ d1 d2) by (try done; apply lookup_insert_eq)
    |rewrite (in_place_Raise _ _ _ _ _ _ d1 e) by (try done; apply lookup_insert_eq); done].
  unfold bind at 1. unfold bind at 1. rewrite (the_library_locations_run _ _ _ _ l Hs).
  cbv beta iota. rewrite dropna_inplace_run.
  destruct (pd.dropna ["latitude"; "longitude"] d2) as [d3|e] eqn:H3;
    [rewrite (in_place_Return _ _ _ _ _ _ d2 d3) by (try done; apply lookup_insert_eq)
    |rewrite (in_place_Raise _ _ _ _ _ _ d2 e) by (try done; apply lookup_insert_eq);
     simpl; by rewrite insert_insert_eq].
  unfold bind at 1. unfold bind at 1. rewrite (the_library_locations_run _ _ _ _ l Hs).
  cbv beta iota. rewrite drop_duplicates_inplace_run.
  destruct (pd.drop_duplicates ["libCode"] d3) as [d4|e] eqn:H4;
    [rewrite (in_place_Return _ _ _ _ _ _ d3 d4) by (try done; apply lookup_insert_eq)
    |rewrite (in_place_Raise _ _ _ _ _ _ d3 e) by (try done; apply lookup_insert_eq);
     simpl; by rewrite !insert_insert_eq].
  simpl. by rewrite !insert_insert_eq.
Qed.

Lemma library_search_guarded_world_run (NAROU_API_KEY : option string) (isbn : string)
    (w : AppWorld (num:=num)) :
  library_search_guarded to_num fromstring remote NAROU_API_KEY isbn w =
  (Return tt, library_search_guarded_world to_num fromstring remote NAROU_API_KEY isbn w).
Proof.
  destruct w as [io0 h ui0 s].
  unfold library_search_guarded, library_search_guarded_world, try_except,
    library_search_try.
  change (st_error ?m) with (emit (num:=num) (StError m)).
  change (st_warning ?m) with (emit (num:=num) (StWarning m)).
  unfold bind at 1.
  destruct (truthy_opt NAROU_API_KEY) eqn:Hkey; cbv beta iota delta [negb].
  2: { unfold raise. cbv beta iota. by rewrite gave_up_run. }
  unfold ret at 1. cbv beta iota.
  unfold bind at 1. unfold call at 1. simpl io.
  destruct (find_libraries_for_book fromstring remote isbn (default "" NAROU_API_KEY)
              "11" 1 50 io0) as [[L1|e1] io1] eqn:Hc1.
  all: cbv beta iota.
  2: { by rewrite gave_up_run. }
  simpl heap. simpl ui. simpl session.
  unfold bind at 1. unfold call at 1. simpl io.
  destruct (find_libraries_for_book fromstring remote isbn (default "" NAROU_API_KEY)
              "31" 1 50 io1) as [[L2|e2] io2] eqn:Hc2.
  all: cbv beta iota.
  2: { by rewrite gave_up_run. }
  simpl heap. simpl ui. simpl session.
  destruct (L1 ++ L2)%list as [|r libraries] eqn:HL.
  - by rewrite gave_up_run.
  - unfold bind at 1. unfold alloc at 1. cbv beta iota zeta. simpl.
    unfold bind at 1. unfold set_library_locations at 1, modify at 1. simpl.
    set (created := fresh (dom h)).
    lazymatch goal with
    | |- context [bind _ (fun _ => bind _ (fun _ => bind _ (fun _ => bind _ (fun _ => ?k))))] =>
        rewrite (located_steps_trace io2 (<[created := pd.of_records (r :: libraries)]> h) ui0
                   (mkSession (selected_book_isbn s) (Some created) (error_message s)
                      (loading s))
                   created (r :: libraries) k) by (done || apply lookup_insert_eq)
    end.
    rewrite insert_insert_eq.
    destruct (located_trace to_num (r :: libraries)) as [[[]|e] d] eqn:Htrace; simpl.
    2: { by rewrite gave_up_run. }
    unfold bind at 1. rewrite (the_library_locations_run _ _ _ _ created) by done.
    cbv beta iota.
    unfold bind at 1. rewrite (deref_run _ _ _ _ created d) by apply lookup_insert_eq.
    cbv beta iota.
    destruct (pd.empty d) eqn:Hempty; [by rewrite gave_up_run|done].
Qed.

Lemma library_search_block_world_run (NAROU_API_KEY : option string)
    (w : AppWorld (num:=num)) :
  library_search_block to_num fromstring remote NAROU_API_KEY w =
  (Return tt, library_search_block_world to_num fromstring remote NAROU_API_KEY w).
Proof.
  unfold library_search_block, library_search_block_world.
  unfold bind at 1, get at 1. cbv beta iota.
  destruct (truthy_opt _ && _ && _); [|done].
  unfold bind at 1. rewrite library_search_guarded_world_run. cbv beta iota.
  unfold bind, set_loading, modify, get, st_rerun, emit, modify. simpl. done.
Qed.

Lemma located_trace_located (libraries : list record) :
  match located to_num libraries with
  | Return d => located_trace to_num libraries = (Return tt, d)
  | Raise e => exists d, located_trace to_num libraries = (Raise e, d)
  end.
Proof.
  unfold located, coordinates_cleaned, located_trace.
  destruct (coerced to_num "latitude" _) as [d1|e]; simpl; [|eauto].
  destruct (coerced to_num "longitude" d1) as [d2|e]; simpl; [|eauto].
  destruct (pd.dropna _ d2) as [d3|e]; simpl; [|eauto].
  destruct (pd.drop_duplicates _ d3) as [d4|e]; simpl; eauto.
Qed.

Lemma find_libraries_for_book_log isbn13 api_key region_code page_no page_size w :
  api_key <> "" -> isbn13 <> "" -> region_code <> "" ->
  net_log (find_libraries_for_book fromstring remote isbn13 api_key region_code
             page_no page_size w).2 =
  (net_log w ++ [libSrchByBook_request isbn13 api_key region_code page_no page_size])%list.
Proof.
  intros. rewrite find_libraries_for_book_run by done.
  unfold after_request. destruct (remote _ _) as [r|e].
  - destruct (requests.raise_for_status r) as [[]|e]; [|done].
    by destruct (parse_xml_response_total fromstring (requests.text r) "libs" "lib"
                   (mkWorld (stdout w) (net_log w ++ [libSrchByBook_request isbn13 api_key region_code page_no page_size]))) as (items & out & ->).
  - by destruct (is_RequestException e).
Qed.

(** The ways the [try] statement of step 4 ends: with a message and a new
    empty table - before a table was made, or after one was made at the
    next free reference - or with the table made and nothing said. *)
Lemma library_search_guarded_world_cases (NAROU_API_KEY : option string) (isbn : string)
    (w : AppWorld (num:=num)) :
  let w' := library_search_guarded_world to_num fromstring remote NAROU_API_KEY isbn w in
  (exists io' say msg,
      (say = StWarning \/ say = StError) /\
      w' = gave_up say msg (with_io io' w))
  \/
  (exists io' d,
      let w1 :=
        mkApp io' (<[fresh (dom (heap w)) := d]> (heap w)) (ui w)
          (mkSession (selected_book_isbn (session w)) (Some (fresh (dom (heap w))))
             (error_message (session w)) (loading (session w))) in
      (w' = w1 /\ pd.empty d = false) \/
      (exists say msg, (say = StWarning \/ say = StError) /\ w' = gave_up say msg w1)).
Proof.
  intros w'. subst w'. unfold library_search_guarded_world.
  destruct (truthy_opt NAROU_API_KEY); cbv beta iota zeta delta [negb].
  2: { left. exists (io w), StError. eexists. split; [by right|]. by destruct w. }
  destruct (find_libraries_for_book _ _ _ _ "11" _ _ _) as [[L1|e1] io1].
  2: { left. exists io1, StError. eauto. }
  destruct (find_libraries_for_book _ _ _ _ "31" _ _ _) as [[L2|e2] io2].
  2: { left. exists io2, StError. eauto. }
  destruct (L1 ++ L2)%list as [|r libraries].
  { left. exists io2, StWarning. eauto. }
  right. exists io2, (located_trace to_num (r :: libraries)).2.
  destruct (located_trace to_num (r :: libraries)).1 as [[]|e].
  - destruct (pd.empty _) eqn:Hempty; [right|left; done].
    exists StWarning. eauto.
  - right. exists StError. eauto.
Qed.

Lemma fresh_lookup (h : gmap loc (pd.DataFrame num)) : h !! fresh (dom h) = None.
Proof. apply not_elem_of_dom, is_fresh. Qed.

Lemma fresh_insert_lookup (h : gmap loc (pd.DataFrame num)) (d : pd.DataFrame num) :
  h !! fresh (dom (<[fresh (dom h) := d]> h)) = None.
Proof.
  apply not_elem_of_dom. intros Hin.
  apply (is_fresh (dom (<[fresh (dom h) := d]> h))).
  apply elem_of_dom. apply elem_of_dom in Hin as [v Hv].
  destruct (decide (fresh (dom h) = fresh (dom (<[fresh (dom h) := d]> h)))) as [Heq|Hne].
  - rewrite <- Heq. rewrite lookup_insert_eq. eauto.
  - rewrite lookup_insert_ne by done. eauto.
Qed.

(** X9. Whatever happens inside the [try] statement of step 4 - a missing key,
    a failed lookup, no library, a frame without the expected columns -
    the statement ends normally and the session then refers to a table
    that did not exist before; the selection and the loading flag are as
    they were. *)
Theorem library_search_always_leaves_a_table (NAROU_API_KEY : option string)
    (isbn : string) (w : AppWorld (num:=num)) :
  let after := library_search_guarded to_num fromstring remote NAROU_API_KEY isbn w in
  after.1 = Return tt /\
  exists l df,
    library_locations (session after.2) = Some l /\
    heap after.2 !! l = Some df /\
    heap w !! l = None /\
    selected_book_isbn (session after.2) = selected_book_isbn (session w) /\
    loading (session after.2) = loading (session w).
Proof.
  intros after. subst after. rewrite library_search_guarded_world_run.
  split; [done|]. simpl.
  destruct (library_search_guarded_world_cases NAROU_API_KEY isbn w)
    as [(io' & say & msg & _ & ->)|(io' & d & [[-> _]|(say & msg & _ & ->)])]; simpl.
  - exists (fresh (dom (heap w))), pd.empty_frame.
    rewrite lookup_insert_eq. by rewrite fresh_lookup.
  - exists (fresh (dom (heap w))), d.
    rewrite lookup_insert_eq. by rewrite fresh_lookup.
  - eexists _, pd.empty_frame. rewrite lookup_insert_eq.
    split; [done|]. split; [done|]. split; [|done].
    apply fresh_insert_lookup.
Qed.

(** X10. The table step 4 leaves is empty exactly when step 4 has recorded a
    message and shown it, as a warning or as an error; when the table has
    rows, nothing is shown and the message of the session is the one that
    was there before. *)
Theorem empty_table_comes_with_a_message (NAROU_API_KEY : option string)
    (isbn : string) (w : AppWorld (num:=num)) :
  let w' := (library_search_guarded to_num fromstring remote NAROU_API_KEY isbn w).2 in
  forall l df,
    library_locations (session w') = Some l ->
    heap w' !! l = Some df ->
    if pd.empty df then
      exists msg,
        error_message (session w') = Some msg /\
        (ui w' = (ui w ++ [StWarning msg])%list \/ ui w' = (ui w ++ [StError msg])%list)
    else
      error_message (session w') = error_message (session w) /\ ui w' = ui w.
Proof.
  intros w'. subst w'. rewrite library_search_guarded_world_run. simpl.
  destruct (library_search_guarded_world_cases NAROU_API_KEY isbn w)
    as [(io' & say & msg & Hsay & ->)|(io' & d & [[-> Hd]|(say & msg & Hsay & ->)])];
    simpl; intros l df [= <-]; rewrite lookup_insert_eq; intros [= <-].
  - change (pd.empty pd.empty_frame) with true. cbv iota.
    exists msg. destruct Hsay as [-> | ->]; auto.
  - by rewrite Hd.
  - change (pd.empty pd.empty_frame) with true. cbv iota.
    exists msg. destruct Hsay as [-> | ->]; auto.
Qed.

Lemma library_search_guarded_world_heap (NAROU_API_KEY : option string) (isbn : string)
    (w : AppWorld (num:=num)) (l : loc) (df : pd.DataFrame num) :
  heap w !! l = Some df ->
  heap (library_search_guarded_world to_num fromstring remote NAROU_API_KEY isbn w) !! l =
  Some df.
Proof.
  intros Hl.
  assert (l <> fresh (dom (heap w))) as Hne.
  { intros ->. by rewrite fresh_lookup in Hl. }
  destruct (library_search_guarded_world_cases NAROU_API_KEY isbn w)
    as [(io' & say & msg & _ & ->)|(io' & d & [[-> _]|(say & msg & _ & ->)])]; simpl.
  - by rewrite lookup_insert_ne.
  - by rewrite lookup_insert_ne.
  - rewrite lookup_insert_ne; [by rewrite lookup_insert_ne|].
    intros <-. by rewrite fresh_insert_lookup in Hl.
Qed.

(** X11. Step 4 only makes new frames: every frame that existed before it is
    afterwards what it was. *)
Theorem library_search_keeps_other_frames (NAROU_API_KEY : option string)
    (w : AppWorld (num:=num)) (l : loc) (df : pd.DataFrame num) :
  heap w !! l = Some df ->
  heap (library_search_block to_num fromstring remote NAROU_API_KEY w).2 !! l = Some df.
Proof.
  intros Hl. rewrite library_search_block_world_run. simpl.
  unfold library_search_block_world. destruct (_ && _ && _); [|done].
  simpl. by apply library_search_guarded_world_heap.
Qed.

(** X12. Step 4 does not run twice: in the world it leaves its guard is false,
    so the rerun it asks for finds nothing to search for and issues no
    request - also after a failure, when the table it left is the empty
    one. *)
Theorem library_search_does_not_repeat (NAROU_API_KEY : option string)
    (w : AppWorld (num:=num)) :
  let w' := (library_search_block to_num fromstring remote NAROU_API_KEY w).2 in
  library_search_block to_num fromstring remote NAROU_API_KEY w' = (Return tt, w').
Proof.
  intros w'. subst w'. rewrite !library_search_block_world_run. simpl. f_equal.
  unfold library_search_block_world at 2.
  destruct (_ && _ && _) eqn:Hguard.
  - unfold library_search_block_world. simpl. by rewrite andb_false_r, Hguard.
  - unfold library_search_block_world. by rewrite Hguard.
Qed.

Lemma pending_guard (w : AppWorld (num:=num)) (isbn : string) :
  selected_book_isbn (session w) = Some isbn -> isbn <> "" ->
  library_locations (session w) = None ->
  loading (session w) = true ->
  truthy_opt (selected_book_isbn (session w))
  && bool_decide (library_locations (session w) = None)
  && loading (session w) = true.
Proof.
  intros -> Hisbn%truthy_true -> ->. simpl. by rewrite Hisbn.
Qed.

(** Step 4 on a pending selection. *)
Lemma library_search_block_pending (NAROU_API_KEY : option string)
    (w : AppWorld (num:=num)) (isbn : string) :
  selected_book_isbn (session w) = Some isbn -> isbn <> "" ->
  library_locations (session w) = None ->
  loading (session w) = true ->
  library_search_block to_num fromstring remote NAROU_API_KEY w =
  (Return tt,
   finished (library_search_guarded_world to_num fromstring remote NAROU_API_KEY isbn w)).
Proof.
  intros Hsel Hisbn Hlib Hloading. rewrite library_search_block_world_run.
  unfold library_search_block_world.
  rewrite (pending_guard w isbn) by done. by rewrite Hsel.
Qed.

(** X13. The requests of step 4. Without a catalog key it sends nothing and
    prints nothing. With a key it issues the lookup for region 11 and
    then, only if that one returned, the lookup for region 31 - and no
    other request: after a failure of the first lookup the second region
    is not asked. *)
Theorem library_search_requests (NAROU_API_KEY : option string) (isbn : string)
    (w : AppWorld (num:=num)) :
  isbn <> "" ->
  let w' := (library_search_guarded to_num fromstring remote NAROU_API_KEY isbn w).2 in
  (truthy_opt NAROU_API_KEY = false -> io w' = io w)
  /\
  (forall api_key,
      NAROU_API_KEY = Some api_key -> api_key <> "" ->
      net_log (io w') =
      (net_log (io w) ++
         libSrchByBook_request isbn api_key "11" 1 50 ::
         match (find_libraries_for_book fromstring remote isbn api_key "11" 1 50
                  (io w)).1 with
         | Return _ => [libSrchByBook_request isbn api_key "31" 1 50]
         | Raise _ => []
         end)%list).
Proof.
  intros Hisbn w'. subst w'. rewrite library_search_guarded_world_run. simpl.
  unfold library_search_guarded_world. split.
  { intros ->. done. }
  intros api_key -> Hkey. simpl truthy_opt.
  rewrite (proj2 (truthy_true api_key) Hkey). cbv beta iota zeta delta [negb]. simpl default.
  pose proof (find_libraries_for_book_log isbn api_key "11" 1 50 (io w) Hkey Hisbn) as H1.
  destruct (find_libraries_for_book _ _ _ _ "11" _ _ _) as [[L1|e1] io1]; simpl in *.
  2: { rewrite H1 by discriminate. done. }
  pose proof (find_libraries_for_book_log isbn api_key "31" 1 50 io1 Hkey Hisbn) as H2.
  destruct (find_libraries_for_book _ _ _ _ "31" _ _ _) as [[L2|e2] io2]; simpl in *.
  2: { rewrite H2, H1 by discriminate. by rewrite <- app_assoc. }
  assert (net_log io2 =
          (net_log (io w) ++ [libSrchByBook_request isbn api_key "11" 1 50;
                               libSrchByBook_request isbn api_key "31" 1 50])%list) as Hlog.
  { rewrite H2, H1 by discriminate. by rewrite <- app_assoc. }
  destruct (L1 ++ L2)%list as [|r libraries]; [done|].
  destruct (located_trace to_num (r :: libraries)).1 as [[]|e]; [|done].
  by destruct (pd.empty _).
Qed.

(** X14. When a lookup raises, step 4 records and shows the error and leaves
    an empty table: what the first region returned is discarded when the
    lookup of the second fails. *)
Theorem failed_lookup_discards_results (api_key isbn : string)
    (w : AppWorld (num:=num)) (e : exn) :
  api_key <> "" ->
  let first := find_libraries_for_book fromstring remote isbn api_key "11" 1 50 (io w) in
  let second := find_libraries_for_book fromstring remote isbn api_key "31" 1 50 first.2 in
  first.1 = Raise e \/ ((exists L1, first.1 = Return L1) /\ second.1 = Raise e) ->
  let w' := (library_search_guarded to_num fromstring remote (Some api_key) isbn w).2 in
  error_message (session w') = Some ("도서관 검색 중 오류 발생: " +:+ str e) /\
  ui w' = (ui w ++ [StError ("도서관 검색 중 오류 발생: " +:+ str e)])%list /\
  exists l, library_locations (session w') = Some l /\ heap w' !! l = Some pd.empty_frame.
Proof.
  intros Hkey first second Hfail w'. subst w' first second.
  rewrite library_search_guarded_world_run. simpl.
  unfold library_search_guarded_world. simpl truthy_opt.
  rewrite (proj2 (truthy_true api_key) Hkey). cbv beta iota zeta delta [negb]. simpl default.
  destruct (find_libraries_for_book _ _ _ _ "11" _ _ _) as [[L1|e1] io1]; simpl in *.
  - destruct Hfail as [|[_ Hfail]]; [done|].
    destruct (find_libraries_for_book _ _ _ _ "31" _ _ _) as [[L2|e2] io2]; simpl in *;
      [done|].
    injection Hfail as ->. repeat split. eexists. split; [done|].
    by rewrite lookup_insert_eq.
  - destruct Hfail as [[= ->]|[[L1 ?] _]]; [|done].
    repeat split. eexists. split; [done|]. by rewrite lookup_insert_eq.
Qed.

End step4_facts.

Lemma empty_table_comes_with_a_message_witness :
  let w' := (library_search_guarded Decimal.to_num ET.fromstring Scenario.down
               (Some "key") "9788966262281" (Sample.picked "9788966262281")).2 in
  exists msg,
    error_message (session w') = Some msg /\
    (ui w' = [StWarning msg] \/ ui w' = [StError msg]).
Proof.
  exact (empty_table_comes_with_a_message Decimal.to_num ET.fromstring Scenario.down
           (Some "key") "9788966262281" (Sample.picked "9788966262281")
           1%positive pd.empty_frame eq_refl eq_refl).
Defined.

Lemma library_search_keeps_other_frames_witness :
  heap (library_search_block Decimal.to_num ET.fromstring
          (Sample.serve Sample.seoul_first_unlocated Sample.gyeonggi_located)
          (Some "key")
          (Scenario.picked_beside (pd.of_records [Sample.located_record])
             "9788966262281")).2 !! 1%positive =
  Some (pd.of_records [Sample.located_record]).
Proof.
  apply (library_search_keeps_other_frames Decimal.to_num ET.fromstring
           (Sample.serve Sample.seoul_first_unlocated Sample.gyeonggi_located)
           (Some "key")).
  reflexivity.
Defined.

Lemma library_search_requests_witness :
  net_log (io (library_search_guarded Decimal.to_num ET.fromstring Scenario.down
                 (Some "key") "9788966262281" (Sample.picked "9788966262281")).2) =
  [libSrchByBook_request "9788966262281" "key" "11" 1 50].
Proof.
  assert ("9788966262281" <> "") as Hisbn by discriminate.
  destruct (library_search_requests Decimal.to_num ET.fromstring Scenario.down
              (Some "key") "9788966262281" (Sample.picked "9788966262281") Hisbn)
    as [_ Hlog].
  rewrite (Hlog "key"); [reflexivity|reflexivity|discriminate].
Defined.

Lemma failed_lookup_discards_results_witness :
  let w' := (library_search_guarded Decimal.to_num ET.fromstring
               (Scenario.answers_once Sample.gyeonggi_located)
               (Some "key") "9788966262281" (Sample.picked "9788966262281")).2 in
  error_message (session w') =
  Some "도서관 검색 중 오류 발생: Failed to connect to Narou API: timed out" /\
  ui w' = [StError "도서관 검색 중 오류 발생: Failed to connect to Narou API: timed out"] /\
  exists l, library_locations (session w') = Some l /\ heap w' !! l = Some pd.empty_frame.
Proof.
  apply (failed_lookup_discards_results Decimal.to_num ET.fromstring
           (Scenario.answers_once Sample.gyeonggi_located)
           "key" "9788966262281" (Sample.picked "9788966262281")
           (ConnectionError "Failed to connect to Narou API: timed out"
              (RequestException ReqTimeout "timed out"))).
  - discriminate.
  - right. split; [eexists|]; vm_compute; reflexivity.
Defined.

(* ===================================================================== *)
(** * Step 4 and the map section *)
(* ===================================================================== *)

Section map_section_facts.

Context {num : Type} {num_eq : EqDecision num}.
Variable to_num : string -> option num.
Variable fromstring : string -> outcome ET.Element.
Variable remote : list requests.Request -> requests.Request -> outcome requests.Response.
Variable st_map_raises : pd.DataFrame num -> option exn.

(** The map section on a session that refers to a frame. *)
Lemma display_map_block_run (search_results : option (list record))
    (w : AppWorld (num:=num)) (l : loc) (df : pd.DataFrame num) :
  library_locations (session w) = Some l ->
  heap w !! l = Some df ->
  display_map_block to_num st_map_raises search_results w =
  if pd.empty df then (Return tt, w)
  else (Return tt, render_map_world to_num st_map_raises df (map_header search_results w)).
Proof.
  intros Hl Hdf. unfold display_map_block, bind at 1, get. cbv beta iota. rewrite Hl.
  unfold bind at 1. destruct w as [io0 h ui0 s]. simpl in Hdf.
  rewrite (deref_run _ _ _ _ l df Hdf). cbv beta iota.
  destruct (pd.empty df); [done|]. cbv beta iota delta [negb].
  unfold bind at 1, st_subheader at 1, emit at 1, modify at 1. cbv beta iota.
  unfold bind at 1, st_markdown at 1, emit at 1, modify at 1. cbv beta iota.
  rewrite (render_map_run to_num st_map_raises l _ df) by exact Hdf.
  do 2 f_equal. unfold map_header. simpl. by rewrite <- app_assoc.
Qed.

Lemma find_libraries_for_book_no_key isbn region page_no page_size (w : World) :
  find_libraries_for_book fromstring remote isbn "" region page_no page_size w =
  (Raise (ValueError "Narou API key is not configured."), w).
Proof. done. Qed.

(** The table step 4 leaves when both lookups return and the four frame
    steps go through. *)
Lemma library_search_guarded_world_located (NAROU_API_KEY : option string) (isbn : string)
    (w : AppWorld (num:=num)) (L1 L2 : list record) (io1 io2 : World)
    (d : pd.DataFrame num) :
  find_libraries_for_book fromstring remote isbn (default "" NAROU_API_KEY)
    "11" 1 50 (io w) = (Return L1, io1) ->
  find_libraries_for_book fromstring remote isbn (default "" NAROU_API_KEY)
    "31" 1 50 io1 = (Return L2, io2) ->
  located to_num (L1 ++ L2) = Return d ->
  pd.empty d = false ->
  library_search_guarded_world to_num fromstring remote NAROU_API_KEY isbn w =
  mkApp io2 (<[fresh (dom (heap w)) := d]> (heap w)) (ui w)
    (mkSession (selected_book_isbn (session w)) (Some (fresh (dom (heap w))))
       (error_message (session w)) (loading (session w))).
Proof.
  intros Hc1 Hc2 Hd Hempty. unfold library_search_guarded_world.
  destruct (truthy_opt NAROU_API_KEY) eqn:Hkey; cbv beta iota zeta delta [negb].
  2: { assert (default "" NAROU_API_KEY = "") as Hnone.
       { destruct NAROU_API_KEY as [k|]; [|done]. by apply truthy_false. }
       rewrite Hnone, find_libraries_for_book_no_key in Hc1. done. }
  rewrite Hc1, Hc2.
  pose proof (located_trace_located to_num (L1 ++ L2)) as Htrace. rewrite Hd in Htrace.
  destruct (L1 ++ L2)%list as [|r libraries] eqn:HL.
  { unfold located, coordinates_cleaned in Hd.
    rewrite coerced_absent in Hd by set_solver. done. }
  rewrite Htrace. simpl. by rewrite Hempty.
Qed.

(** X15. Step 4 and then the map section: when both lookups return and
    the table is not empty, step 4 asks for the rerun and shows nothing
    else, and the map section then shows the subheader, the line with the
    title of the selected book, and one map with every row of the table -
    one point per library that step 4 kept, with its latitude and
    longitude. *)
Theorem located_libraries_are_all_on_the_map (NAROU_API_KEY : option string)
    (search_results : option (list record))
    (w : AppWorld (num:=num)) (isbn : string) (L1 L2 : list record) (io1 io2 : World)
    (d points : pd.DataFrame num) :
  selected_book_isbn (session w) = Some isbn -> isbn <> "" ->
  library_locations (session w) = None ->
  loading (session w) = true ->
  find_libraries_for_book fromstring remote isbn (default "" NAROU_API_KEY)
    "11" 1 50 (io w) = (Return L1, io1) ->
  find_libraries_for_book fromstring remote isbn (default "" NAROU_API_KEY)
    "31" 1 50 io1 = (Return L2, io2) ->
  located to_num (L1 ++ L2) = Return d ->
  pd.empty d = false ->
  pd.select ["latitude"; "longitude"] d = Return points ->
  st_map_raises points = None ->
  let w' := (library_search_block to_num fromstring remote NAROU_API_KEY w).2 in
  ui (display_map_block to_num st_map_raises search_results w').2 =
  (ui w ++
     [StRerun;
      StSubheader "📍 소장 도서관 위치";
      StMarkdown
        ("**'" +:+ selected_book_title search_results (Some isbn)
         +:+ "'** 소장 도서관 지도 (검색 지역: 서울/경기)");
      StMap points])%list /\
  (fun ir : nat * gmap string (pd.cell num) =>
     (ir.1, pd.at_col ir.2 "latitude", pd.at_col ir.2 "longitude")) <$> pd.rows points =
  (fun ir : nat * gmap string (pd.cell num) =>
     (ir.1, pd.at_col ir.2 "latitude", pd.at_col ir.2 "longitude"))
    <$> located_rows to_num (L1 ++ L2).
Proof.
  intros Hsel Hisbn Hlib Hloading Hc1 Hc2 Hd Hempty Hpoints Hok w'. subst w'.
  rewrite (library_search_block_pending to_num fromstring remote NAROU_API_KEY w isbn)
    by done.
  rewrite (library_search_guarded_world_located NAROU_API_KEY isbn w L1 L2 io1 io2 d)
    by done.
  assert (Forall (fun ir => is_num (pd.at_col ir.2 "latitude") = true /\
                            is_num (pd.at_col ir.2 "longitude") = true) (pd.rows d))
    as Hrows.
  { rewrite (located_Return_rows to_num _ d Hd). apply located_rows_numeric. }
  simpl. erewrite display_map_block_run;
    [|reflexivity|simpl; apply lookup_insert_eq].
  rewrite Hempty. simpl.
  rewrite (render_map_world_clean to_num st_map_raises d points) by done.
  unfold map_header. simpl. rewrite Hsel.
  split; [by rewrite <- !app_assoc|].
  rewrite <- (located_Return_rows to_num _ d Hd).
  by apply select_coordinates.
Qed.

(** X16. Whenever step 4 has shown a warning or an error, the map section that
    follows shows nothing - no header, no map and no second message -
    whatever the search results are. *)
Theorem no_map_after_a_message (NAROU_API_KEY : option string)
    (search_results : option (list record))
    (w : AppWorld (num:=num)) (ev : ui_event (num:=num)) :
  let w' := (library_search_block to_num fromstring remote NAROU_API_KEY w).2 in
  ui w' = (ui w ++ [ev; StRerun])%list ->
  display_map_block to_num st_map_raises search_results w' = (Return tt, w').
Proof.
  intros w'. subst w'. rewrite library_search_block_world_run. simpl.
  unfold library_search_block_world.
  destruct (_ && _ && _).
  2: { intros Hui. apply (f_equal length) in Hui. rewrite length_app in Hui.
       simpl in Hui. lia. }
  destruct (library_search_guarded_world_cases to_num fromstring remote NAROU_API_KEY
              (default "" (selected_book_isbn (session w))) w)
    as [(io' & say & msg & _ & ->)|(io' & d & [[-> _]|(say & msg & _ & ->)])]; simpl.
  - intros _. erewrite display_map_block_run; [|reflexivity|simpl; apply lookup_insert_eq].
    done.
  - intros Hui. apply (f_equal length) in Hui. rewrite !length_app in Hui.
    simpl in Hui. lia.
  - intros _. erewrite display_map_block_run; [|reflexivity|simpl; apply lookup_insert_eq].
    done.
Qed.

End map_section_facts.

Lemma located_libraries_are_all_on_the_map_witness :
  let d := Scenario.the_frame
             (located Decimal.to_num (Sample.seoul_records ++ Sample.gyeonggi_records)) in
  let points := Scenario.the_frame (pd.select ["latitude"; "longitude"] d) in
  let w' := (library_search_block Decimal.to_num ET.fromstring
               (Sample.serve Sample.seoul_first_unlocated Sample.gyeonggi_located)
               (Some "key") (Sample.picked "9788966262281")).2 in
  ui (display_map_block Decimal.to_num (fun _ => None) (Some Scenario.results) w').2 =
  [StRerun;
   StSubheader "📍 소장 도서관 위치";
   StMarkdown "**'Effective Python'** 소장 도서관 지도 (검색 지역: 서울/경기)";
   StMap points] /\
  (fun ir : nat * gmap string (pd.cell (Z * nat)) =>
     (ir.1, pd.at_col ir.2 "latitude", pd.at_col ir.2 "longitude")) <$> pd.rows points =
  (fun ir : nat * gmap string (pd.cell (Z * nat)) =>
     (ir.1, pd.at_col ir.2 "latitude", pd.at_col ir.2 "longitude"))
    <$> located_rows Decimal.to_num (Sample.seoul_records ++ Sample.gyeonggi_records).
Proof.
  intros d points.
  apply (located_libraries_are_all_on_the_map Decimal.to_num ET.fromstring
           (Sample.serve Sample.seoul_first_unlocated Sample.gyeonggi_located)
           (fun _ => None) (Some "key") (Some Scenario.results)
           (Sample.picked "9788966262281") "9788966262281"
           Sample.seoul_records Sample.gyeonggi_records
           (mkWorld [] [libSrchByBook_request "9788966262281" "key" "11" 1 50])
           (mkWorld [] [libSrchByBook_request "9788966262281" "key" "11" 1 50;
                        libSrchByBook_request "9788966262281" "key" "31" 1 50])
           d points).
  - reflexivity.
  - discriminate.
  - reflexivity.
  - reflexivity.
  - vm_compute. reflexivity.
  - vm_compute. reflexivity.
  - vm_compute. reflexivity.
  - vm_compute. reflexivity.
  - vm_compute. reflexivity.
  - reflexivity.
Defined.

Lemma no_map_after_a_message_witness :
  let w' := (library_search_block Decimal.to_num ET.fromstring Scenario.down
               None (Sample.picked "9788966262281")).2 in
  display_map_block Decimal.to_num (fun _ => None) (Some Scenario.results) w' =
  (Return tt, w').
Proof.
  apply (no_map_after_a_message Decimal.to_num ET.fromstring Scenario.down (fun _ => None)
           None (Some Scenario.results) (Sample.picked "9788966262281")
           (StError "도서관 검색 중 오류 발생: 도서관 정보나루 API 키가 설정되지 않았습니다. .env 파일을 확인하세요.")).
  vm_compute. reflexivity.
Defined.

(* ===================================================================== *)
(** * The search for an object in the reply *)
(* ===================================================================== *)

Lemma occurs_app (c : ascii) (s t : string) :
  occurs c (s +:+ t) = occurs c s || occurs c t.
Proof.
  induction s as [|c' s IH]; [done|]. simpl.
  change (String c' s +:+ t) with (String c' (s +:+ t)). simpl.
  by rewrite IH, orb_assoc.
Qed.

Lemma from_first_brace_Some (s m : string) :
  re.from_first_brace s = Some m <->
  exists pre rest, s = pre +:+ String "{" rest /\ m = String "{" rest /\
                   occurs "{" pre = false.
Proof.
  revert m. induction s as [|c s IH]; intros m; simpl.
  - split; [done|]. intros (pre & rest & Hs & _). by destruct pre.
  - destruct (Ascii.eqb c "{") eqn:Hc.
    + apply Ascii.eqb_eq in Hc as ->. split.
      * intros [= <-]. by exists "", s.
      * intros (pre & rest & Hs & -> & Hpre). destruct pre as [|c' pre].
        -- by injection Hs as ->.
        -- injection Hs as <- _. done.
    + rewrite IH. split.
      * intros (pre & rest & -> & -> & Hpre). exists (String c pre), rest.
        split; [done|]. split; [done|]. simpl. by rewrite Hc.
      * intros (pre & rest & Hs & -> & Hpre). destruct pre as [|c' pre].
        -- injection Hs as -> _. by rewrite Ascii.eqb_refl in Hc.
        -- injection Hs as <- ->. exists pre, rest. simpl in Hpre.
           apply orb_false_iff in Hpre as [_ Hpre]. done.
Qed.

Lemma from_first_brace_None (s : string) :
  re.from_first_brace s = None <-> occurs "{" s = false.
Proof.
  induction s as [|c s IH]; [done|]. simpl.
  destruct (Ascii.eqb c "{"); [done|]. by rewrite IH.
Qed.

Lemma upto_last_brace_None (s : string) :
  re.upto_last_brace s = None <-> occurs "}" s = false.
Proof.
  induction s as [|c s IH]; [done|]. simpl.
  destruct (re.upto_last_brace s) as [t|].
  - split; [done|]. intros [_ Hs]%orb_false_iff. apply IH in Hs. done.
  - destruct (Ascii.eqb c "}"); [done|]. simpl. by rewrite <- IH.
Qed.

Lemma occurs_middle (c : ascii) (s t : string) : occurs c (s +:+ String c t) = true.
Proof. rewrite occurs_app. simpl. by rewrite Ascii.eqb_refl, orb_true_r. Qed.

Lemma upto_last_brace_Some (s m : string) :
  re.upto_last_brace s = Some m <->
  exists init post, s = init +:+ String "}" post /\ m = init +:+ "}" /\
                    occurs "}" post = false.
Proof.
  revert m. induction s as [|c s IH]; intros m; simpl.
  - split; [done|]. intros (init & post & Hs & _). by destruct init.
  - destruct (re.upto_last_brace s) as [t|] eqn:Hs.
    + destruct (proj1 (IH t) eq_refl) as (init & post & -> & -> & Hpost). split.
      * intros [= <-]. by exists (String c init), post.
      * intros (init' & post' & Heq & -> & Hpost'). f_equal.
        destruct init' as [|c' init'].
        -- injection Heq as -> Heq. rewrite <- Heq in Hpost'.
           by rewrite occurs_middle in Hpost'.
        -- injection Heq as <- Heq.
           assert (Some (init +:+ "}") = Some (init' +:+ "}")) as H'.
           { apply IH. by exists init', post'. }
           injection H' as H'. exact (f_equal (String c) H').
    + apply upto_last_brace_None in Hs. destruct (Ascii.eqb c "}") eqn:Hc.
      * apply Ascii.eqb_eq in Hc as ->. split.
        -- intros [= <-]. by exists "", s.
        -- intros (init & post & Heq & -> & Hpost). destruct init as [|c' init].
           ++ done.
           ++ injection Heq as <- ->. by rewrite occurs_middle in Hs.
      * split; [done|]. intros (init & post & Heq & -> & Hpost).
        destruct init as [|c' init].
        -- injection Heq as -> _. by rewrite Ascii.eqb_refl in Hc.
        -- injection Heq as <- ->. by rewrite occurs_middle in Hs.
Qed.

Lemma app_string_assoc (s t u : string) : (s +:+ t) +:+ u = s +:+ t +:+ u.
Proof. induction s as [|c s IH]; [done|]. exact (f_equal (String c) IH). Qed.

(** X17. What [re.search(r'\{.*\}', s, re.DOTALL)] finds: the part of [s] from
    its first opening brace to its last closing brace - the leftmost and
    then the longest substring that starts with the one and ends with the
    other - and nothing exactly when [s] has no such substring. *)
Theorem search_braces_spec (s : string) :
  match re.search_braces s with
  | Some group0 =>
      exists pre body post,
        s = pre +:+ group0 +:+ post /\
        group0 = "{" +:+ body +:+ "}" /\
        occurs "{" pre = false /\
        occurs "}" post = false
  | None =>
      forall pre body post, s <> pre +:+ "{" +:+ body +:+ "}" +:+ post
  end.
Proof.
  unfold re.search_braces.
  destruct (re.from_first_brace s) as [m|] eqn:Hfirst; simpl.
  - apply from_first_brace_Some in Hfirst as (pre & rest & -> & -> & Hpre).
    destruct (re.upto_last_brace (String "{" rest)) as [g|] eqn:Hlast.
    + apply upto_last_brace_Some in Hlast as (init & post & Heq & -> & Hpost).
      destruct init as [|c init]; [done|]. injection Heq as <- ->.
      exists pre, init, post. split; [|done].
      change (String "{" init +:+ "}") with (String "{" (init +:+ "}")).
      change (String "{" (init +:+ "}") +:+ post)
        with (String "{" ((init +:+ "}") +:+ post)).
      by rewrite app_string_assoc.
    + apply upto_last_brace_None in Hlast. intros pre' body post Heq.
      change ("{" +:+ body +:+ "}" +:+ post)
        with (String "{" (body +:+ String "}" post)) in Heq.
      assert (re.from_first_brace (pre' +:+ String "{" (body +:+ String "}" post)) =
              Some (String "{" rest)) as Hf.
      { rewrite <- Heq. apply from_first_brace_Some. by exists pre, rest. }
      clear Heq Hpre. revert Hf. induction pre' as [|c pre' IH]; simpl.
      * intros [= <-]. simpl in Hlast. by rewrite occurs_middle in Hlast.
      * destruct (Ascii.eqb c "{") eqn:Hc; [|exact IH].
        intros [= -> <-]. simpl in Hlast.
        rewrite occurs_app in Hlast. simpl in Hlast.
        rewrite occurs_middle in Hlast. by rewrite !orb_true_r in Hlast.
  - apply from_first_brace_None in Hfirst. intros pre body post ->.
    change ("{" +:+ body +:+ "}" +:+ post)
      with (String "{" (body +:+ String "}" post)) in Hfirst.
    by rewrite occurs_middle in Hfirst.
Qed.

(* ===================================================================== *)
(** * [openai_utils.get_search_terms_from_gpt] *)
(* ===================================================================== *)

(** A string with a substring between braces: the search finds the one
    from the first opening to the last closing brace. *)
Lemma search_braces_found (pre body post : string) :
  occurs "{" pre = false -> occurs "}" post = false ->
  re.search_braces (pre +:+ "{" +:+ body +:+ "}" +:+ post) = Some ("{" +:+ body +:+ "}").
Proof.
  intros Hpre Hpost. unfold re.search_braces.
  change ("{" +:+ body +:+ "}" +:+ post) with (String "{" (body +:+ String "}" post)).
  assert (re.from_first_brace (pre +:+ String "{" (body +:+ String "}" post)) =
          Some (String "{" (body +:+ String "}" post))) as ->.
  { apply from_first_brace_Some. by exists pre, (body +:+ String "}" post). }
  change (re.upto_last_brace (String "{" (body +:+ String "}" post)) =
          Some ("{" +:+ body +:+ "}")).
  apply upto_last_brace_Some. exists (String "{" body), post. done.
Qed.

Section openai_utils_facts.

Context {float : Type}.
Variable loads : string -> outcome (json.value float).
Variable create :
  list openai.ChatRequest -> openai.ChatRequest -> outcome (list (option string)).

(** The world after the call to the API has been made. *)
Lemma get_search_terms_from_gpt_run (user_query api_key : string) (w : GptWorld) :
  api_key <> "" ->
  let q := chat_request api_key user_query in
  let w1 := mkGpt (console w) (chat_log w ++ [q]) (Some api_key) in
  get_search_terms_from_gpt loads create user_query api_key w =
  match and_then (create (chat_log w) q) first_content with
  | Raise e => on_exception loads Unbound e w1
  | Return analysis_result =>
      match and_then (loads_content loads analysis_result) validated with
      | Return terms => (Return terms, w1)
      | Raise e => on_exception loads (Bound analysis_result) e w1
      end
  end.
Proof.
  intros Hkey%truthy_true q w1. unfold get_search_terms_from_gpt. rewrite Hkey.
  cbv beta iota delta [negb]. unfold bind at 1, set_openai_api_key at 1, modify at 1.
  cbv beta iota. unfold bind at 1, chat_completions_create at 1. simpl chat_log.
  simpl console. simpl openai_api_key. fold q. fold w1.
  destruct (create (chat_log w) q) as [choices|e]; simpl; [|done].
  unfold lift at 1. destruct (first_content choices) as [content|e]; simpl; [|done].
  unfold try_except, bind at 1, lift at 1.
  destruct (loads_content loads content) as [v|e]; simpl; [|done].
  unfold lift. by destruct (validated v).
Qed.

Lemma on_exception_other (analysis_result : local) (e : exn) (w : GptWorld) :
  json.is_JSONDecodeError e = false ->
  on_exception loads analysis_result e w =
  (Return empty_terms,
   mkGpt (mkWorld (stdout (console w) ++
                     ["An error occurred during OpenAI API call: " +:+ str e])
            (net_log (console w)))
     (chat_log w) (openai_api_key w)).
Proof. intros He. unfold on_exception. by rewrite He. Qed.

(** What the handlers do to the log of calls, to [openai.api_key] and to
    the network: nothing. *)
Lemma on_exception_frame (analysis_result : local) (e : exn) (w : GptWorld) :
  let w' := (on_exception loads analysis_result e w).2 in
  chat_log w' = chat_log w /\ openai_api_key w' = openai_api_key w /\
  net_log (console w') = net_log (console w).
Proof.
  unfold on_exception. destruct (json.is_JSONDecodeError e); [|done].
  destruct analysis_result as [|[text|]]; [done| |done]. simpl.
  unfold bind at 1, gpt_print at 1, modify. cbv beta iota.
  destruct (re.search_braces text) as [g|]; [|done].
  unfold try_except, bind, lift. destruct (loads g) as [v|e1]; simpl.
  - destruct (validated v) as [t|e1]; [done|]. simpl.
    by destruct (json.is_JSONDecodeError e1).
  - by destruct (json.is_JSONDecodeError e1).
Qed.

Lemma strip_ends (s : string) :
  starts_with_space (strip s) = false /\ ends_with_space (strip s) = false.
Proof. by destruct (strip_spec s) as (pre & post & _ & _ & _ & ? & ?). Qed.

Lemma validated_stripped (v : json.value float) (t : Terms float) :
  validated v = Return t ->
  starts_with_space (narou_query t) = false /\ ends_with_space (narou_query t) = false.
Proof.
  unfold validated. destruct v; try done. simpl. intros [= <-]. simpl.
  apply strip_ends.
Qed.

(** What [validated] makes of a dict. *)
Lemma validated_Dict (d : gmap string (json.value float)) :
  validated (json.Dict d) =
  Return (mkTerms
            (match d !! "keywords" with Some (json.List items) => items | _ => [] end)
            (match d !! "titles" with Some (json.List items) => items | _ => [] end)
            (strip (match d !! "narou_query" with Some (json.Str s) => s | _ => "" end))).
Proof.
  unfold validated. simpl.
  destruct (d !! "keywords") as [[]|], (d !! "titles") as [[]|],
    (d !! "narou_query") as [[]|]; done.
Qed.

(** A Korean query is returned whole, without the whitespace around
    it. *)
Example validated_korean_query :
  validated (json.Dict (float:=float) {[ "narou_query" := json.Str " 인공지능 책 " ]}) =
  Return (mkTerms [] [] "인공지능 책").
Proof. vm_compute. reflexivity. Qed.

Lemma on_exception_stripped (analysis_result : local) (e : exn) (w : GptWorld)
    (t : Terms float) :
  (on_exception loads analysis_result e w).1 = Return t ->
  starts_with_space (narou_query t) = false /\ ends_with_space (narou_query t) = false.
Proof.
  unfold on_exception. destruct (json.is_JSONDecodeError e); [|by intros [= <-]].
  destruct analysis_result as [|[text|]]; [done| |done]. simpl.
  unfold bind at 1, gpt_print at 1, modify. cbv beta iota.
  destruct (re.search_braces text) as [g|]; [|by intros [= <-]].
  unfold try_except, bind, lift. destruct (loads g) as [v|e1]; simpl.
  - destruct (validated v) as [t'|e1] eqn:Hv; simpl.
    + intros [= <-]. by apply (validated_stripped v).
    + destruct (json.is_JSONDecodeError e1); [by intros [= <-]|done].
  - destruct (json.is_JSONDecodeError e1); [by intros [= <-]|done].
Qed.

(** X18. The function calls the API at most once. Without a key it raises
    before anything else happens: no call is made, nothing is printed and
    [openai.api_key] is left as it was. With a key it makes exactly one
    call, with the query inside the prompt, whatever the reply - the
    fallback parses again but does not ask again - assigns
    [openai.api_key] and sends nothing to the catalog. *)
Theorem gpt_calls_the_api_at_most_once (user_query api_key : string) (w : GptWorld) :
  let after := get_search_terms_from_gpt loads create user_query api_key w in
  if decide (api_key = "") then
    after = (Raise (ValueError "OpenAI API key is not configured."), w)
  else
    chat_log after.2 = (chat_log w ++ [chat_request api_key user_query])%list /\
    openai_api_key after.2 = Some api_key /\
    net_log (console after.2) = net_log (console w).
Proof.
  intros after. subst after. destruct (decide (api_key = "")) as [->|Hkey]; [done|].
  rewrite get_search_terms_from_gpt_run by done.
  destruct (and_then _ first_content) as [content|e].
  - destruct (and_then _ validated) as [t|e]; [done|].
    by destruct (on_exception_frame (Bound content) e
                   (mkGpt (console w) (chat_log w ++ [chat_request api_key user_query])
                      (Some api_key))) as (-> & -> & ->).
  - by destruct (on_exception_frame Unbound e
                   (mkGpt (console w) (chat_log w ++ [chat_request api_key user_query])
                      (Some api_key))) as (-> & -> & ->).
Qed.

(** X19. The refined query the function returns never begins or ends with
    whitespace, on whichever path it was made. *)
Theorem gpt_query_is_stripped (user_query api_key : string) (w : GptWorld)
    (t : Terms float) :
  (get_search_terms_from_gpt loads create user_query api_key w).1 = Return t ->
  starts_with_space (narou_query t) = false /\ ends_with_space (narou_query t) = false.
Proof.
  destruct (decide (api_key = "")) as [->|Hkey]; [done|].
  rewrite get_search_terms_from_gpt_run by done.
  destruct (and_then _ first_content) as [content|e].
  - destruct (and_then _ validated) as [t'|e] eqn:Hmain.
    + intros [= <-]. destruct (loads_content loads content) as [v|]; [|done].
      by apply (validated_stripped v).
    + apply on_exception_stripped.
  - apply on_exception_stripped.
Qed.

(** X20. A failure of the [try] body that is not a [JSONDecodeError] - the
    call raises, the response has no choice, the first choice has no
    content, the content is JSON but not an object - gives the empty
    terms and one printed line; the function does not raise. *)
Theorem gpt_failure_gives_empty_terms (user_query api_key : string) (w : GptWorld)
    (e : exn) :
  api_key <> "" ->
  and_then (and_then (create (chat_log w) (chat_request api_key user_query)) first_content)
    (fun analysis_result => and_then (loads_content loads analysis_result) validated) =
  Raise e ->
  json.is_JSONDecodeError e = false ->
  let after := get_search_terms_from_gpt loads create user_query api_key w in
  after.1 = Return empty_terms /\
  stdout (console after.2) =
  (stdout (console w) ++ ["An error occurred during OpenAI API call: " +:+ str e])%list.
Proof.
  intros Hkey Hbody He after. subst after.
  rewrite get_search_terms_from_gpt_run by done.
  destruct (and_then _ first_content) as [content|e0]; simpl in Hbody.
  - rewrite Hbody. by rewrite on_exception_other.
  - injection Hbody as ->. by rewrite on_exception_other.
Qed.

(** X21. When the content of the first choice parses to an object, the terms
    are read off that object: an entry of the wrong type counts as
    missing, the query is stripped, and nothing is printed. The other
    choices are not looked at. *)
Theorem gpt_terms_of_parsed_object (user_query api_key text : string) (w : GptWorld)
    (others : list (option string)) (d : gmap string (json.value float)) :
  api_key <> "" ->
  create (chat_log w) (chat_request api_key user_query) = Return (Some text :: others) ->
  loads text = Return (json.Dict d) ->
  let after := get_search_terms_from_gpt loads create user_query api_key w in
  after.1 =
  Return (mkTerms
            (match d !! "keywords" with Some (json.List items) => items | _ => [] end)
            (match d !! "titles" with Some (json.List items) => items | _ => [] end)
            (strip (match d !! "narou_query" with Some (json.Str s) => s | _ => "" end)))
  /\ console after.2 = console w.
Proof.
  intros Hkey Hcreate Hloads after. subst after.
  rewrite get_search_terms_from_gpt_run by done. rewrite Hcreate. simpl.
  rewrite Hloads. simpl and_then. by rewrite validated_Dict.
Qed.

(** X22. The fallback: when the content does not parse but holds an object
    between other text, the terms are those of the text from the first
    opening brace to the last closing brace. *)
Theorem gpt_fallback_recovers_object (user_query api_key : string) (w : GptWorld)
    (others : list (option string)) (pre body post : string) (e : exn)
    (d : gmap string (json.value float)) :
  api_key <> "" ->
  let text := pre +:+ "{" +:+ body +:+ "}" +:+ post in
  create (chat_log w) (chat_request api_key user_query) = Return (Some text :: others) ->
  loads text = Raise e -> json.is_JSONDecodeError e = true ->
  occurs "{" pre = false -> occurs "}" post = false ->
  loads ("{" +:+ body +:+ "}") = Return (json.Dict d) ->
  let after := get_search_terms_from_gpt loads create user_query api_key w in
  after.1 = validated (json.Dict d) /\
  stdout (console after.2) =
  (stdout (console w) ++ ["Error: Failed to decode JSON from GPT response: " +:+ text])%list.
Proof.
  intros Hkey text Hcreate Hloads He Hpre Hpost Hobject after. subst after.
  rewrite get_search_terms_from_gpt_run by done. rewrite Hcreate. simpl.
  rewrite Hloads. simpl and_then. unfold on_exception. rewrite He. simpl.
  unfold bind at 1, gpt_print at 1, modify. cbv beta iota.
  unfold text. rewrite search_braces_found by done.
  unfold try_except, bind, lift. rewrite Hobject. simpl.
  split; reflexivity.
Qed.

(** The outcome of the [JSONDecodeError] handler on a content that is a
    string. *)
Lemma on_JSONDecodeError_text (text : string) (w : GptWorld) :
  (on_JSONDecodeError loads (Bound (Some text)) w).1 =
  match re.search_braces text with
  | Some group0 =>
      match and_then (loads group0) validated with
      | Return terms => Return terms
      | Raise e => if json.is_JSONDecodeError e then Return empty_terms else Raise e
      end
  | None => Return empty_terms
  end.
Proof.
  simpl. unfold bind at 1, gpt_print at 1, modify. cbv beta iota.
  destruct (re.search_braces text) as [g|]; [|done].
  unfold try_except, bind, lift. destruct (loads g) as [v|e]; simpl.
  - destruct (validated v) as [t|e]; [done|]. simpl.
    by destruct (json.is_JSONDecodeError e).
  - by destruct (json.is_JSONDecodeError e).
Qed.

(** A [JSONDecodeError] of the main parse comes from [json.loads] on a
    content that is a string. *)
Lemma main_parse_JSONDecodeError (content : option string) (e : exn) :
  and_then (loads_content loads content) validated = Raise e ->
  json.is_JSONDecodeError e = true ->
  exists text, content = Some text /\ loads text = Raise e.
Proof.
  destruct content as [text|]; simpl.
  - destruct (loads text) as [v|e1] eqn:Hl; simpl.
    + unfold validated. destruct v; simpl; try done; by intros [= <-].
    + intros [= ->] _. by exists text.
  - by intros [= <-].
Qed.

(** X23. With a key, the function raises in two cases only, both inside the
    handler of [JSONDecodeError]: when that exception comes from the call
    itself, before [analysis_result] is assigned, and when the text
    between the braces makes [json.loads] or the [get]s raise something
    else than a [JSONDecodeError]. *)
Theorem gpt_raises_only_in_decode_handler (user_query api_key : string) (w : GptWorld)
    (e : exn) :
  api_key <> "" ->
  let call :=
    and_then (create (chat_log w) (chat_request api_key user_query)) first_content in
  (get_search_terms_from_gpt loads create user_query api_key w).1 = Raise e <->
  (exists e0,
      call = Raise e0 /\ json.is_JSONDecodeError e0 = true /\
      e = OtherException "UnboundLocalError"
            "cannot access local variable 'analysis_result' where it is not associated with a value")
  \/
  (exists text e0 group0,
      call = Return (Some text) /\
      loads text = Raise e0 /\ json.is_JSONDecodeError e0 = true /\
      re.search_braces text = Some group0 /\
      and_then (loads group0) validated = Raise e /\
      json.is_JSONDecodeError e = false).
Proof.
  intros Hkey call. subst call. rewrite get_search_terms_from_gpt_run by done.
  destruct (and_then _ first_content) as [content|e0].
  - destruct (and_then (loads_content loads content) validated) as [t|e0] eqn:Hmain.
    + split; [done|]. intros [(e0 & [=] & _)|(text & e0 & g & [= ->] & Hl & _)].
      simpl in Hmain. by rewrite Hl in Hmain.
    + destruct (json.is_JSONDecodeError e0) eqn:He0.
      * destruct (main_parse_JSONDecodeError content e0 Hmain He0) as (text & -> & Hl).
        unfold on_exception. rewrite He0, on_JSONDecodeError_text.
        destruct (re.search_braces text) as [g|] eqn:Hg.
        -- destruct (and_then (loads g) validated) as [t|e1] eqn:Hinner.
           ++ split; [done|].
              intros [(? & [=] & _)|(text' & e' & g' & [= <-] & _ & _ & Hg' & Hr & _)].
              rewrite Hg in Hg'. injection Hg' as <-. by rewrite Hinner in Hr.
           ++ destruct (json.is_JSONDecodeError e1) eqn:He1.
              ** split; [done|].
                 intros [(? & [=] & _)|(text' & e' & g' & [= <-] & _ & _ & Hg' & Hr & He)].
                 rewrite Hg in Hg'. injection Hg' as <-. rewrite Hinner in Hr.
                 injection Hr as <-. congruence.
              ** split.
                 --- intros [= <-]. right. by exists text, e0, g.
                 --- intros [(? & [=] & _)|(text' & e' & g' & [= <-] & _ & _ & Hg' & Hr & He)].
                     rewrite Hg in Hg'. injection Hg' as <-. rewrite Hinner in Hr.
                     by injection Hr as <-.
        -- split; [done|].
           intros [(? & [=] & _)|(text' & e' & g' & [= <-] & _ & _ & Hg' & _)].
           congruence.
      * rewrite on_exception_other by done. split; [done|].
        intros [(? & [=] & _)|(text & e1 & g & [= ->] & Hl & He1 & _)].
        simpl in Hmain. rewrite Hl in Hmain. injection Hmain as ->. congruence.
  - destruct (json.is_JSONDecodeError e0) eqn:He0.
    + unfold on_exception. rewrite He0. simpl. split.
      * intros [= <-]. left. by exists e0.
      * intros [(? & _ & _ & ->)|(? & ? & ? & [=] & _)]. done.
    + rewrite on_exception_other by done. split; [done|].
      intros [(? & [= <-] & ? & _)|(? & ? & ? & [=] & _)]. congruence.
Qed.

End openai_utils_facts.

Lemma gpt_query_is_stripped_witness :
  starts_with_space "python" = false /\ ends_with_space "python" = false.
Proof.
  apply (gpt_query_is_stripped Scenario.loads (Scenario.replies Scenario.object_text)
           "a book about python" "sk-key" Scenario.fresh_gpt
           (mkTerms [json.Str "python"] [] "python")).
  vm_compute. reflexivity.
Defined.

Lemma gpt_failure_gives_empty_terms_witness :
  let after := get_search_terms_from_gpt Scenario.loads
                 (Scenario.fails (OtherException "APIConnectionError" "Connection error."))
                 "a book about python" "sk-key" Scenario.fresh_gpt in
  after.1 = Return empty_terms /\
  stdout (console after.2) =
  ["An error occurred during OpenAI API call: Connection error."].
Proof.
  apply (gpt_failure_gives_empty_terms Scenario.loads
           (Scenario.fails (OtherException "APIConnectionError" "Connection error."))
           "a book about python" "sk-key" Scenario.fresh_gpt
           (OtherException "APIConnectionError" "Connection error.")).
  - discriminate.
  - reflexivity.
  - reflexivity.
Defined.

Lemma gpt_terms_of_parsed_object_witness :
  let after := get_search_terms_from_gpt Scenario.loads
                 (Scenario.replies Scenario.object_text)
                 "a book about python" "sk-key" Scenario.fresh_gpt in
  after.1 = Return (mkTerms [json.Str "python"] [] "python") /\
  console after.2 = mkWorld [] [].
Proof.
  apply (gpt_terms_of_parsed_object Scenario.loads (Scenario.replies Scenario.object_text)
           "a book about python" "sk-key" Scenario.object_text Scenario.fresh_gpt []
           Scenario.object_fields).
  - discriminate.
  - reflexivity.
  - vm_compute. reflexivity.
Defined.

Lemma gpt_fallback_recovers_object_witness :
  let after := get_search_terms_from_gpt Scenario.loads
                 (Scenario.replies Scenario.wrapped_text)
                 "a book about python" "sk-key" Scenario.fresh_gpt in
  after.1 = Return (mkTerms [json.Str "python"] [] "python") /\
  stdout (console after.2) =
  ["Error: Failed to decode JSON from GPT response: " +:+ Scenario.wrapped_text].
Proof.
  apply (gpt_fallback_recovers_object Scenario.loads
           (Scenario.replies Scenario.wrapped_text)
           "a book about python" "sk-key" Scenario.fresh_gpt []
           "Sure! " Scenario.object_body " Hope this helps."
           (OtherException "JSONDecodeError" "Expecting value: line 1 column 1 (char 0)")
           Scenario.object_fields).
  - discriminate.
  - vm_compute. reflexivity.
  - vm_compute. reflexivity.
  - reflexivity.
  - reflexivity.
  - reflexivity.
  - vm_compute. reflexivity.
Defined.

Lemma gpt_raises_only_in_decode_handler_witness :
  (get_search_terms_from_gpt Scenario.loads
     (Scenario.fails (OtherException "JSONDecodeError" "Expecting value"))
     "a book about python" "sk-key" Scenario.fresh_gpt).1 =
  Raise (OtherException "UnboundLocalError"
           "cannot access local variable 'analysis_result' where it is not associated with a value").
Proof.
  apply (gpt_raises_only_in_decode_handler Scenario.loads
           (Scenario.fails (OtherException "JSONDecodeError" "Expecting value"))
           "a book about python" "sk-key" Scenario.fresh_gpt).
  - discriminate.
  - left. exists (OtherException "JSONDecodeError" "Expecting value"). done.
Defined.

(* ===================================================================== *)
(** * The submit block of [app.py] *)
(* ===================================================================== *)

Section submit_facts.

Context {float : Type}.
Variable float_truthy : float -> bool.
Variable repr : json.value float -> string.
Variable loads : string -> outcome (json.value float).
Variable create :
  list openai.ChatRequest -> openai.ChatRequest -> outcome (list (option string)).
Variable fromstring : string -> outcome ET.Element.
Variable remote : list requests.Request -> requests.Request -> outcome requests.Response.
Variable search_books_other : json.value float -> string -> M World (list record).

(** [get_search_terms_from_gpt] sends nothing to the catalog. *)
Lemma get_search_terms_from_gpt_net_log (user_query api_key : string) (g : GptWorld) :
  net_log (console (get_search_terms_from_gpt loads create user_query api_key g).2) =
  net_log (console g).
Proof.
  destruct (decide (api_key = "")) as [->|Hkey]; [done|].
  rewrite get_search_terms_from_gpt_run by done.
  destruct (and_then _ first_content) as [content|e].
  - destruct (and_then _ validated) as [t|e]; [done|].
    by destruct (on_exception_frame loads (Bound content) e
                   (mkGpt (console g) (chat_log g ++ [chat_request api_key user_query])
                      (Some api_key))) as (_ & _ & ->).
  - by destruct (on_exception_frame loads Unbound e
                   (mkGpt (console g) (chat_log g ++ [chat_request api_key user_query])
                      (Some api_key))) as (_ & _ & ->).
Qed.

(** Steps 1 and 2 as a function of what the analysis returns. *)
Lemma analysis_step_run (OPENAI_API_KEY : option string) (user_input : string)
    (w : SubmitWorld) :
  analysis_step float_truthy repr loads create OPENAI_API_KEY user_input w =
  if negb (truthy_opt OPENAI_API_KEY) then
    (Return json.Null,
     analysis_failed
       (ValueError "OpenAI API 키가 설정되지 않았습니다. .env 파일을 확인하세요.") (gpt w) w)
  else
    match get_search_terms_from_gpt loads create user_input (default "" OPENAI_API_KEY)
            (gpt w) with
    | (Raise e, g) => (Return json.Null, analysis_failed e g w)
    | (Return gpt_analysis, g) =>
        match query_of float_truthy gpt_analysis with
        | Raise e => (Return json.Null, analysis_failed e g w)
        | Return narou_query =>
            if Pyvalue.truthy float_truthy narou_query then
              (Return narou_query,
               analysis_done
                 (StInfo ("GPT 분석 결과: 검색어='" +:+ Pyvalue.format repr narou_query +:+ "'"))
                 g w)
            else
              (Return (json.Str user_input),
               analysis_done
                 (StWarningNotice
                    "GPT 분석에서 검색어를 추출하지 못했습니다. 입력값을 직접 사용합니다.")
                 g w)
        end
    end.
Proof.
  unfold analysis_step, try_except. unfold bind at 1.
  destruct (truthy_opt OPENAI_API_KEY); cbv beta iota delta [negb]; [|by destruct w].
  unfold ret at 1. cbv beta iota. unfold bind at 1, call_gpt at 1.
  destruct (get_search_terms_from_gpt _ _ _ _ _) as [[t|e] g]; [|done].
  unfold bind at 1, lift at 1. destruct (query_of float_truthy t) as [q|e]; [|done].
  by destruct (Pyvalue.truthy float_truthy q).
Qed.

(** Step 3 as a function of what the search returns. *)
Lemma book_search_step_run (NAROU_API_KEY : option string) (submit_button : bool)
    (narou_query : json.value float) (w : SubmitWorld) :
  book_search_step float_truthy fromstring remote search_books_other
    NAROU_API_KEY submit_button narou_query w =
  (Return tt,
   if Pyvalue.truthy float_truthy narou_query
      && negb (truthy_opt (error_message (state w))) then
     if negb (truthy_opt NAROU_API_KEY) then
       reported
         (StErrorNotice
            "도서 검색 중 오류 발생: 도서관 정보나루 API 키가 설정되지 않았습니다. .env 파일을 확인하세요.")
         (console (gpt w)) w
     else
       match search_books_value fromstring remote search_books_other narou_query
               (default "" NAROU_API_KEY) (console (gpt w)) with
       | (Return (b :: bs), io') =>
           mkSubmit (mkGpt io' (chat_log (gpt w)) (openai_api_key (gpt w)))
             (notices w) (search_query w) (Some (b :: bs)) (state w)
       | (Return [], io') =>
           reported (StWarningNotice "검색 결과가 없습니다. 다른 키워드로 시도해보세요.") io' w
       | (Raise e, io') =>
           reported (StErrorNotice ("도서 검색 중 오류 발생: " +:+ str e)) io' w
       end
   else if negb (truthy_opt (error_message (state w)))
           && negb (Pyvalue.truthy float_truthy narou_query)
           && submit_button then
     reported (StWarningNotice "GPT 분석에서 유효한 검색어를 추출하지 못했습니다.")
       (console (gpt w)) w
   else w).
Proof.
  unfold book_search_step. unfold bind at 1, get at 1. cbv beta iota.
  destruct (Pyvalue.truthy float_truthy narou_query
            && negb (truthy_opt (error_message (state w)))).
  - unfold try_except. unfold bind at 1.
    destruct (truthy_opt NAROU_API_KEY); cbv beta iota delta [negb].
    2: { by destruct w as [[] ? ? ? ?]. }
    unfold ret at 1. cbv beta iota. unfold bind at 1, call_narou at 1.
    destruct (search_books_value _ _ _ _ _ _) as [[[|b bs]|e] io']; done.
  - destruct (negb (truthy_opt (error_message (state w)))
              && negb (Pyvalue.truthy float_truthy narou_query) && submit_button);
      [|done].
    by destruct w as [[] ? ? ? ?].
Qed.

(** The submit block, when it runs, in terms of its two steps. *)
Lemma submit_block_run (OPENAI_API_KEY NAROU_API_KEY : option string)
    (user_input : string) (w : SubmitWorld) :
  user_input <> "" ->
  let w0 := mkSubmit (gpt w) (notices w) user_input None (mkSession None None None true) in
  let a := analysis_step float_truthy repr loads create OPENAI_API_KEY user_input w0 in
  exists narou_query w1 w2,
    a = (Return narou_query, w1) /\
    book_search_step float_truthy fromstring remote search_books_other
      NAROU_API_KEY true narou_query w1 = (Return tt, w2) /\
    submit_block float_truthy repr loads create fromstring remote search_books_other
      OPENAI_API_KEY NAROU_API_KEY true user_input w =
    (Return tt,
     mkSubmit (gpt w2) (notices w2) (search_query w2) (search_results w2)
       (mkSession (selected_book_isbn (state w2)) (library_locations (state w2))
          (error_message (state w2)) false)).
Proof.
  intros Hinput%truthy_true w0 a. subst a.
  unfold submit_block. rewrite Hinput. cbv beta iota delta [andb].
  unfold bind at 1, modify at 1. cbv beta iota. fold w0.
  unfold bind at 1.
  assert (exists q w1,
             analysis_step float_truthy repr loads create OPENAI_API_KEY user_input w0 =
             (Return q, w1)) as (q & w1 & Ha).
  { rewrite analysis_step_run. destruct (negb _); [eauto|].
    destruct (get_search_terms_from_gpt _ _ _ _ _) as [[t|e] g]; [|eauto].
    destruct (query_of float_truthy t) as [v|e]; [|eauto].
    destruct (Pyvalue.truthy float_truthy v); eauto. }
  rewrite Ha. exists q, w1. eexists. split; [done|].
  split; [apply book_search_step_run|].
  unfold bind at 1. rewrite book_search_step_run. done.
Qed.

(** The two ways steps 1 and 2 end: with an error recorded and shown and
    no query, or with one notice and a query that is true or is the
    text of the form. Nothing is sent to the catalog. *)
Lemma analysis_step_cases (OPENAI_API_KEY : option string) (user_input : string)
    (w : SubmitWorld) :
  let a := analysis_step float_truthy repr loads create OPENAI_API_KEY user_input w in
  (exists e g,
      a = (Return json.Null, analysis_failed e g w) /\
      net_log (console g) = net_log (console (gpt w)))
  \/
  (exists narou_query n g,
      a = (Return narou_query, analysis_done n g w) /\
      net_log (console g) = net_log (console (gpt w)) /\
      (Pyvalue.truthy float_truthy narou_query = true \/ narou_query = json.Str user_input) /\
      ((exists msg, n = StInfo msg) \/
       n = StWarningNotice
             "GPT 분석에서 검색어를 추출하지 못했습니다. 입력값을 직접 사용합니다.")).
Proof.
  intros a. subst a. rewrite analysis_step_run.
  destruct (negb _); [left; eauto|].
  pose proof (get_search_terms_from_gpt_net_log user_input (default "" OPENAI_API_KEY)
                (gpt w)) as Hnet.
  destruct (get_search_terms_from_gpt _ _ _ _ _) as [[t|e] g]; [|left; eauto].
  destruct (query_of float_truthy t) as [v|e]; [|left; eauto].
  destruct (Pyvalue.truthy float_truthy v) eqn:Hv; right.
  - exists v. eexists _, g. split; [done|]. split; [done|]. split; [by left|]. left. eauto.
  - eexists _, _, g. split; [done|]. split; [done|]. split; [by right|]. by right.
Qed.

(** X24. The branch of step 3 that reports that the analysis gave no valid
    query (lines 201-203) is never taken when the form is submitted:
    after steps 1 and 2 either an error is recorded or the query is true,
    the text of the form - which is not empty - being the last resort. *)
Theorem no_valid_query_is_never_reported (OPENAI_API_KEY NAROU_API_KEY : option string)
    (user_input : string) (w : SubmitWorld) :
  user_input <> "" ->
  let w' := (submit_block float_truthy repr loads create fromstring remote
               search_books_other OPENAI_API_KEY NAROU_API_KEY true user_input w).2 in
  error_message (state w') <> Some no_valid_query /\
  exists added,
    notices w' = (notices w ++ added)%list /\
    StWarningNotice no_valid_query ∉ added.
Proof.
  intros Hinput w'. subst w'.
  destruct (submit_block_run OPENAI_API_KEY NAROU_API_KEY user_input w Hinput)
    as (q & w1 & w2 & Ha & Hb & ->).
  simpl. rewrite book_search_step_run in Hb. injection Hb as <-.
  destruct (analysis_step_cases OPENAI_API_KEY user_input
              (mkSubmit (gpt w) (notices w) user_input None (mkSession None None None true)))
    as [(e & g & Ha' & _)|(q' & n & g & Ha' & _ & Hq & Hn)];
    rewrite Ha' in Ha; injection Ha as <- <-.
  - (* an error is recorded: step 3 does nothing *)
    change (Pyvalue.truthy float_truthy json.Null) with false. simpl.
    split; [discriminate|]. eexists. split; [done|].
    intros Hin. apply list_elem_of_singleton in Hin. discriminate.
  - assert (Pyvalue.truthy float_truthy q' = true) as Htruthy.
    { destruct Hq as [Hq| ->]; [done|]. simpl. by apply truthy_true. }
    rewrite Htruthy. simpl.
    assert (n <> StWarningNotice no_valid_query) as Hn'.
    { destruct Hn as [[msg ->]| ->]; discriminate. }
    destruct (truthy_opt NAROU_API_KEY); simpl.
    + destruct (search_books_value _ _ _ _ _ _) as [[[|b bs]|e] io']; simpl.
      * split; [discriminate|]. eexists [n; _]. rewrite <- app_assoc.
        split; [done|]. intros Hin. rewrite !elem_of_cons in Hin.
        destruct Hin as [|[|Hin]]; [done|discriminate|by apply elem_of_nil in Hin].
      * split; [discriminate|]. exists [n]. split; [done|].
        intros Hin. apply list_elem_of_singleton in Hin. done.
      * split; [discriminate|]. eexists [n; _]. rewrite <- app_assoc.
        split; [done|]. intros Hin. rewrite !elem_of_cons in Hin.
        destruct Hin as [|[|Hin]]; [done|discriminate|by apply elem_of_nil in Hin].
    + split; [discriminate|]. eexists [n; _]. rewrite <- app_assoc.
      split; [done|]. intros Hin. rewrite !elem_of_cons in Hin.
      destruct Hin as [|[|Hin]]; [done|discriminate|by apply elem_of_nil in Hin].
Qed.

(** X25. A submitted search ends normally, with the loading flag off, the text
    of the form as the search query and the selection and the table of
    libraries reset: step 4, which follows in the script, finds nothing
    pending and does nothing. *)
Theorem submit_resets_the_selection
    {num : Type} {num_eq : EqDecision num} (to_num : string -> option num)
    (OPENAI_API_KEY NAROU_API_KEY : option string) (user_input : string)
    (w : SubmitWorld) :
  user_input <> "" ->
  let after := submit_block float_truthy repr loads create fromstring remote
                 search_books_other OPENAI_API_KEY NAROU_API_KEY true user_input w in
  after.1 = Return tt /\
  search_query after.2 = user_input /\
  selected_book_isbn (state after.2) = None /\
  library_locations (state after.2) = None /\
  loading (state after.2) = false /\
  forall (io0 : World) (h : gmap loc (pd.DataFrame num)) (ui0 : list ui_event),
    library_search_block to_num fromstring remote NAROU_API_KEY
      (mkApp io0 h ui0 (state after.2)) =
    (Return tt, mkApp io0 h ui0 (state after.2)).
Proof.
  intros Hinput after. subst after.
  destruct (submit_block_run OPENAI_API_KEY NAROU_API_KEY user_input w Hinput)
    as (q & w1 & w2 & Ha & Hb & ->).
  simpl. rewrite book_search_step_run in Hb. injection Hb as <-.
  assert (search_query w1 = user_input /\ selected_book_isbn (state w1) = None /\
          library_locations (state w1) = None) as (Hq & Hsel & Hlib).
  { destruct (analysis_step_cases OPENAI_API_KEY user_input
                (mkSubmit (gpt w) (notices w) user_input None
                   (mkSession None None None true)))
      as [(e & g & Ha' & _)|(q' & n & g & Ha' & _)];
      rewrite Ha' in Ha; by injection Ha as <- <-. }
  assert (forall w2 : SubmitWorld,
             search_query w2 = search_query w1 ->
             selected_book_isbn (state w2) = selected_book_isbn (state w1) ->
             library_locations (state w2) = library_locations (state w1) ->
             search_query w2 = user_input /\
             selected_book_isbn (state w2) = None /\
             library_locations (state w2) = None) as Hkeep.
  { intros ? -> -> ->. done. }
  match goal with
  | |- _ /\ search_query ?w2 = _ /\ _ =>
      destruct (Hkeep w2) as (Hq2 & Hsel2 & Hlib2)
  end.
  - destruct (_ && _); [destruct (negb _); [done|]|by destruct (_ && _ && _)].
    by destruct (search_books_value _ _ _ _ _ _) as [[[|b bs]|e] io'].
  - destruct (_ && _); [destruct (negb _); [done|]|by destruct (_ && _ && _)].
    by destruct (search_books_value _ _ _ _ _ _) as [[[|b bs]|e] io'].
  - destruct (_ && _); [destruct (negb _); [done|]|by destruct (_ && _ && _)].
    by destruct (search_books_value _ _ _ _ _ _) as [[[|b bs]|e] io'].
  - split; [done|]. split; [done|]. split; [done|]. split; [done|]. split; [done|].
    intros io0 h ui0. unfold library_search_block, bind at 1, get at 1. cbv beta iota.
    simpl session. simpl selected_book_isbn. by rewrite Hsel2.
Qed.


(** X27. When the analysis fails - the key of the language model is missing,
    the function of [openai_utils] raises, or the keywords cannot be
    joined - the error is recorded and shown and the catalog is not
    searched: no request is sent to it, that notice is the only one and
    there are no search results. Without the key the model is not called
    either. *)
Theorem failed_analysis_skips_the_book_search
    (OPENAI_API_KEY NAROU_API_KEY : option string) (user_input : string)
    (w : SubmitWorld) :
  user_input <> "" ->
  let called :=
    get_search_terms_from_gpt loads create user_input (default "" OPENAI_API_KEY) (gpt w) in
  let w' := (submit_block float_truthy repr loads create fromstring remote
               search_books_other OPENAI_API_KEY NAROU_API_KEY true user_input w).2 in
  let failed_with e g :=
    gpt w' = g /\
    notices w' = (notices w ++ [StErrorNotice ("GPT 분석 중 오류 발생: " +:+ str e)])%list /\
    error_message (state w') = Some ("GPT 분석 중 오류 발생: " +:+ str e) /\
    search_results w' = None in
  (truthy_opt OPENAI_API_KEY = false ->
   failed_with (ValueError "OpenAI API 키가 설정되지 않았습니다. .env 파일을 확인하세요.") (gpt w))
  /\
  (forall e,
      truthy_opt OPENAI_API_KEY = true ->
      called.1 = Raise e \/
      (exists gpt_analysis,
          called.1 = Return gpt_analysis /\ query_of float_truthy gpt_analysis = Raise e) ->
      failed_with e called.2 /\
      net_log (console (gpt w')) = net_log (console (gpt w))).
Proof.
  intros Hinput called w' failed_with. subst w' failed_with.
  destruct (submit_block_run OPENAI_API_KEY NAROU_API_KEY user_input w Hinput)
    as (q & w1 & w2 & Ha & Hb & ->).
  rewrite analysis_step_run in Ha. rewrite book_search_step_run in Hb.
  injection Hb as <-. split.
  - intros Hkey. rewrite Hkey in Ha. simpl in Ha. by injection Ha as <- <-.
  - intros e Hkey Hfail. rewrite Hkey in Ha. simpl in Ha.
    pose proof (get_search_terms_from_gpt_net_log user_input (default "" OPENAI_API_KEY)
                  (gpt w)) as Hnet.
    fold called in Ha, Hnet. destruct called as [o g]. simpl in Hfail, Hnet.
    assert ((Return q, w1) =
            (Return json.Null,
             analysis_failed e g
               (mkSubmit (gpt w) (notices w) user_input None
                  (mkSession None None None true)))) as Heq.
    { destruct Hfail as [-> | (t & -> & Hq)]; [|rewrite Hq in Ha];
        by injection Ha as <- <-. }
    injection Heq as -> ->. done.
Qed.

(** X28. The keywords come before the titles. With an empty refined query and
    a keyword, the query is the keywords joined, whatever the titles are -
    also when the joined keywords are the empty string - and a keyword
    that is not a string makes the join raise a [TypeError] that names
    its position and its type. A refined query that is not empty is taken
    as it is, and nothing is joined. *)
Theorem keywords_come_before_titles (gpt_analysis : Terms float) :
  (forall other_titles,
      narou_query gpt_analysis <> "" \/ keywords gpt_analysis <> [] ->
      query_of float_truthy gpt_analysis =
      query_of float_truthy
        (mkTerms (keywords gpt_analysis) other_titles (narou_query gpt_analysis)))
  /\
  (forall strs v others,
      keywords gpt_analysis = ((json.Str <$> strs) ++ v :: others)%list ->
      (forall s, v <> json.Str s) ->
      query_of float_truthy gpt_analysis =
      if truthy (narou_query gpt_analysis) then
        Return (json.Str (narou_query gpt_analysis))
      else
        Raise (OtherException "TypeError"
                 ("sequence item " +:+ pretty (length strs) +:+ ": expected str instance, "
                  +:+ json.type_name v +:+ " found"))).
Proof.
  split.
  - intros other_titles H. unfold query_of. simpl.
    destruct (truthy (narou_query gpt_analysis)) eqn:Hq; [done|].
    destruct H as [H|H]; [by apply truthy_true in H; congruence|].
    by rewrite bool_decide_eq_false_2.
  - intros strs v others Hkeywords Hv. unfold query_of. simpl Pyvalue.truthy.
    destruct (truthy (narou_query gpt_analysis)); [done|].
    rewrite Hkeywords. cbv beta iota delta [negb andb].
    rewrite bool_decide_eq_false_2 by (by destruct strs).
    cbv beta iota delta [negb]. unfold Pyvalue.join. clear Hkeywords.
    assert (forall i,
               Pyvalue.str_items i ((json.Str <$> strs) ++ v :: others) =
               Raise (OtherException "TypeError"
                        ("sequence item " +:+ pretty (i + length strs)%nat
                         +:+ ": expected str instance, " +:+ json.type_name v
                         +:+ " found")))
      as Hitems.
    { induction strs as [|s strs IH]; intros i.
      - simpl. rewrite Nat.add_0_r. destruct v; try done. by destruct (Hv s).
      - simpl. rewrite IH. simpl. by rewrite Nat.add_succ_r. }
    by rewrite (Hitems 0%nat).
Qed.

(** X29. What the user sees of a book search, by what the catalog answers: a
    service failure is recorded and shown as an error; an answer with
    records is stored and nothing is said; an answer without records -
    and so one that the parser rejects - is recorded and shown as the
    absence of results. *)
Theorem book_search_outcomes_as_shown (api_key query : string) (w : SubmitWorld) :
  api_key <> "" -> query <> "" ->
  truthy_opt (error_message (state w)) = false ->
  let answer :=
    remote (net_log (console (gpt w))) (srchBooks_request query api_key 1 20) in
  let w' := (book_search_step float_truthy fromstring remote search_books_other
               (Some api_key) true (json.Str query) w).2 in
  let none := "검색 결과가 없습니다. 다른 키워드로 시도해보세요." in
  (forall e,
      service_failure answer e ->
      let msg := "도서 검색 중 오류 발생: Failed to connect to Narou API: " +:+ str e in
      error_message (state w') = Some msg /\
      notices w' = (notices w ++ [StErrorNotice msg])%list /\
      search_results w' = search_results w)
  /\
  (forall r,
      answer = Return r -> ~ (400 <= requests.status_code r < 600) ->
      (forall items,
          (_parse_xml_response fromstring (requests.text r) "docs" "doc"
             (console (gpt w))).1 = Return items ->
          match items with
          | [] =>
              error_message (state w') = Some none /\
              notices w' = (notices w ++ [StWarningNotice none])%list /\
              search_results w' = search_results w
          | _ :: _ =>
              search_results w' = Some items /\
              notices w' = notices w /\
              error_message (state w') = error_message (state w)
          end)
      /\
      (forall e,
          fromstring (requests.text r) = Raise e ->
          error_message (state w') = Some none /\
          notices w' = (notices w ++ [StWarningNotice none])%list)).
Proof.
  intros Hkey Hquery%truthy_true Herr answer w' none. subst w' answer.
  rewrite book_search_step_run. simpl Pyvalue.truthy. rewrite Hquery, Herr.
  simpl truthy_opt. rewrite (proj2 (truthy_true api_key) Hkey).
  cbv beta iota delta [negb andb snd]. simpl default. simpl search_books_value.
  rewrite search_books_run by done.
  split.
  - intros e Hfail.
    pose proof (after_request_failure fromstring remote _ "docs" "doc"
                  "Error during Narou API book search request: "
                  "An unexpected error occurred during book search: "
                  (console (gpt w)) e Hfail) as Hraise.
    destruct (after_request _ _ _ _ _ _ _ _) as [o io']. simpl in Hraise. subst o.
    done.
  - intros r Hr Hstatus.
    pose proof (after_request_passes_body fromstring remote _ "docs" "doc"
                  "Error during Narou API book search request: "
                  "An unexpected error occurred during book search: "
                  (console (gpt w)) r Hr Hstatus) as Hbody.
    destruct (after_request _ _ _ _ _ _ _ _) as [o io']. simpl in Hbody. subst o.
    split.
    + intros items ->. by destruct items.
    + intros e He. rewrite parse_xml_response_result, He. done.
Qed.

End submit_facts.

Lemma no_valid_query_is_never_reported_witness :
  let w' := (submit_block (fun _ : unit => true) (fun _ => "") Scenario.loads
               (Scenario.replies Scenario.object_text) ET.fromstring
               (Scenario.answers "<html>Service Unavailable") Scenario.no_other_query
               (Some "sk-key") (Some "key") true "a book about python"
               Scenario.fresh_submit).2 in
  error_message (state w') <> Some no_valid_query /\
  exists added,
    notices w' = added /\ StWarningNotice no_valid_query ∉ added.
Proof.
  apply (no_valid_query_is_never_reported (fun _ : unit => true) (fun _ => "")
           Scenario.loads (Scenario.replies Scenario.object_text) ET.fromstring
           (Scenario.answers "<html>Service Unavailable") Scenario.no_other_query
           (Some "sk-key") (Some "key") "a book about python" Scenario.fresh_submit).
  discriminate.
Defined.

Lemma submit_resets_the_selection_witness :
  let after := submit_block (fun _ : unit => true) (fun _ => "") Scenario.loads
                 (Scenario.replies Scenario.object_text) ET.fromstring
                 (Scenario.answers "<html>Service Unavailable") Scenario.no_other_query
                 (Some "sk-key") (Some "key") true "a book about python"
                 Scenario.fresh_submit in
  after.1 = Return tt /\
  search_query after.2 = "a book about python" /\
  selected_book_isbn (state after.2) = None /\
  library_locations (state after.2) = None /\
  loading (state after.2) = false /\
  forall (io0 : World) (h : gmap loc (pd.DataFrame (Z * nat))) (ui0 : list ui_event),
    library_search_block Decimal.to_num ET.fromstring
      (Scenario.answers "<html>Service Unavailable") (Some "key")
      (mkApp io0 h ui0 (state after.2)) =
    (Return tt, mkApp io0 h ui0 (state after.2)).
Proof.
  apply (submit_resets_the_selection (fun _ : unit => true) (fun _ => "")
           Scenario.loads (Scenario.replies Scenario.object_text) ET.fromstring
           (Scenario.answers "<html>Service Unavailable") Scenario.no_other_query
           Decimal.to_num (Some "sk-key") (Some "key") "a book about python"
           Scenario.fresh_submit).
  discriminate.
Defined.


Lemma failed_analysis_skips_the_book_search_witness :
  let w' := (submit_block (fun _ : unit => true) (fun _ => "") Scenario.loads
               (Scenario.fails (OtherException "JSONDecodeError" "Expecting value"))
               ET.fromstring Scenario.down Scenario.no_other_query
               (Some "sk-key") (Some "key") true "a book about python"
               Scenario.fresh_submit).2 in
  notices w' =
  [StErrorNotice
     "GPT 분석 중 오류 발생: cannot access local variable 'analysis_result' where it is not associated with a value"] /\
  search_results w' = None /\
  net_log (console (gpt w')) = [].
Proof.
  assert ("a book about python" <> "") as Hinput by discriminate.
  destruct (failed_analysis_skips_the_book_search (fun _ : unit => true) (fun _ => "")
              Scenario.loads
              (Scenario.fails (OtherException "JSONDecodeError" "Expecting value"))
              ET.fromstring Scenario.down Scenario.no_other_query
              (Some "sk-key") (Some "key") "a book about python" Scenario.fresh_submit
              Hinput) as [_ Hfailed].
  destruct (Hfailed
              (OtherException "UnboundLocalError"
                 "cannot access local variable 'analysis_result' where it is not associated with a value"))
    as [(_ & Hnotices & _ & Hresults) Hnet];
    [reflexivity|left; reflexivity|].
  split; [exact Hnotices|]. split; [exact Hresults|exact Hnet].
Defined.

Lemma keywords_come_before_titles_witness :
  query_of (fun _ : unit => true)
    (mkTerms [json.Str "python"; json.Int 3] [json.Str "Fluent Python"] "") =
  Raise (OtherException "TypeError"
           ("sequence item " +:+ pretty 1%nat +:+ ": expected str instance, int found")).
Proof.
  destruct (keywords_come_before_titles (fun _ : unit => true)
              (mkTerms [json.Str "python"; json.Int 3] [json.Str "Fluent Python"] ""))
    as [_ Hjoin].
  apply (Hjoin ["python"] (json.Int 3) []); [reflexivity|discriminate].
Defined.

Lemma book_search_outcomes_as_shown_witness :
  let w' := (book_search_step (fun _ : unit => true) ET.fromstring
               (Scenario.answers "<html>Service Unavailable") Scenario.no_other_query
               (Some "key") true (json.Str "python") Scenario.fresh_submit).2 in
  error_message (state w') = Some "검색 결과가 없습니다. 다른 키워드로 시도해보세요." /\
  notices w' = [StWarningNotice "검색 결과가 없습니다. 다른 키워드로 시도해보세요."].
Proof.
  assert ("key" <> "") as Hkey by discriminate.
  assert ("python" <> "") as Hquery by discriminate.
  destruct (book_search_outcomes_as_shown (fun _ : unit => true) ET.fromstring
              (Scenario.answers "<html>Service Unavailable") Scenario.no_other_query
              "key" "python" Scenario.fresh_submit Hkey Hquery eq_refl)
    as [_ Hanswer].
  destruct (Hanswer (requests.mkResponse 200 "OK" "http://data4library.kr/api/srchBooks"
                       "<html>Service Unavailable"))
    as [_ Hrejected]; [reflexivity|simpl; lia|].
  apply (Hrejected (ParseError "not well-formed (invalid token)")). reflexivity.
Defined.

(* ===================================================================== *)
(** * The header of the map *)
(* ===================================================================== *)

(** X30. The title in the header of the map is the [bookname] of the first
    search result that carries the selected identifier - the placeholder
    if that result has no [bookname], even when a later one has - and the
    placeholder when no result carries the identifier. *)
Theorem selected_book_title_spec (results_list : list record) (isbn : string) :
  isbn <> "" ->
  (forall before book_info after,
      results_list = (before ++ book_info :: after)%list ->
      Forall (fun b : record => b !! "isbn13" <> Some isbn) before ->
      book_info !! "isbn13" = Some isbn ->
      selected_book_title (Some results_list) (Some isbn) =
      default "선택된 도서" (book_info !! "bookname"))
  /\
  (Forall (fun b : record => b !! "isbn13" <> Some isbn) results_list ->
   selected_book_title (Some results_list) (Some isbn) = "선택된 도서").
Proof.
  intros Hisbn%truthy_true. split.
  - intros before book_info after -> Hbefore Hbook.
    assert (list_find (fun b : record => b !! "isbn13" = Some isbn)
              (before ++ book_info :: after) = Some (length before, book_info)) as Hfind.
    { apply list_find_Some. split; [by apply list_lookup_middle|]. split; [done|].
      intros j y Hj Hlt. rewrite lookup_app_l in Hj by done.
      eapply Forall_forall in Hbefore; [exact Hbefore|].
      by eapply list_elem_of_lookup_2. }
    unfold selected_book_title.
    destruct (before ++ book_info :: after)%list as [|b l] eqn:Hl;
      [by destruct before|].
    rewrite Hisbn, Hfind. rewrite bool_decide_eq_true_2; [done|].
    intros ->. by rewrite lookup_empty in Hbook.
  - intros Hnone. unfold selected_book_title.
    destruct results_list as [|b l]; [done|]. rewrite Hisbn.
    rewrite (proj2 (list_find_None _ _)); [done|]. exact Hnone.
Qed.

Lemma selected_book_title_spec_witness :
  selected_book_title (Some Scenario.results) (Some "9791162245651") = "선택된 도서" /\
  selected_book_title (Some Scenario.results) (Some "9788966262281") = "Effective Python".
Proof.
  assert ("9791162245651" <> "") as H1 by discriminate.
  assert ("9788966262281" <> "") as H2 by discriminate.
  split.
  - destruct (selected_book_title_spec Scenario.results "9791162245651" H1) as [Hfirst _].
    rewrite (Hfirst [ {[ "isbn13" := "9788966262281"; "bookname" := "Effective Python" ]} ]
               {[ "isbn13" := "9791162245651" ]}
               [ {[ "isbn13" := "9791162245651"; "bookname" := "Fluent Python" ]} ]).
    + vm_compute. reflexivity.
    + reflexivity.
    + repeat constructor. vm_compute. discriminate.
    + vm_compute. reflexivity.
  - destruct (selected_book_title_spec Scenario.results "9788966262281" H2) as [Hfirst _].
    rewrite (Hfirst []
               {[ "isbn13" := "9788966262281"; "bookname" := "Effective Python" ]}
               [ {[ "isbn13" := "9791162245651" ]};
                 {[ "isbn13" := "9791162245651"; "bookname" := "Fluent Python" ]} ]).
    + vm_compute. reflexivity.
    + reflexivity.
    + constructor.
    + vm_compute. reflexivity.
Defined.
